(** * miniDAQ operator console: the serial command/response client and the
    workflows built on it ([Test Script Code/Testing GUI.py]).

    The development follows the source file top-down:
    - the Python values the program handles (text, bytes, decoded JSON);
    - the library calls it makes ([bytes.decode], [str.strip], [re.search],
      [json.loads], [float]) as executable functions;
    - [SerialComm] ([open], [close], [is_open], [send_cmd]) as a state and
      exception monad over the port handle and an explicit device;
    - [DAQGui] (logging, the command worker, the guided calibration and the
      full automated test) over the same monad;
    - [send_cmd] once more over a port handle whose timeout is assigned
      as pyserial does it ([Pyserial.send_cmd]);
    - the properties of the specification, one theorem per claim (C1 to
      C10);
    - the rest of the window (connecting, closing, port polling, the LED
      slider) and further properties read off the code (X1 to X30). *)

From Stdlib Require Import List ZArith NArith Bool Ascii String Lia.
From Stdlib Require Import DecimalString.
From Stdlib.Strings Require Byte.
Import ListNotations.

Local Open Scope Z_scope.
Local Open Scope list_scope.


(* ------------------------------------------------------------------ *)
(** * Text and bytes *)

(** A Python [str] is a sequence of code points; [bytes] is a sequence of
    octets. *)
Definition str := list N.
Definition bytes := list Byte.byte.

(** An ASCII literal of the source as a [str]. *)
Definition lit (s : string) : str := map N_of_ascii (list_ascii_of_string s).

Definition NL : N := 10.        (* '\n' *)
Definition DQUOTE : N := 34.
Definition BSLASH : N := 92.
Definition LBRACE : N := 123.   (* '{' *)
Definition RBRACE : N := 125.   (* '}' *)
Definition REPLACEMENT : N := 65533.  (* U+FFFD *)

Definition str_eqb (a b : str) : bool :=
  if list_eq_dec N.eq_dec a b then true else false.

(** [str(n)] for an [int]. *)
Definition str_of_Z (z : Z) : str := lit (NilZero.string_of_int (Z.to_int z)).

(** ** [str.strip()]

    Python strips the code points for which [str.isspace] holds. *)
Definition py_isspace (c : N) : bool :=
  ((9 <=? c) && (c <=? 13) || (28 <=? c) && (c <=? 32)
   || (c =? 133) || (c =? 160) || (c =? 5760)
   || (8192 <=? c) && (c <=? 8202)
   || (c =? 8232) || (c =? 8233) || (c =? 8239) || (c =? 8287)
   || (c =? 12288))%N.

Fixpoint lstrip (s : str) : str :=
  match s with
  | c :: t => if py_isspace c then lstrip t else s
  | [] => []
  end.

Definition rstrip (s : str) : str := rev (lstrip (rev s)).

Definition strip (s : str) : str := rstrip (lstrip s).

(** ** [bytes.decode('utf-8', errors='replace')]

    CPython's decoder: a well-formed sequence gives its code point; an
    ill-formed one is replaced by U+FFFD up to the first byte that cannot
    continue it, and decoding resumes there; a sequence cut off by the end
    of the input gives one U+FFFD.  It never raises. *)
Definition is_cont (c : N) : bool := ((128 <=? c) && (c <=? 191))%N.

Definition low6 (c : N) : N := N.land c 63.

(** Whether [c1] may follow the lead byte [c0] of a 3- or 4-byte sequence. *)
Definition second_ok (c0 c1 : N) : bool :=
  (if c0 =? 224 then (160 <=? c1) && (c1 <=? 191)        (* E0: A0..BF *)
   else if c0 =? 237 then (128 <=? c1) && (c1 <=? 159)   (* ED: 80..9F *)
   else if c0 =? 240 then (144 <=? c1) && (c1 <=? 191)   (* F0: 90..BF *)
   else if c0 =? 244 then (128 <=? c1) && (c1 <=? 143)   (* F4: 80..8F *)
   else is_cont c1)%N.

Fixpoint decode_utf8_replace (bs : bytes) : str :=
  match bs with
  | [] => []
  | b0 :: t0 =>
    let c0 := Byte.to_N b0 in
    if (c0 <? 128)%N then c0 :: decode_utf8_replace t0
    else if (c0 <? 194)%N then REPLACEMENT :: decode_utf8_replace t0
    else if (c0 <? 224)%N then
      match t0 with
      | [] => [REPLACEMENT]
      | b1 :: t1 =>
        let c1 := Byte.to_N b1 in
        if is_cont c1
        then (N.shiftl (N.land c0 31) 6 + low6 c1)%N :: decode_utf8_replace t1
        else REPLACEMENT :: decode_utf8_replace t0
      end
    else if (c0 <? 240)%N then
      match t0 with
      | [] => [REPLACEMENT]
      | b1 :: t1 =>
        let c1 := Byte.to_N b1 in
        if second_ok c0 c1 then
          match t1 with
          | [] => [REPLACEMENT]
          | b2 :: t2 =>
            let c2 := Byte.to_N b2 in
            if is_cont c2
            then (N.shiftl (N.land c0 15) 12 + N.shiftl (low6 c1) 6 + low6 c2)%N
                 :: decode_utf8_replace t2
            else REPLACEMENT :: decode_utf8_replace t1
          end
        else REPLACEMENT :: decode_utf8_replace t0
      end
    else if (c0 <? 245)%N then
      match t0 with
      | [] => [REPLACEMENT]
      | b1 :: t1 =>
        let c1 := Byte.to_N b1 in
        if second_ok c0 c1 then
          match t1 with
          | [] => [REPLACEMENT]
          | b2 :: t2 =>
            let c2 := Byte.to_N b2 in
            if is_cont c2 then
              match t2 with
              | [] => [REPLACEMENT]
              | b3 :: t3 =>
                let c3 := Byte.to_N b3 in
                if is_cont c3
                then (N.shiftl (N.land c0 7) 18 + N.shiftl (low6 c1) 12
                      + N.shiftl (low6 c2) 6 + low6 c3)%N
                     :: decode_utf8_replace t3
                else REPLACEMENT :: decode_utf8_replace t2
              end
            else REPLACEMENT :: decode_utf8_replace t1
          end
        else REPLACEMENT :: decode_utf8_replace t0
      end
    else REPLACEMENT :: decode_utf8_replace t0
  end.

(** ** [str.encode('utf-8')]

    Strict encoding: a surrogate code point cannot be encoded and raises
    [UnicodeEncodeError]; the error names the run of surrogates. *)
Definition is_surrogate (c : N) : bool := ((55296 <=? c) && (c <=? 57343))%N.

Definition byte_of_N (n : N) : Byte.byte :=
  match Byte.of_N n with Some b => b | None => Byte.x00 end.

Definition encode_codepoint (c : N) : bytes :=
  (if c <? 128 then [byte_of_N c]
   else if c <? 2048 then
     [byte_of_N (192 + N.shiftr c 6); byte_of_N (128 + low6 c)]
   else if c <? 65536 then
     [byte_of_N (224 + N.shiftr c 12); byte_of_N (128 + low6 (N.shiftr c 6));
      byte_of_N (128 + low6 c)]
   else
     [byte_of_N (240 + N.land (N.shiftr c 18) 7);
      byte_of_N (128 + low6 (N.shiftr c 12));
      byte_of_N (128 + low6 (N.shiftr c 6)); byte_of_N (128 + low6 c)])%N.

(** The position of the first surrogate of [s], counted from [i]. *)
Fixpoint first_surrogate (i : nat) (s : str) : option (nat * str) :=
  match s with
  | [] => None
  | c :: t => if is_surrogate c then Some (i, s) else first_surrogate (S i) t
  end.

Fixpoint surrogate_run (s : str) : nat :=
  match s with
  | c :: t => if is_surrogate c then S (surrogate_run t) else O
  | [] => O
  end.

Definition hex_digit (n : N) : N :=
  (if n <? 10 then 48 + n else 87 + n)%N.

Definition hex4 (c : N) : str :=
  [hex_digit (N.land (N.shiftr c 12) 15); hex_digit (N.land (N.shiftr c 8) 15);
   hex_digit (N.land (N.shiftr c 4) 15); hex_digit (N.land c 15)].

Definition str_of_nat (n : nat) : str := str_of_Z (Z.of_nat n).

(** [str(e)] of the [UnicodeEncodeError] for the surrogates at [i]. *)
Definition encode_error_msg (i : nat) (at_i : str) : str :=
  match at_i with
  | c :: t =>
    if is_surrogate (hd 0%N t)
    then lit "'utf-8' codec can't encode characters in position "
         ++ str_of_nat i ++ lit "-" ++ str_of_nat (i + surrogate_run t)
         ++ lit ": surrogates not allowed"
    else lit "'utf-8' codec can't encode character '" ++ [BSLASH] ++ lit "u"
         ++ hex4 c ++ lit "' in position " ++ str_of_nat i
         ++ lit ": surrogates not allowed"
  | [] => []
  end.

Definition encode_utf8 (s : str) : str + bytes :=
  match first_surrogate 0 s with
  | Some (i, at_i) => inl (encode_error_msg i at_i)
  | None => inr (flat_map encode_codepoint s)
  end.

(** ** [re.search(r'\{.*\}', line)]

    The leftmost ['{'] that has a ['}'] after it on the same line; the dot
    is greedy and does not match a newline, so the match runs to the last
    ['}'] before the next newline. *)

(** The longest prefix of [t] that holds no newline and ends with ['}']. *)
Fixpoint greedy_to_rbrace (t : str) : option str :=
  match t with
  | [] => None
  | c :: r =>
    if (c =? NL)%N then None
    else match greedy_to_rbrace r with
         | Some p => Some (c :: p)
         | None => if (c =? RBRACE)%N then Some [c] else None
         end
  end.

(** [m.group(0)] of the match, [None] when there is none. *)
Fixpoint re_search_braces (s : str) : option str :=
  match s with
  | [] => None
  | c :: t =>
    if (c =? LBRACE)%N then
      match greedy_to_rbrace t with
      | Some body => Some (c :: body)
      | None => re_search_braces t
      end
    else re_search_braces t
  end.

(* ------------------------------------------------------------------ *)
(** * Python values *)

(** A [float] is kept as the decimal it was converted from ([m * 10^e],
    signed), or as one of the special values; the operations the program
    applies to a float (comparison with zero, truth value, [repr]) are
    defined below so as to agree with the binary64 value that decimal
    rounds to. *)
Inductive pyfloat :=
| FNan
| FInf (neg : bool)
| FDec (neg : bool) (m : N) (e : Z).

(** The values [json.loads] produces; [PyNone] is Python's [None], which is
    both JSON [null] and the "no decoded value" of [send_cmd]. *)
#[local] Set Warnings "-register-all".
Inductive pyval :=
| PyNone
| PyBool (b : bool)
| PyInt (z : Z)
| PyFloat (f : pyfloat)
| PyStr (s : str)
| PyList (l : list pyval)
| PyDict (d : list (str * pyval)).

(** A positive decimal rounds to [0.0] exactly when it is at most half the
    smallest subnormal, [2^-1075] (the tie goes to the even neighbour). *)
Definition underflows (m : N) (e : Z) : bool :=
  (e <? 0) && (Z.of_N m * 2 ^ 1075 <=? 10 ^ (- e)).

Definition float_is_zero (f : pyfloat) : bool :=
  match f with
  | FDec _ m e => (m =? 0)%N || underflows m e
  | _ => false
  end.

(** [f <= 0]. *)
Definition float_le0 (f : pyfloat) : bool :=
  match f with
  | FNan => false
  | FInf neg => neg
  | FDec neg m e => neg || float_is_zero f
  end.

(** The integer a decimal denotes, when it denotes one. *)
Definition float_integral (m : N) (e : Z) : option Z :=
  if 0 <=? e then Some (Z.of_N m * 10 ^ e)
  else if Z.of_N m mod 10 ^ (- e) =? 0 then Some (Z.of_N m / 10 ^ (- e))
  else None.

(** ** Dictionaries, in insertion order *)
Definition pydict := list (str * pyval).

Fixpoint dict_get (d : pydict) (k : str) : option pyval :=
  match d with
  | [] => None
  | (k', v) :: t => if str_eqb k' k then Some v else dict_get t k
  end.

Fixpoint dict_set (d : pydict) (k : str) (v : pyval) : pydict :=
  match d with
  | [] => [(k, v)]
  | (k', v') :: t =>
    if str_eqb k' k then (k', v) :: t else (k', v') :: dict_set t k v
  end.

(** [dict(pairs)]: a repeated key keeps its first place and its last value. *)
Definition dict_of_pairs (ps : list (str * pyval)) : pydict :=
  fold_left (fun d kv => dict_set d (fst kv) (snd kv)) ps [].

(** [bool(v)]. *)
Definition py_truthy (v : pyval) : bool :=
  match v with
  | PyNone => false
  | PyBool b => b
  | PyInt z => negb (z =? 0)
  | PyFloat f => negb (float_is_zero f)
  | PyStr s => match s with [] => false | _ => true end
  | PyList l => match l with [] => false | _ => true end
  | PyDict d => match d with [] => false | _ => true end
  end.

(** [isinstance(v, dict)]. *)
Definition is_dict (v : pyval) : bool :=
  match v with PyDict _ => true | _ => false end.

(** [type(v).__name__]. *)
Definition type_name (v : pyval) : str :=
  match v with
  | PyNone => lit "NoneType"
  | PyBool _ => lit "bool"
  | PyInt _ => lit "int"
  | PyFloat _ => lit "float"
  | PyStr _ => lit "str"
  | PyList _ => lit "list"
  | PyDict _ => lit "dict"
  end.

(* ------------------------------------------------------------------ *)
(** * [json.loads]

    The decoder of the [json] module with its defaults (strict strings,
    [NaN]/[Infinity] accepted, no hooks); [None] stands for any exception
    it raises.  The recursion is bounded by the length of the text, which
    every nested call shortens. *)

Definition is_json_ws (c : N) : bool :=
  ((c =? 32) || (c =? 9) || (c =? 10) || (c =? 13))%N.

Fixpoint skip_ws (s : str) : str :=
  match s with
  | c :: t => if is_json_ws c then skip_ws t else s
  | [] => []
  end.

Fixpoint strip_prefix (p s : str) : option str :=
  match p, s with
  | [], _ => Some s
  | a :: p', b :: s' => if (a =? b)%N then strip_prefix p' s' else None
  | _ :: _, [] => None
  end.

Definition is_digit (c : N) : bool := ((48 <=? c) && (c <=? 57))%N.

Fixpoint span_digits (s : str) : str * str :=
  match s with
  | c :: t =>
    if is_digit c then let (d, r) := span_digits t in (c :: d, r) else ([], s)
  | [] => ([], [])
  end.

Definition digits_value (ds : str) : N :=
  fold_left (fun acc c => 10 * acc + (c - 48))%N ds 0%N.

Definition hex_value (c : N) : option N :=
  (if (48 <=? c) && (c <=? 57) then Some (c - 48)
   else if (97 <=? c) && (c <=? 102) then Some (c - 87)
   else if (65 <=? c) && (c <=? 70) then Some (c - 55)
   else None)%N.

Definition hex4_value (a b c d : N) : option N :=
  match hex_value a, hex_value b, hex_value c, hex_value d with
  | Some x, Some y, Some z, Some w => Some (4096 * x + 256 * y + 16 * z + w)%N
  | _, _, _, _ => None
  end.

(** The one-character escapes of a JSON string. *)
Definition unescape (e : N) : option N :=
  (if (e =? 34) || (e =? 92) || (e =? 47) then Some e
   else if e =? 98 then Some 8        (* \b *)
   else if e =? 102 then Some 12      (* \f *)
   else if e =? 110 then Some 10      (* \n *)
   else if e =? 114 then Some 13      (* \r *)
   else if e =? 116 then Some 9       (* \t *)
   else None)%N.

Definition push (c : N) (r : option (str * str)) : option (str * str) :=
  match r with
  | Some (content, rest) => Some (c :: content, rest)
  | None => None
  end.

(** [scanstring]: the text after an opening quote, up to its closing quote;
    a [\uD8xx\uDCxx] pair is joined into one code point. *)
Fixpoint scanstring (s : str) : option (str * str) :=
  match s with
  | [] => None
  | c :: t =>
    if (c =? DQUOTE)%N then Some ([], t)
    else if (c =? BSLASH)%N then
      match t with
      | [] => None
      | e :: t1 =>
        if (e =? 117)%N then   (* \u *)
          match t1 with
          | h1 :: h2 :: h3 :: h4 :: t2 =>
            match hex4_value h1 h2 h3 h4 with
            | None => None
            | Some u =>
              if ((55296 <=? u) && (u <=? 56319))%N then
                match t2 with
                | b :: u' :: g1 :: g2 :: g3 :: g4 :: t3 =>
                  if ((b =? BSLASH) && (u' =? 117))%N then
                    match hex4_value g1 g2 g3 g4 with
                    | None => None
                    | Some u2 =>
                      if ((56320 <=? u2) && (u2 <=? 57343))%N
                      then push (65536 + 1024 * (u - 55296) + (u2 - 56320))%N
                                (scanstring t3)
                      else push u (scanstring t2)
                    end
                  else push u (scanstring t2)
                | _ => push u (scanstring t2)
                end
              else push u (scanstring t2)
            end
          | _ => None
          end
        else
          match unescape e with
          | Some c' => push c' (scanstring t1)
          | None => None
          end
      end
    else if (c <? 32)%N then None
    else push c (scanstring t)
  end.

(** [NUMBER_RE.match]: an optional minus sign and either a single 0 or a
    digit 1-9 followed by digits; then, optionally, a dot with at least one
    digit; then, optionally, e or E, an optional sign and at least one
    digit.  An integer without fraction and exponent is an [int], anything
    else a [float]. *)
Definition match_frac (s : str) : str * str :=
  match s with
  | c :: t =>
    if (c =? 46)%N then
      match span_digits t with
      | ([], _) => ([], s)
      | (fd, r) => (fd, r)
      end
    else ([], s)
  | [] => ([], s)
  end.

Definition match_exp (s : str) : option Z * str :=
  match s with
  | c :: t =>
    if ((c =? 101) || (c =? 69))%N then
      let (neg, t') :=
        match t with
        | sg :: r =>
          if (sg =? 45)%N then (true, r)
          else if (sg =? 43)%N then (false, r) else (false, t)
        | [] => (false, t)
        end in
      match span_digits t' with
      | ([], _) => (None, s)
      | (ed, r) =>
        let v := Z.of_N (digits_value ed) in
        (Some (if neg then - v else v), r)
      end
    else (None, s)
  | [] => (None, s)
  end.

Definition match_unsigned (neg : bool) (s1 : str) : option (pyval * str) :=
  match s1 with
  | c :: t =>
    if is_digit c then
      let (int_ds, s2) := if (c =? 48)%N then ([c], t) else span_digits s1 in
      let (frac_ds, s3) := match_frac s2 in
      let (exp, s4) := match_exp s3 in
      match frac_ds, exp with
      | [], None =>
        let v := Z.of_N (digits_value int_ds) in
        Some (PyInt (if neg then - v else v), s4)
      | _, _ =>
        let e := match exp with Some x => x | None => 0 end in
        Some (PyFloat (FDec neg (digits_value (int_ds ++ frac_ds))
                            (e - Z.of_nat (List.length frac_ds))), s4)
      end
    else None
  | [] => None
  end.

Definition match_number (s : str) : option (pyval * str) :=
  match s with
  | c :: t => if (c =? 45)%N then match_unsigned true t else match_unsigned false s
  | [] => None
  end.

Definition COLON : N := 58.
Definition COMMA : N := 44.
Definition LBRACKET : N := 91.
Definition RBRACKET : N := 93.

(** The constants and numbers [scan_once] tries after strings, objects and
    arrays, in the order of the scanner. *)
Definition scan_atom (s : str) : option (pyval * str) :=
  match strip_prefix (lit "null") s with
  | Some r => Some (PyNone, r)
  | None =>
  match strip_prefix (lit "true") s with
  | Some r => Some (PyBool true, r)
  | None =>
  match strip_prefix (lit "false") s with
  | Some r => Some (PyBool false, r)
  | None =>
  match match_number s with
  | Some res => Some res
  | None =>
  match strip_prefix (lit "NaN") s with
  | Some r => Some (PyFloat FNan, r)
  | None =>
  match strip_prefix (lit "Infinity") s with
  | Some r => Some (PyFloat (FInf false), r)
  | None =>
  match strip_prefix (lit "-Infinity") s with
  | Some r => Some (PyFloat (FInf true), r)
  | None => None
  end end end end end end end.

Fixpoint scan_once (fuel : nat) (s : str) {struct fuel} : option (pyval * str) :=
  match fuel with
  | O => None
  | S n =>
    match s with
    | [] => None
    | c :: t =>
      if (c =? DQUOTE)%N then
        match scanstring t with
        | Some (x, r) => Some (PyStr x, r)
        | None => None
        end
      else if (c =? LBRACE)%N then
        (* JSONObject *)
        match skip_ws t with
        | q :: t1 =>
          if (q =? RBRACE)%N then Some (PyDict [], t1)
          else if (q =? DQUOTE)%N then object_members n [] t1
          else None
        | [] => None
        end
      else if (c =? LBRACKET)%N then
        (* JSONArray *)
        match skip_ws t with
        | q :: t1 =>
          if (q =? RBRACKET)%N then Some (PyList [], t1)
          else array_elements n [] (q :: t1)
        | [] => None
        end
      else scan_atom s
    end
  end

(** One [key : value] pair and what follows it; [s] starts after the
    opening quote of the key. *)
with object_members (fuel : nat) (pairs : list (str * pyval)) (s : str)
       {struct fuel} : option (pyval * str) :=
  match fuel with
  | O => None
  | S n =>
    match scanstring s with
    | None => None
    | Some (key, s1) =>
      match skip_ws s1 with
      | c :: s2 =>
        if (c =? COLON)%N then
          match scan_once n (skip_ws s2) with
          | None => None
          | Some (v, s3) =>
            let pairs' := pairs ++ [(key, v)] in
            match skip_ws s3 with
            | c2 :: s4 =>
              if (c2 =? RBRACE)%N then Some (PyDict (dict_of_pairs pairs'), s4)
              else if (c2 =? COMMA)%N then
                match skip_ws s4 with
                | q :: s5 =>
                  if (q =? DQUOTE)%N then object_members n pairs' s5 else None
                | [] => None
                end
              else None
            | [] => None
            end
          end
        else None
      | [] => None
      end
    end
  end

(** One array element and what follows it; [s] starts at the element. *)
with array_elements (fuel : nat) (values : list pyval) (s : str)
       {struct fuel} : option (pyval * str) :=
  match fuel with
  | O => None
  | S n =>
    match scan_once n s with
    | None => None
    | Some (v, s1) =>
      let values' := values ++ [v] in
      match skip_ws s1 with
      | c :: s2 =>
        if (c =? RBRACKET)%N then Some (PyList values', s2)
        else if (c =? COMMA)%N then array_elements n values' (skip_ws s2)
        else None
      | [] => None
      end
    end
  end.

Definition BOM : N := 65279.

(** [json.loads(s)] for a [str]; [None] is an exception.  The limits of
    the interpreter are left out: an integer literal of more than 4300
    digits and a nesting deeper than the recursion limit raise in Python
    and decode here. *)
Definition json_loads (s : str) : option pyval :=
  match strip_prefix [BOM] s with
  | Some _ => None
  | None =>
    match scan_once (S (List.length s)) (skip_ws s) with
    | Some (v, rest) =>
      match skip_ws rest with
      | [] => Some v
      | _ :: _ => None
      end
    | None => None
    end
  end.

(* ------------------------------------------------------------------ *)
(** * Exceptions, state and the device *)

Inductive exn_class :=
| RuntimeError | TimeoutError | ValueError | AttributeError
| UnicodeEncodeError | SerialException.

(** An exception: its class and [str(e)]. *)
Record exn := Exn { exn_class_of : exn_class; exn_str : str }.

(** A computation over a state [St] that returns or raises. *)
Definition M (St A : Type) : Type := St -> (exn + A) * St.

Section Monad.
Context {St : Type}.

Definition ret {A} (a : A) : M St A := fun s => (inr a, s).

Definition bind {A B} (m : M St A) (k : A -> M St B) : M St B :=
  fun s => match m s with
           | (inr a, s') => k a s'
           | (inl e, s') => (inl e, s')
           end.

Definition raise {A} (e : exn) : M St A := fun s => (inl e, s).

(** [try: m except Exception as e: h e]. *)
Definition try_except {A} (m : M St A) (h : exn -> M St A) : M St A :=
  fun s => match m s with
           | (inl e, s') => h e s'
           | (inr a, s') => (inr a, s')
           end.

(** [try: m finally: f]: [f] runs on both exits; its own exception wins. *)
Definition try_finally {A} (m : M St A) (f : M St unit) : M St A :=
  fun s => match m s with
           | (r, s') =>
             match f s' with
             | (inl e, s'') => (inl e, s'')
             | (inr _, s'') => (r, s'')
             end
           end.

Definition gets {A} (f : St -> A) : M St A := fun s => (inr (f s), s).

Definition modify (f : St -> St) : M St unit := fun s => (inr tt, f s).

(** [for x in xs: body x]. *)
Fixpoint for_each {A} (xs : list A) (body : A -> M St unit) : M St unit :=
  match xs with
  | [] => ret tt
  | x :: r => bind (body x) (fun _ => for_each r body)
  end.

End Monad.

Declare Scope monad_scope.
Delimit Scope monad_scope with monad.
Notation "x <- m ;; k" := (bind m (fun x => k))
  (at level 61, m at next level, right associativity) : monad_scope.
Notation "m ;; k" := (bind m (fun _ => k))
  (at level 61, right associativity) : monad_scope.
Local Open Scope monad_scope.

(** [with self.lock:] -- the model runs one thread at a time, so taking the
    lock always succeeds at once and releasing it changes nothing. *)
Definition with_lock {St A} (m : M St A) : M St A := m.

(** [time.sleep]: no effect on the modelled state. *)
Definition sleep_ms {St} (ms : Z) : M St unit := ret tt.

(** ** The port handle ([serial.Serial]) and the device behind it *)

Record Serial := mkSerial {
  s_port : str;
  s_baudrate : Z;
  s_is_open : bool;          (* [is_open] *)
  s_timeout : Z;             (* [timeout], the read timeout in seconds *)
  s_in_buffer : bytes;       (* received and not yet read *)
  s_close_fault : option str (* [close()] of this handle raises *)
}.

Inductive OpenResult :=
| OpenFails (msg : str)
| OpenOk (close_fault : option str).

(** What the operating system and the device do at the k-th call of each
    kind: whether the call raises ([Some msg]: a [SerialException] with
    that text), and the bytes that reach the host within a given timeout
    after the k-th read starts. *)
Record Device := mkDevice {
  dev_open : nat -> str -> OpenResult;
  dev_reset_fault : nat -> option str;
  dev_write_fault : nat -> option str;
  dev_read_fault : nat -> option str;
  dev_incoming : nat -> Z -> bytes
}.

(** The calls made on the channel, oldest first; a read is recorded with
    the timeout in force and with what it returned ([None]: it raised). *)
Inductive IOCall :=
| CallOpen (port : str) (baud timeout : Z)
| CallClose
| CallReset
| CallWrite (data : bytes)
| CallReadline (timeout : Z) (result : option bytes).

Definition is_CallOpen (c : IOCall) : bool :=
  match c with CallOpen _ _ _ => true | _ => false end.
Definition is_CallReset (c : IOCall) : bool :=
  match c with CallReset => true | _ => false end.
Definition is_CallWrite (c : IOCall) : bool :=
  match c with CallWrite _ => true | _ => false end.
Definition is_CallReadline (c : IOCall) : bool :=
  match c with CallReadline _ _ => true | _ => false end.

Definition count_calls (p : IOCall -> bool) (tr : list IOCall) : nat :=
  List.length (filter p tr).

(** The state of a [SerialComm] object together with its environment. *)
Record Comm := mkComm {
  ser : option Serial;       (* [self.ser] *)
  dev : Device;
  channel : list IOCall
}.

Definition set_ser (s : option Serial) (c : Comm) : Comm :=
  mkComm s (dev c) (channel c).

Definition log_call (e : IOCall) (c : Comm) : Comm :=
  mkComm (ser c) (dev c) (channel c ++ [e]).

Definition set_is_open (b : bool) (s : Serial) : Serial :=
  mkSerial (s_port s) (s_baudrate s) b (s_timeout s) (s_in_buffer s)
           (s_close_fault s).

Definition set_timeout (t : Z) (s : Serial) : Serial :=
  mkSerial (s_port s) (s_baudrate s) (s_is_open s) t (s_in_buffer s)
           (s_close_fault s).

Definition set_in_buffer (b : bytes) (s : Serial) : Serial :=
  mkSerial (s_port s) (s_baudrate s) (s_is_open s) (s_timeout s) b
           (s_close_fault s).

(** An attribute access on [self.ser]; on [None] it raises as Python does. *)
Definition on_ser {A} (attr : string) (f : Serial -> M Comm A) : M Comm A :=
  fun c =>
    match ser c with
    | Some s => f s c
    | None =>
      (inl (Exn AttributeError
                (lit "'NoneType' object has no attribute '" ++ lit attr
                 ++ lit "'")), c)
    end.

Definition port_not_open {A} : M Comm A :=
  raise (Exn SerialException (lit "Attempting to use a port that is not open")).

(** [serial.Serial(port, baudrate=baud, timeout=timeout)]. *)
Definition Serial_new (port : str) (baud timeout : Z) : M Comm Serial :=
  k <- gets (fun c => count_calls is_CallOpen (channel c));;
  modify (log_call (CallOpen port baud timeout));;
  d <- gets dev;;
  match dev_open d k port with
  | OpenFails msg => raise (Exn SerialException msg)
  | OpenOk cf => ret (mkSerial port baud true timeout [] cf)
  end.

(** [self.ser.close()]: a fault leaves the handle open. *)
Definition ser_close : M Comm unit :=
  on_ser "close" (fun s =>
    modify (log_call CallClose);;
    if s_is_open s then
      match s_close_fault s with
      | Some msg => raise (Exn SerialException msg)
      | None => modify (set_ser (Some (set_is_open false s)))
      end
    else ret tt).

(** [self.ser.reset_input_buffer()]. *)
Definition ser_reset_input_buffer : M Comm unit :=
  on_ser "reset_input_buffer" (fun s =>
    if s_is_open s then
      k <- gets (fun c => count_calls is_CallReset (channel c));;
      modify (log_call CallReset);;
      d <- gets dev;;
      match dev_reset_fault d k with
      | Some msg => raise (Exn SerialException msg)
      | None => modify (set_ser (Some (set_in_buffer [] s)))
      end
    else port_not_open).

(** [self.ser.write(data)]. *)
Definition ser_write (data : bytes) : M Comm unit :=
  on_ser "write" (fun s =>
    if s_is_open s then
      k <- gets (fun c => count_calls is_CallWrite (channel c));;
      modify (log_call (CallWrite data));;
      d <- gets dev;;
      match dev_write_fault d k with
      | Some msg => raise (Exn SerialException msg)
      | None => ret tt
      end
    else port_not_open).

(** The bytes up to and including the first newline, and the rest; all of
    the input when it holds no newline. *)
Fixpoint split_line (bs : bytes) : bytes * bytes :=
  match bs with
  | [] => ([], [])
  | b :: t =>
    if (Byte.to_N b =? NL)%N then ([b], t)
    else let (l, r) := split_line t in (b :: l, r)
  end.

(** [self.ser.readline()]: one line of what is buffered followed by what
    arrives within the handle's current timeout; fewer bytes (possibly
    none) when the timeout expires before a newline. *)
Definition ser_readline : M Comm bytes :=
  on_ser "readline" (fun s =>
    if s_is_open s then
      k <- gets (fun c => count_calls is_CallReadline (channel c));;
      d <- gets dev;;
      match dev_read_fault d k with
      | Some msg =>
        modify (log_call (CallReadline (s_timeout s) None));;
        raise (Exn SerialException msg)
      | None =>
        let (line, rest) :=
          split_line (s_in_buffer s ++ dev_incoming d k (s_timeout s)) in
        modify (log_call (CallReadline (s_timeout s) (Some line)));;
        modify (set_ser (Some (set_in_buffer rest s)));;
        ret line
      end
    else port_not_open).

(** [self.ser.timeout], and [self.ser.timeout = t] on a port that takes
    the reconfiguration the assignment triggers: the value is stored and
    nothing raises.  The assignment in full, which first validates the
    value and can fail to reconfigure the port, is [timeout_setter]
    below, and [Pyserial.send_cmd] is [send_cmd] over it. *)
Definition ser_get_timeout : M Comm Z :=
  on_ser "timeout" (fun s => ret (s_timeout s)).

Definition ser_set_timeout (t : Z) : M Comm unit :=
  on_ser "timeout" (fun s => modify (set_ser (Some (set_timeout t s)))).

(* ------------------------------------------------------------------ *)
(** * [class SerialComm] *)

Definition BAUDRATE : Z := 115200.
Definition READ_TIMEOUT : Z := 5.
Definition CMD_TIMEOUT : Z := 15.

(** [self.ser and self.ser.is_open]. *)
Definition handle_open (s : option Serial) : bool :=
  match s with Some h => s_is_open h | None => false end.

(** Lines 79-89 of [send_cmd]: the decoded value of a reply line, [None]
    when neither the line nor its braced part is JSON. *)
Definition parse_reply (line : str) : pyval :=
  match json_loads line with
  | Some v => v
  | None =>
    match re_search_braces line with
    | Some m0 =>
      match json_loads m0 with
      | Some v => v
      | None => PyNone
      end
    | None => PyNone
    end
  end.

Definition timeout_msg (cmd : str) (timeout : Z) : str :=
  lit "No response within " ++ str_of_Z timeout ++ lit "s for command: " ++ cmd.

Module SerialComm.

(** [__init__]: no handle yet. *)
Definition init (d : Device) : Comm := mkComm None d [].

Definition open (port : str) (baud timeout : Z) : M Comm bool :=
  with_lock (
    s <- gets ser;;
    (if handle_open s then ser_close else ret tt);;
    h <- Serial_new port baud timeout;;
    modify (set_ser (Some h));;
    sleep_ms 200;;
    ret true).

Definition close : M Comm unit :=
  with_lock (
    s <- gets ser;;
    match s with
    | Some _ =>
      try_except ser_close (fun _ => ret tt);;
      modify (set_ser None)
    | None => ret tt
    end).

Definition is_open : M Comm bool :=
  with_lock (gets (fun c => handle_open (ser c))).

Definition send_cmd (cmd : str) (timeout : Z) : M Comm (pyval * str) :=
  with_lock (
    s <- gets ser;;
    if negb (handle_open s)
    then raise (Exn RuntimeError (lit "Serial port not open"))
    else
      try_except ser_reset_input_buffer (fun _ => ret tt);;
      let cmd_line := strip cmd ++ [NL] in
      data <- match encode_utf8 cmd_line with
              | inl msg => raise (Exn UnicodeEncodeError msg)
              | inr data => ret data
              end;;
      ser_write data;;
      old_timeout <- ser_get_timeout;;
      ser_set_timeout timeout;;
      raw <- try_finally ser_readline (ser_set_timeout old_timeout);;
      match raw with
      | [] => raise (Exn TimeoutError (timeout_msg cmd timeout))
      | _ :: _ =>
        line <- try_except
                  (ret (strip (decode_utf8_replace raw)))
                  (fun e => raise (Exn RuntimeError
                                       (lit "Failed to decode response: "
                                        ++ exn_str e)));;
        ret (parse_reply line, line)
      end).

End SerialComm.

(* ------------------------------------------------------------------ *)
(** * The rest of the Python runtime the console relies on

    What the program prints depends on library functions whose tables and
    algorithms are not part of this repository; they are taken as given. *)
Record PyRuntime := mkRuntime {
  (** [time.strftime('%Y-%m-%d %H:%M:%S')] at the k-th reading of the clock *)
  strftime : nat -> str;
  (** the digit a non-ASCII decimal digit stands for (Unicode database) *)
  unicode_decimal : N -> option N;
  (** [repr] of a float that is not a small whole number *)
  float_repr_other : pyfloat -> str;
  (** [repr] of a list or a dict *)
  container_repr : pyval -> str;
  (** [json.dumps(v, indent=i)] *)
  json_dumps : option Z -> pyval -> str
}.

Section Runtime.
Variable rt : PyRuntime.

(** [repr(f)]: a whole number of magnitude at most [2^53] is exact in
    binary64 and prints with [.0]. *)
Definition float_repr (f : pyfloat) : str :=
  match f with
  | FNan => lit "nan"
  | FInf neg => if neg then lit "-inf" else lit "inf"
  | FDec neg m e =>
    match float_integral m e with
    | Some n =>
      if n <=? 2 ^ 53
      then (if neg then lit "-" else []) ++ str_of_Z n ++ lit ".0"
      else float_repr_other rt f
    | None => float_repr_other rt f
    end
  end.

(** [str(v)], as an f-string formats a value. *)
Definition py_str (v : pyval) : str :=
  match v with
  | PyNone => lit "None"
  | PyBool true => lit "True"
  | PyBool false => lit "False"
  | PyInt z => str_of_Z z
  | PyFloat f => float_repr f
  | PyStr s => s
  | PyList _ | PyDict _ => container_repr rt v
  end.

(** ** [float(s)] for a [str]

    Non-ASCII spaces and decimal digits are first mapped to ASCII, the
    text is stripped of C whitespace, underscores are accepted between
    digits only, and the rest must be a decimal literal, [inf],
    [infinity] or [nan] with an optional sign; [None] is [ValueError]. *)
Fixpoint ascii_digits_and_spaces (s : str) : str :=
  match s with
  | [] => []
  | c :: t =>
    if (c <? 128)%N then c :: ascii_digits_and_spaces t
    else if py_isspace c then 32%N :: ascii_digits_and_spaces t
    else match unicode_decimal rt c with
         | Some d => (48 + d)%N :: ascii_digits_and_spaces t
         | None => [63%N]
         end
  end.

Definition c_isspace (c : N) : bool :=
  ((9 <=? c) && (c <=? 13) || (c =? 32))%N.

Fixpoint c_lstrip (s : str) : str :=
  match s with
  | c :: t => if c_isspace c then c_lstrip t else s
  | [] => []
  end.

Definition c_strip (s : str) : str := rev (c_lstrip (rev (c_lstrip s))).

Definition UNDERSCORE : N := 95.

(** The text without its underscores, when each stands between two
    digits; [prev] is the character before [s] (0 at the start). *)
Fixpoint drop_underscores (prev : N) (s : str) : option str :=
  match s with
  | [] => if (prev =? UNDERSCORE)%N then None else Some []
  | c :: t =>
    if (c =? UNDERSCORE)%N then
      if is_digit prev then drop_underscores c t else None
    else if (prev =? UNDERSCORE)%N && negb (is_digit c) then None
    else match drop_underscores c t with
         | Some r => Some (c :: r)
         | None => None
         end
  end.

Definition lower (c : N) : N :=
  (if (65 <=? c) && (c <=? 90) then c + 32 else c)%N.

Definition parse_sign (s : str) : bool * str :=
  match s with
  | c :: t =>
    if (c =? 45)%N then (true, t)
    else if (c =? 43)%N then (false, t) else (false, s)
  | [] => (false, s)
  end.

(** Digits, an optional dot and digits (at least one digit in all), and
    an optional exponent. *)
Definition parse_decimal (s : str) : option (N * Z * str) :=
  let (ip, s1) := span_digits s in
  let (fp, s2) :=
    match s1 with
    | c :: t => if (c =? 46)%N then span_digits t else ([], s1)
    | [] => ([], s1)
    end in
  match ip ++ fp with
  | [] => None
  | ds =>
    let (ex, s3) := match_exp s2 in
    let e := match ex with Some x => x | None => 0 end in
    Some (digits_value ds, e - Z.of_nat (List.length fp), s3)
  end.

Definition parse_inf_or_nan (neg : bool) (s : str) : option pyfloat :=
  let l := map lower s in
  if str_eqb l (lit "inf") || str_eqb l (lit "infinity") then Some (FInf neg)
  else if str_eqb l (lit "nan") then Some FNan
  else None.

Definition py_float (s : str) : option pyfloat :=
  match drop_underscores 0%N (c_strip (ascii_digits_and_spaces s)) with
  | None => None
  | Some body =>
    let (neg, r) := parse_sign body in
    match parse_decimal r with
    | Some (m, e, []) => Some (FDec neg m e)
    | Some (_, _, _ :: _) => None
    | None => parse_inf_or_nan neg r
    end
  end.

End Runtime.

(* ------------------------------------------------------------------ *)
(** * [class DAQGui]

    Of the window only what the workflows read and write is kept: the
    [SerialComm] object, the Responses pane, the status bar, the
    "Create test recording file" check box and the dialogs shown. *)

Inductive DialogKind := ShowWarning | ShowInfo | ShowError | AskYesNo | AskString.

Record Dialog := mkDialog {
  d_kind : DialogKind;
  d_title : str;
  d_message : str
}.

Record Gui := mkGui {
  comm : Comm;                 (* [self.comm] *)
  txt_responses : list str;    (* the pane: one element per logged entry *)
  status_var : str;
  chk_save_test : bool;
  dialogs : list Dialog;       (* message boxes and prompts, oldest first *)
  clock : nat;                 (* readings of the clock so far *)
  thread_errors : list exn     (* exceptions that ended a background thread *)
}.

Definition set_comm (c : Comm) (g : Gui) : Gui :=
  mkGui c (txt_responses g) (status_var g) (chk_save_test g) (dialogs g)
        (clock g) (thread_errors g).

Definition add_entry (e : str) (g : Gui) : Gui :=
  mkGui (comm g) (txt_responses g ++ [e]) (status_var g) (chk_save_test g)
        (dialogs g) (clock g) (thread_errors g).

Definition set_status (s : str) (g : Gui) : Gui :=
  mkGui (comm g) (txt_responses g) s (chk_save_test g) (dialogs g)
        (clock g) (thread_errors g).

Definition add_dialog (d : Dialog) (g : Gui) : Gui :=
  mkGui (comm g) (txt_responses g) (status_var g) (chk_save_test g)
        (dialogs g ++ [d]) (clock g) (thread_errors g).

Definition tick (g : Gui) : Gui :=
  mkGui (comm g) (txt_responses g) (status_var g) (chk_save_test g)
        (dialogs g) (S (clock g)) (thread_errors g).

Definition add_thread_error (e : exn) (g : Gui) : Gui :=
  mkGui (comm g) (txt_responses g) (status_var g) (chk_save_test g)
        (dialogs g) (clock g) (thread_errors g ++ [e]).

(** A method of [self.comm] called from the window. *)
Definition on_comm {A} (m : M Comm A) : M Gui A :=
  fun g => let (r, c') := m (comm g) in (r, set_comm c' g).

(** [messagebox.show...(title, message)]. *)
Definition show (k : DialogKind) (title message : string) : M Gui unit :=
  modify (add_dialog (mkDialog k (lit title) (lit message))).

Definition show_str (k : DialogKind) (title : string) (message : str)
  : M Gui unit :=
  modify (add_dialog (mkDialog k (lit title) message)).

(** [threading.Thread(target=..., daemon=True).start()]: the thread runs to
    its end where it is started (one of the schedules the lock allows);
    an exception that escapes it ends the thread, not the caller.  The
    state after [thread_start] is thus the window once the thread is
    done; in the program [start()] returns before that, so a property of
    this state says what the thread has done by its end, not what the
    caller finds on return. *)
Definition thread_start (target : M Gui unit) : M Gui unit :=
  fun g => match target g with
           | (inr _, g') => (inr tt, g')
           | (inl e, g') => (inr tt, add_thread_error e g')
           end.

(** [resp.get(key, default)]: only a dict has the method. *)
Definition py_get {St} (v : pyval) (key : str) (default : pyval) : M St pyval :=
  match v with
  | PyDict d =>
    ret (match dict_get d key with Some x => x | None => default end)
  | _ =>
    raise (Exn AttributeError
               (lit "'" ++ type_name v ++ lit "' object has no attribute 'get'"))
  end.

(** What the operator answers in the calibration dialogs. *)
Record Operator := mkOperator {
  tare_now : bool;              (* the answer to "Tare now?" *)
  weight_entry : option str     (* the text entered, [None] on Cancel *)
}.

Module DAQGui.
Section Methods.
Variable rt : PyRuntime.

Definition now : M Gui str :=
  fun g => (inr (strftime rt (clock g)), tick g).

Definition _log_response_plain (text : str) : M Gui unit :=
  ts <- now;;
  modify (add_entry (ts ++ lit " | " ++ text ++ [NL])).

Definition _log_response (raw : str) (parsed : pyval) : M Gui unit :=
  ts <- now;;
  if py_truthy parsed && is_dict parsed then
    ok <- py_get parsed (lit "ok") PyNone;;
    cmd <- py_get parsed (lit "cmd") (PyStr []);;
    msg <- py_get parsed (lit "msg") (PyStr []);;
    let summary := ts ++ lit " | " ++ py_str rt cmd ++ lit " | ok="
                   ++ py_str rt ok ++ lit " | msg=" ++ py_str rt msg ++ [NL] in
    let pretty := json_dumps rt (Some 2) parsed in
    modify (add_entry (summary ++ pretty ++ [NL; NL]))
  else
    modify (add_entry (ts ++ lit " | RAW: " ++ raw ++ [NL; NL])).

Definition callback_t : Type := bool -> pyval -> str -> M Gui unit.

Definition _cmd_worker (cmd : str) (timeout : Z) (callback : option callback_t)
  : M Gui unit :=
  modify (set_status (lit "Sending: " ++ cmd));;
  _log_response_plain (lit ">>> " ++ cmd);;
  try_finally
    (try_except
       (pr <- on_comm (SerialComm.send_cmd cmd timeout);;
        let (parsed, raw) := pr in
        _log_response raw parsed;;
        match callback with
        | Some f => f true parsed raw
        | None => ret tt
        end)
       (fun e =>
          let err := exn_str e in
          _log_response_plain (lit "<<< ERROR: " ++ err);;
          _log_response err PyNone;;
          match callback with
          | Some f => f false PyNone err
          | None => ret tt
          end))
    (modify (set_status (lit "Ready"))).

Definition _run_cmd_async (cmd : str) (timeout : Z) (callback : option callback_t)
  : M Gui unit :=
  thread_start (_cmd_worker cmd timeout callback).

(** The completion handler [cb] of [calibration_walkthrough]. *)
Definition cb (ok : bool) (resp : pyval) (raw : str) : M Gui unit :=
  if negb ok then
    show_str ShowError "Calibration failed" (lit "Error: " ++ raw)
  else
    okv <- py_get resp (lit "ok") PyNone;;
    if py_truthy okv then
      data <- py_get resp (lit "data") PyNone;;
      show_str ShowInfo "Calibration success"
               (lit "Calibration result:" ++ [NL] ++ json_dumps rt (Some 2) data)
    else
      msg <- py_get resp (lit "msg") PyNone;;
      show_str ShowError "Calibration error"
               (py_str rt msg ++ [NL] ++ json_dumps rt None resp).

Definition calibration_walkthrough (op : Operator) : M Gui unit :=
  connected <- on_comm SerialComm.is_open;;
  if negb connected then
    show ShowWarning "Not connected" "Connect to the board first"
  else
    show AskYesNo "Tare now?" "Issue a TARE before calibration?";;
    (if tare_now op
     then _run_cmd_async (lit "TARE") READ_TIMEOUT None;; sleep_ms 200
     else ret tt);;
    show ShowInfo "Place weight"
      "Place the known calibration weight on the scale, then click OK to continue.";;
    show AskString "Known weight (g)" "Enter known weight in grams:";;
    match weight_entry op with
    | None | Some [] =>
      show ShowInfo "Cancelled" "Calibration cancelled (no weight provided)."
    | Some weight_str =>
      checked <-
        try_except
          (weight_val <- match py_float rt weight_str with
                         | Some f => ret f
                         | None => raise (Exn ValueError
                                     (lit "could not convert string to float"))
                         end;;
           if float_le0 weight_val then raise (Exn ValueError [])
           else ret (Some weight_val))
          (fun _ =>
             show ShowError "Invalid value"
                  "Please enter a valid positive number in grams.";;
             ret None);;
      match checked with
      | None => ret tt
      | Some weight_val =>
        _run_cmd_async (lit "CALIBRATE " ++ float_repr rt weight_val)
                       CMD_TIMEOUT (Some cb)
      end
    end.

(** One step of the full test: send, then log the reply. *)
Definition send_and_log (cmd : str) (timeout : Z) : M Gui unit :=
  pr <- on_comm (SerialComm.send_cmd cmd timeout);;
  let (parsed, raw) := pr in
  _log_response raw parsed.

(** [except Exception as e: self._log_response(str(e), None)]. *)
Definition log_error (e : exn) : M Gui unit :=
  _log_response (exn_str e) PyNone.

Definition steps : list (str * Z) :=
  [(lit "PING", 3); (lit "STATUS", 3); (lit "TEST_TEMP", 3);
   (lit "TEST_PRESSURE", 3)].

Definition _full_test_worker : M Gui unit :=
  modify (set_status (lit "Running full test..."));;
  for_each steps (fun st =>
    try_except (send_and_log (fst st) (snd st)) log_error;;
    sleep_ms 200);;
  for_each (seq 0 4) (fun _ =>
    try_except (send_and_log (lit "READ") 3) log_error;;
    sleep_ms 200);;
  save <- gets chk_save_test;;
  (if save then
     try_except
       (send_and_log (lit "START") 5;;
        for_each (seq 0 6) (fun _ =>
          send_and_log (lit "READ") 3;;
          sleep_ms 200);;
        send_and_log (lit "STOP") 5)
       log_error
   else
     _log_response_plain (lit "Skipping recording file test (user choice)"));;
  try_except (send_and_log (lit "LIST_FILES") 5) log_error;;
  modify (set_status (lit "Full test complete")).

Definition full_system_test : M Gui unit :=
  connected <- on_comm SerialComm.is_open;;
  if negb connected then
    show ShowWarning "Not connected" "Connect to the board first"
  else thread_start _full_test_worker.

End Methods.
End DAQGui.

(* ------------------------------------------------------------------ *)
(** * Vocabulary of the properties *)

(** The error [send_cmd] raises without an open port. *)
Definition NotConnected : exn := Exn RuntimeError (lit "Serial port not open").

(** The read timeout of the connection, when there is a handle. *)
Definition read_timeout (c : Comm) : option Z := option_map s_timeout (ser c).

(** The states in which no connection has been opened successfully, or the
    connection has been closed: a fresh object, any state after [close],
    and what failed attempts to open and calls that need a connection make
    of such a state. *)
Inductive disconnected : Comm -> Prop :=
| dis_init d : disconnected (SerialComm.init d)
| dis_close c : disconnected (snd (SerialComm.close c))
| dis_open_failed c port baud t e :
    disconnected c ->
    fst (SerialComm.open port baud t c) = inl e ->
    disconnected (snd (SerialComm.open port baud t c))
| dis_send c cmd t :
    disconnected c -> disconnected (snd (SerialComm.send_cmd cmd t c))
| dis_is_open c :
    disconnected c -> disconnected (snd (SerialComm.is_open c)).

(** The bytes a read started by [send_cmd] in state [c] can draw on: what
    the buffer still holds after the reset, then what arrives in time. *)
Definition pending (c : Comm) (timeout : Z) : bytes :=
  match ser c with
  | Some s =>
    match dev_reset_fault (dev c) (count_calls is_CallReset (channel c)) with
    | Some _ => s_in_buffer s
    | None => []
    end ++ dev_incoming (dev c) (count_calls is_CallReadline (channel c)) timeout
  | None => []
  end.

(** The calls one [send_cmd] can add to the channel. *)
Inductive send_calls (timeout : Z) : list IOCall -> Prop :=
| sc_none : send_calls timeout []
| sc_reset : send_calls timeout [CallReset]
| sc_write data : send_calls timeout [CallReset; CallWrite data]
| sc_read data r :
    send_calls timeout [CallReset; CallWrite data; CallReadline timeout r].

(** [send_cmd] on an open handle [s], path by path. *)
Definition send_cmd_open_result (c : Comm) (s : Serial) (cmd : str) (timeout : Z)
  : (exn + pyval * str) * Comm :=
  let d := dev c in
  let s1 := match dev_reset_fault d (count_calls is_CallReset (channel c)) with
            | Some _ => s
            | None => set_in_buffer [] s
            end in
  let tr1 := channel c ++ [CallReset] in
  match encode_utf8 (strip cmd ++ [NL]) with
  | inl msg => (inl (Exn UnicodeEncodeError msg), mkComm (Some s1) d tr1)
  | inr data =>
    let tr2 := tr1 ++ [CallWrite data] in
    match dev_write_fault d (count_calls is_CallWrite (channel c)) with
    | Some msg => (inl (Exn SerialException msg), mkComm (Some s1) d tr2)
    | None =>
      match dev_read_fault d (count_calls is_CallReadline (channel c)) with
      | Some msg =>
        (inl (Exn SerialException msg),
         mkComm (Some s1) d (tr2 ++ [CallReadline timeout None]))
      | None =>
        let lr := split_line (s_in_buffer s1
                    ++ dev_incoming d (count_calls is_CallReadline (channel c))
                                    timeout) in
        let c' := mkComm (Some (set_in_buffer (snd lr) s1)) d
                         (tr2 ++ [CallReadline timeout (Some (fst lr))]) in
        match fst lr with
        | [] => (inl (Exn TimeoutError (timeout_msg cmd timeout)), c')
        | _ :: _ =>
          let line := strip (decode_utf8_replace (fst lr)) in
          (inr (parse_reply line, line), c')
        end
      end
    end
  end.

(** ** The decoding policy of the specification *)

Definition no_newline (s : str) : Prop := Forall (fun c => c <> NL) s.

(** A text in which a newline can only be the last character. *)
Inductive nl_only_last : list N -> Prop :=
| nol_nil : nl_only_last []
| nol_one c : nl_only_last [c]
| nol_cons c t : c <> NL -> nl_only_last t -> nl_only_last (c :: t).



(** ** Concrete devices and replies, for the examples *)

Definition quoted (s : string) : str := DQUOTE :: lit s ++ [DQUOTE].

Definition utf8 (s : str) : bytes :=
  match encode_utf8 s with inr b => b | inl _ => [] end.

(** A device that answers every command with [reply]. *)
Definition answering (reply : bytes) : Device :=
  mkDevice (fun _ _ => OpenOk None) (fun _ => None) (fun _ => None)
           (fun _ => None) (fun _ _ => reply).

(** A [SerialComm] connected to [d] on COM3. *)
Definition connected_to (d : Device) : Comm :=
  snd (SerialComm.open (lit "COM3") BAUDRATE READ_TIMEOUT (SerialComm.init d)).

Definition noisy_line : str :=
  lit "noisy-prefix {" ++ quoted "ok" ++ lit ":true," ++ quoted "cmd" ++ lit ":"
  ++ quoted "PING" ++ lit "," ++ quoted "msg" ++ lit ":" ++ quoted "pong"
  ++ lit "} trailing".

Definition pong_mapping : pyval :=
  PyDict [(lit "ok", PyBool true); (lit "cmd", PyStr (lit "PING"));
          (lit "msg", PyStr (lit "pong"))].

(** ** The fuel of the JSON scanner *)

(** Whatever the scanner finds with fuel [n], it finds with fuel [m]. *)
Definition fuel_le (n m : nat) : Prop :=
  (forall s r, scan_once n s = Some r -> scan_once m s = Some r)
  /\ (forall p s r,
        object_members n p s = Some r -> object_members m p s = Some r)
  /\ (forall vs s r,
        array_elements n vs s = Some r -> array_elements m vs s = Some r).

(** Every successful scan needs no more fuel than the characters it
    consumes. *)
Definition fuel_enough (n : nat) : Prop :=
  (forall s v r, scan_once n s = Some (v, r) ->
     (List.length r < List.length s)%nat
     /\ scan_once (List.length s - List.length r)%nat s = Some (v, r))
  /\ (forall p s v r, object_members n p s = Some (v, r) ->
        (List.length r < List.length s)%nat
        /\ object_members (List.length s - List.length r)%nat p s
           = Some (v, r))
  /\ (forall vs s v r, array_elements n vs s = Some (v, r) ->
        (List.length r < List.length s)%nat
        /\ array_elements (List.length s - List.length r)%nat vs s
           = Some (v, r)).

(** ** The window and the workflows *)

(** The bytes of the command line [send_cmd] writes for [cmd]. *)
Definition wire (cmd : str) : bytes := utf8 (strip cmd ++ [NL]).

(** The command lines written to the channel, oldest first. *)
Definition writes_of (tr : list IOCall) : list bytes :=
  flat_map (fun e => match e with CallWrite d => [d] | _ => [] end) tr.

(** The command lines that start with [CALIBRATE]. *)
Definition is_calibrate (data : bytes) : bool :=
  match strip_prefix (lit "CALIBRATE") (map Byte.to_N data) with
  | Some _ => true
  | None => false
  end.

Definition calibrate_writes (tr : list IOCall) : list bytes :=
  filter is_calibrate (writes_of tr).

(** A device that answers every command in time and never faults. *)
Definition responsive (d : Device) : Prop :=
  forall k, dev_write_fault d k = None /\ dev_read_fault d k = None
            /\ forall t, dev_incoming d k t <> [].

(** [d.get(key, default)] on the pairs of a dict. *)
Definition field (d : pydict) (key : string) (default : pyval) : pyval :=
  match dict_get d (lit key) with Some x => x | None => default end.

(** The two renderings of [_log_response]. *)
Definition summary_entry (rt : PyRuntime) (ts : str) (d : pydict) : str :=
  ts ++ lit " | " ++ py_str rt (field d "cmd" (PyStr []))
  ++ lit " | ok=" ++ py_str rt (field d "ok" PyNone)
  ++ lit " | msg=" ++ py_str rt (field d "msg" (PyStr [])) ++ [NL]
  ++ json_dumps rt (Some 2) (PyDict d) ++ [NL; NL].

Definition raw_entry (ts raw : str) : str :=
  ts ++ lit " | RAW: " ++ raw ++ [NL; NL].

(** The commands of the full automated test. *)
Definition first_steps : list str :=
  [lit "PING"; lit "STATUS"; lit "TEST_TEMP"; lit "TEST_PRESSURE";
   lit "READ"; lit "READ"; lit "READ"; lit "READ"].

Definition recording_steps : list str :=
  [lit "START"; lit "READ"; lit "READ"; lit "READ"; lit "READ"; lit "READ";
   lit "READ"; lit "STOP"].




(** How many commands at the head of [cmds] succeed when they are sent
    in turn from [c], up to the first that fails. *)
Fixpoint leading_successes (cmds : list (str * Z)) (c : Comm) : nat :=
  match cmds with
  | [] => 0
  | (cmd, t) :: rest =>
    match SerialComm.send_cmd cmd t c with
    | (inr _, c') => S (leading_successes rest c')
    | (inl _, _) => 0
    end
  end.




Definition cancelled_dialog : Dialog :=
  mkDialog ShowInfo (lit "Cancelled")
           (lit "Calibration cancelled (no weight provided).").

Definition invalid_dialog : Dialog :=
  mkDialog ShowError (lit "Invalid value")
           (lit "Please enter a valid positive number in grams.").

(** ** Vocabulary of the workflow proofs *)

(** What a step of a workflow leaves alone. *)
Definition frame (g g' : Gui) : Prop :=
  dev (comm g') = dev (comm g)
  /\ chk_save_test g' = chk_save_test g
  /\ handle_open (ser (comm g')) = handle_open (ser (comm g))
  /\ dialogs g' = dialogs g
  /\ thread_errors g' = thread_errors g.

Definition encodable (cmd : str) : bool :=
  match encode_utf8 (strip cmd ++ [NL]) with inr _ => true | inl _ => false end.

Definition writes (g : Gui) : list bytes := writes_of (channel (comm g)).
Definition entries (g : Gui) : nat := List.length (txt_responses g).
Definition is_connected (g : Gui) : Prop := handle_open (ser (comm g)) = true.

(** [m] sends the commands [cmds] in order while each send succeeds, logs
    one entry per reply, and raises at the first send that fails. *)
Definition issues (m : M Gui unit) (cmds : list str) : Prop :=
  forall g, is_connected g ->
    frame g (snd (m g))
    /\ (responsive (dev (comm g)) -> exists u, fst (m g) = inr u)
    /\ exists n, (n <= List.length cmds)%nat
         /\ writes (snd (m g)) = writes g ++ map wire (firstn n cmds)
         /\ match fst (m g) with
            | inr _ => n = List.length cmds
                       /\ entries (snd (m g)) = (entries g + n)%nat
            | inl _ => (1 <= n)%nat
                       /\ (entries (snd (m g)) + 1 = entries g + n)%nat
            end.

(** [m] does not raise, sends a non-empty prefix of [cmds] (all of it when
    the device answers) and logs one entry per command sent. *)
Definition guarded_issues (m : M Gui unit) (cmds : list str) : Prop :=
  forall g, is_connected g ->
    fst (m g) = inr tt
    /\ frame g (snd (m g))
    /\ exists n, (n <= List.length cmds)%nat
         /\ (cmds <> [] -> 1 <= n)%nat
         /\ writes (snd (m g)) = writes g ++ map wire (firstn n cmds)
         /\ entries (snd (m g)) = (entries g + n)%nat
         /\ (responsive (dev (comm g)) -> n = List.length cmds).

(** [m] does not raise, sends exactly [cmds] and logs [extra] entries
    besides one per command. *)
Definition always_issues (m : M Gui unit) (cmds : list str) (extra : nat) : Prop :=
  forall g, is_connected g ->
    fst (m g) = inr tt
    /\ frame g (snd (m g))
    /\ writes (snd (m g)) = writes g ++ map wire cmds
    /\ entries (snd (m g)) = (entries g + List.length cmds + extra)%nat.

(** A completion handler that does not touch the connection. *)
Definition keeps_comm (callback : option DAQGui.callback_t) : Prop :=
  forall f, callback = Some f ->
    forall ok resp raw g, comm (snd (f ok resp raw g)) = comm g.

Definition ask_tare : Dialog :=
  mkDialog AskYesNo (lit "Tare now?") (lit "Issue a TARE before calibration?").
Definition place_weight : Dialog :=
  mkDialog ShowInfo (lit "Place weight")
    (lit "Place the known calibration weight on the scale, then click OK to continue.").
Definition ask_weight : Dialog :=
  mkDialog AskString (lit "Known weight (g)") (lit "Enter known weight in grams:").

(** The calibration run with entry [w] sends no [CALIBRATE] line and, on
    an open connection, shows the three prompts and then the dialog [d],
    and nothing after it. *)
Definition rejected_with (rt : PyRuntime) (w : option str) (d : Dialog) : Prop :=
  forall g tare,
    let g' := snd (DAQGui.calibration_walkthrough rt (mkOperator tare w) g) in
    calibrate_writes (channel (comm g')) = calibrate_writes (channel (comm g))
    /\ (handle_open (ser (comm g)) = true ->
        dialogs g' = dialogs g ++ [ask_tare; place_weight; ask_weight; d]).

(** The calibration run with entry [w] on an open connection sends the
    line for [cmd] as its one [CALIBRATE] line. *)
Definition calibrates_with (rt : PyRuntime) (w : str) (cmd : str) : Prop :=
  forall g tare,
    handle_open (ser (comm g)) = true ->
    let g' := snd (DAQGui.calibration_walkthrough rt
                     (mkOperator tare (Some w)) g) in
    calibrate_writes (channel (comm g'))
    = calibrate_writes (channel (comm g)) ++ [utf8 (cmd ++ [NL])].

(** A weight as the specification wants it: a number, and above zero. *)
Definition positive_real (f : pyfloat) : bool :=
  match f with
  | FDec _ _ _ => negb (float_le0 f)
  | FNan | FInf _ => false
  end.

(** The part of [calibration_walkthrough] after the weight prompt. *)
Definition after_weight_prompt (rt : PyRuntime) (w : option str) : M Gui unit :=
  match w with
  | None | Some [] =>
    show ShowInfo "Cancelled" "Calibration cancelled (no weight provided)."
  | Some weight_str =>
    checked <-
      try_except
        (weight_val <- match py_float rt weight_str with
                       | Some f => ret f
                       | None => raise (Exn ValueError
                                   (lit "could not convert string to float"))
                       end;;
         if float_le0 weight_val then raise (Exn ValueError [])
         else ret (Some weight_val))
        (fun _ =>
           show ShowError "Invalid value"
                "Please enter a valid positive number in grams.";;
           ret None);;
    match checked with
    | None => ret tt
    | Some weight_val =>
      DAQGui._run_cmd_async rt (lit "CALIBRATE " ++ float_repr rt weight_val)
                     CMD_TIMEOUT (Some (DAQGui.cb rt))
    end
  end.

(** ** A runtime and windows for the examples *)

(** Clock readings [t0], [t1], ...; the printers of the library left as
    fixed texts. *)
Definition plain_runtime : PyRuntime :=
  mkRuntime (fun k => lit "t" ++ str_of_nat k) (fun _ => None)
            (fun _ => lit "<float>") (fun _ => lit "<container>")
            (fun _ _ => lit "<json>").

(** The window as [__init__] leaves it, over a given [SerialComm]. *)
Definition window (c : Comm) : Gui := mkGui c [] (lit "Ready") true [] 0 [].

Definition ok_reply : bytes :=
  utf8 (lit "{" ++ quoted "ok" ++ lit ":true}" ++ [NL]).

(** A device that answers every command except the one read at index
    [k], which it leaves unanswered. *)
Definition silent_at (k : nat) : Device :=
  mkDevice (fun _ _ => OpenOk None) (fun _ => None) (fun _ => None)
           (fun _ => None)
           (fun i _ => if Nat.eqb i k then [] else ok_reply).

(* ------------------------------------------------------------------ *)
(** * The rest of the window: connection row, port polling, LED, closing

    The methods of [DAQGui] outside the two workflows read and write a few
    more widgets; the window is the record [Gui] together with them. *)

(** ** [int(s)] for a [str]

    As for [float]: non-ASCII spaces and decimal digits are mapped to
    ASCII and the text is stripped of C whitespace; what is left is an
    optional sign and decimal digits, with single underscores between
    digits; more digits than the interpreter's limit (4300 unless it is
    reconfigured) are refused.  [None] is [ValueError]. *)
Definition INT_MAX_STR_DIGITS : nat := 4300.

Definition py_int (rt : PyRuntime) (s : str) : option Z :=
  match drop_underscores 0%N (c_strip (ascii_digits_and_spaces rt s)) with
  | None => None
  | Some body =>
    let (neg, r) := parse_sign body in
    match span_digits r with
    | ([], _) => None
    | (_ :: _, _ :: _) => None
    | (ds, []) =>
      if (INT_MAX_STR_DIGITS <? List.length ds)%nat then None
      else Some (if neg then - Z.of_N (digits_value ds)
                 else Z.of_N (digits_value ds))
    end
  end.

(** ** The value of a slider

    [Scale.get()] returns a float; a finite binary64 is a binary fraction
    [num / 2^shift], and [int(x)] drops its fractional part. *)
Record binfloat := mkBin { bf_num : Z; bf_shift : N }.

Definition int_of_binfloat (x : binfloat) : Z :=
  Z.quot (bf_num x) (2 ^ Z.of_N (bf_shift x)).

(** [lo <= x <= hi] for whole numbers [lo] and [hi]. *)
Definition binfloat_between (lo hi : Z) (x : binfloat) : Prop :=
  lo * 2 ^ Z.of_N (bf_shift x) <= bf_num x <= hi * 2 ^ Z.of_N (bf_shift x).

(** ** The window *)

Record App := mkApp {
  gui : Gui;
  cmb_ports_values : list str;   (* [cmb_ports['values']] *)
  cmb_ports : str;               (* [cmb_ports.get()], empty when nothing is selected *)
  ent_baud : str;                (* [ent_baud.get()] *)
  btn_connect : str;             (* the text of the button *)
  lbl_status : str * str;        (* text and foreground of the label *)
  led_scale : binfloat;          (* [led_scale.get()] *)
  pending_after : list Z;        (* delays of the pending [after] calls, all
                                    of them for [update_serial_ports] *)
  destroyed : bool;              (* [destroy()] was called *)
  comports : nat -> list str;    (* the devices the k-th scan of the ports finds *)
  scans : nat                    (* scans made so far *)
}.

Definition set_gui (g : Gui) (a : App) : App :=
  mkApp g (cmb_ports_values a) (cmb_ports a) (ent_baud a) (btn_connect a)
        (lbl_status a) (led_scale a) (pending_after a) (destroyed a)
        (comports a) (scans a).

Definition set_cmb_ports_values (v : list str) (a : App) : App :=
  mkApp (gui a) v (cmb_ports a) (ent_baud a) (btn_connect a)
        (lbl_status a) (led_scale a) (pending_after a) (destroyed a)
        (comports a) (scans a).

Definition set_cmb_ports (p : str) (a : App) : App :=
  mkApp (gui a) (cmb_ports_values a) p (ent_baud a) (btn_connect a)
        (lbl_status a) (led_scale a) (pending_after a) (destroyed a)
        (comports a) (scans a).

Definition set_btn_connect (t : str) (a : App) : App :=
  mkApp (gui a) (cmb_ports_values a) (cmb_ports a) (ent_baud a) t
        (lbl_status a) (led_scale a) (pending_after a) (destroyed a)
        (comports a) (scans a).

Definition set_lbl_status (text foreground : str) (a : App) : App :=
  mkApp (gui a) (cmb_ports_values a) (cmb_ports a) (ent_baud a) (btn_connect a)
        (text, foreground) (led_scale a) (pending_after a) (destroyed a)
        (comports a) (scans a).

Definition set_pending_after (l : list Z) (a : App) : App :=
  mkApp (gui a) (cmb_ports_values a) (cmb_ports a) (ent_baud a) (btn_connect a)
        (lbl_status a) (led_scale a) l (destroyed a)
        (comports a) (scans a).

Definition set_destroyed (a : App) : App :=
  mkApp (gui a) (cmb_ports_values a) (cmb_ports a) (ent_baud a) (btn_connect a)
        (lbl_status a) (led_scale a) (pending_after a) true
        (comports a) (scans a).

Definition next_scan (a : App) : App :=
  mkApp (gui a) (cmb_ports_values a) (cmb_ports a) (ent_baud a) (btn_connect a)
        (lbl_status a) (led_scale a) (pending_after a) (destroyed a)
        (comports a) (S (scans a)).

(** A method of the window that only concerns the fields of [Gui]. *)
Definition on_gui {A} (m : M Gui A) : M App A :=
  fun a => let (r, g') := m (gui a) in (r, set_gui g' a).

(** [self.after(ms, self.update_serial_ports)]. *)
Definition after (ms : Z) : M App unit :=
  modify (fun a => set_pending_after (pending_after a ++ [ms]) a).

Module DAQWindow.
Section Methods.
Variable rt : PyRuntime.

(** [[p.device for p in serial.tools.list_ports.comports()]]. *)
Definition _list_ports : M App (list str) :=
  fun a => (inr (comports a (scans a)), next_scan a).

Definition update_serial_ports : M App unit :=
  ports <- _list_ports;;
  modify (set_cmb_ports_values ports);;
  cur <- gets cmb_ports;;
  match cur, ports with
  | [], p :: _ => modify (set_cmb_ports p)
  | _, _ => ret tt
  end;;
  after 2000.

(** [__init__]: the widgets as [_create_widgets] leaves them and the first
    poll of the ports, due after a second. *)
Definition init (d : Device) (ports : nat -> list str) : App :=
  mkApp (mkGui (SerialComm.init d) [] (lit "Ready") true [] 0 [])
        (ports 0%nat) [] (str_of_Z BAUDRATE) (lit "Connect")
        (lit "Not connected", lit "red") (mkBin 255 0) [1000] false
        ports 1.

Definition connect_serial : M App unit :=
  connected <- on_gui (on_comm SerialComm.is_open);;
  if connected then
    on_gui (on_comm SerialComm.close);;
    modify (set_btn_connect (lit "Connect"));;
    modify (set_lbl_status (lit "Not connected") (lit "red"));;
    on_gui (modify (set_status (lit "Disconnected")))
  else
    port <- gets cmb_ports;;
    match port with
    | [] => on_gui (show ShowWarning "No port" "Select a serial port first")
    | _ :: _ =>
      entry <- gets ent_baud;;
      baud <- try_except
                match py_int rt entry with
                | Some b => ret b
                | None => raise (Exn ValueError
                                     (lit "invalid literal for int() with base 10"))
                end
                (fun _ => ret BAUDRATE);;
      opened <-
        try_except
          (on_gui (on_comm (SerialComm.open port baud READ_TIMEOUT));;
           ret true)
          (fun e =>
             on_gui (show_str ShowError "Connection error"
                       (lit "Failed to open " ++ port ++ lit ":" ++ [NL]
                        ++ exn_str e));;
             ret false);;
      if opened then
        modify (set_btn_connect (lit "Disconnect"));;
        modify (set_lbl_status (lit "Connected: " ++ port) (lit "green"));;
        on_gui (modify (set_status (lit "Connected " ++ port)));;
        on_gui (DAQGui._log_response_plain rt
                  (lit "Connected to " ++ port ++ lit " @ " ++ str_of_Z baud))
      else ret tt
    end.

Definition on_close : M App unit :=
  connected <- on_gui (on_comm SerialComm.is_open);;
  (if connected
   then try_except (on_gui (on_comm SerialComm.close)) (fun _ => ret tt)
   else ret tt);;
  modify set_destroyed.

Definition set_led_from_scale : M App unit :=
  x <- gets led_scale;;
  let val := int_of_binfloat x in
  on_gui (DAQGui._run_cmd_async rt (lit "SET_LED " ++ str_of_Z val)
            READ_TIMEOUT None).

(** What the event loop can run next: the oldest pending [after] call
    comes due, or the operator presses Refresh. *)
Inductive Event := TimerDue | RefreshPressed.

Definition handle (e : Event) : M App unit :=
  match e with
  | TimerDue =>
    l <- gets pending_after;;
    match l with
    | [] => ret tt
    | _ :: rest => modify (set_pending_after rest);; update_serial_ports
    end
  | RefreshPressed => update_serial_ports
  end.

End Methods.
End DAQWindow.

(* ------------------------------------------------------------------ *)
(** * The timeout of the handle as pyserial implements it

    [Serial.timeout] is a property.  Assigning it refuses a negative value
    with [ValueError] before anything is stored; otherwise the value is
    stored and, on an open port, the settings are applied to the port
    again, which raises [SerialException] when the operating system
    refuses (the device is gone).  [ser_set_timeout] is the assignment on
    a port that takes every reconfiguration; here each reconfiguration
    can fail, as the environment decides. *)

Record Port := mkPort {
  link : Comm;
  reconfigure_fault : nat -> option str; (* the k-th reconfiguration raises *)
  reconfigured : list Z                  (* the timeouts applied to the port,
                                            oldest first, failures included *)
}.

Definition set_link (c : Comm) (p : Port) : Port :=
  mkPort c (reconfigure_fault p) (reconfigured p).

(** A call on the handle that does not reconfigure the port. *)
Definition on_link {A} (m : M Comm A) : M Port A :=
  fun p => let (r, c') := m (link p) in (r, set_link c' p).

(** [self._reconfigure_port()] with the timeout [t] just stored. *)
Definition reconfigure_port (t : Z) : M Port unit :=
  fun p =>
    let p' := mkPort (link p) (reconfigure_fault p) (reconfigured p ++ [t]) in
    match reconfigure_fault p (List.length (reconfigured p)) with
    | Some msg => (inl (Exn SerialException msg), p')
    | None => (inr tt, p')
    end.

(** [self.ser.timeout = t]. *)
Definition timeout_setter (t : Z) : M Port unit :=
  s <- gets (fun p => ser (link p));;
  match s with
  | None => on_link (ser_set_timeout t)
  | Some h =>
    if t <? 0
    then raise (Exn ValueError (lit "Not a valid timeout: " ++ str_of_Z t))
    else
      on_link (ser_set_timeout t);;
      if s_is_open h then reconfigure_port t else ret tt
  end.

Module Pyserial.

(** [SerialComm.send_cmd], line by line as above, with the assignments of
    lines 65 and 69 as pyserial performs them. *)
Definition send_cmd (cmd : str) (timeout : Z) : M Port (pyval * str) :=
  with_lock (
    s <- gets (fun p => ser (link p));;
    if negb (handle_open s)
    then raise (Exn RuntimeError (lit "Serial port not open"))
    else
      try_except (on_link ser_reset_input_buffer) (fun _ => ret tt);;
      let cmd_line := strip cmd ++ [NL] in
      data <- match encode_utf8 cmd_line with
              | inl msg => raise (Exn UnicodeEncodeError msg)
              | inr data => ret data
              end;;
      on_link (ser_write data);;
      old_timeout <- on_link ser_get_timeout;;
      timeout_setter timeout;;
      raw <- try_finally (on_link ser_readline) (timeout_setter old_timeout);;
      match raw with
      | [] => raise (Exn TimeoutError (timeout_msg cmd timeout))
      | _ :: _ =>
        line <- try_except
                  (ret (strip (decode_utf8_replace raw)))
                  (fun e => raise (Exn RuntimeError
                                       (lit "Failed to decode response: "
                                        ++ exn_str e)));;
        ret (parse_reply line, line)
      end).

End Pyserial.

(** The fault, if any, of the next reconfiguration of the port. *)
Definition next_reconfigure (p : Port) : option str :=
  reconfigure_fault p (List.length (reconfigured p)).

(** The timeout of the handle is one pyserial accepts (it refuses any
    other when the handle is made). *)
Definition valid_timeout (c : Comm) : bool :=
  match ser c with
  | Some s => 0 <=? s_timeout s
  | None => true
  end.

(** A port that takes every reconfiguration. *)
Definition reliable (p : Port) : Prop :=
  forall k, reconfigure_fault p k = None.

(** A port that has lost its device: no reconfiguration succeeds. *)
Definition unplugged (c : Comm) : Port :=
  mkPort c (fun _ => Some (lit "Could not configure port: (5, 'Input/output error')"))
         [].

(** A port on which the reconfiguration at index [k] fails and the others
    succeed. *)
Definition failing_at (k : nat) (msg : str) (c : Comm) : Port :=
  mkPort c (fun i => if Nat.eqb i k then Some msg else None) [].

(** [Pyserial.send_cmd] on an open handle [s], path by path. *)
Definition pyserial_send_result (p : Port) (s : Serial) (cmd : str) (timeout : Z)
  : (exn + pyval * str) * Port :=
  let c := link p in
  let d := dev c in
  let s1 := match dev_reset_fault d (count_calls is_CallReset (channel c)) with
            | Some _ => s
            | None => set_in_buffer [] s
            end in
  let tr1 := channel c ++ [CallReset] in
  let port h tr rs :=
    mkPort (mkComm (Some h) d tr) (reconfigure_fault p) rs in
  let rs0 := reconfigured p in
  match encode_utf8 (strip cmd ++ [NL]) with
  | inl msg => (inl (Exn UnicodeEncodeError msg), port s1 tr1 rs0)
  | inr data =>
    let tr2 := tr1 ++ [CallWrite data] in
    match dev_write_fault d (count_calls is_CallWrite (channel c)) with
    | Some msg => (inl (Exn SerialException msg), port s1 tr2 rs0)
    | None =>
      if timeout <? 0
      then (inl (Exn ValueError (lit "Not a valid timeout: " ++ str_of_Z timeout)),
            port s1 tr2 rs0)
      else
        match next_reconfigure p with
        | Some msg =>
          (inl (Exn SerialException msg),
           port (set_timeout timeout s1) tr2 (rs0 ++ [timeout]))
        | None =>
          let old := s_timeout s in
          let read :=
            match dev_read_fault d (count_calls is_CallReadline (channel c)) with
            | Some msg =>
              (inl (Exn SerialException msg), set_timeout timeout s1,
               tr2 ++ [CallReadline timeout None])
            | None =>
              let lr := split_line (s_in_buffer s1
                          ++ dev_incoming d (count_calls is_CallReadline (channel c))
                                          timeout) in
              (match fst lr with
               | [] => inl (Exn TimeoutError (timeout_msg cmd timeout))
               | _ :: _ =>
                 let line := strip (decode_utf8_replace (fst lr)) in
                 inr (parse_reply line, line)
               end,
               set_in_buffer (snd lr) (set_timeout timeout s1),
               tr2 ++ [CallReadline timeout (Some (fst lr))])
            end in
          let '(res, s2, tr3) := read in
          if old <? 0
          then (inl (Exn ValueError (lit "Not a valid timeout: " ++ str_of_Z old)),
                port s2 tr3 (rs0 ++ [timeout]))
          else
            match reconfigure_fault p (S (List.length (reconfigured p))) with
            | Some msg =>
              (inl (Exn SerialException msg),
               port (set_timeout old s2) tr3 (rs0 ++ [timeout; old]))
            | None => (res, port (set_timeout old s2) tr3 (rs0 ++ [timeout; old]))
            end
        end
    end
  end.


(* ------------------------------------------------------------------ *)
(** * Vocabulary of the further properties *)

(** The handle in use closes without a fault. *)
Definition closes_cleanly (c : Comm) : Prop :=
  forall s, ser c = Some s -> s_is_open s = true -> s_close_fault s = None.

(** What the system answers to the next attempt to open [port]. *)
Definition next_open (c : Comm) (port : str) : OpenResult :=
  dev_open (dev c) (count_calls is_CallOpen (channel c)) port.

(** A device whose port can be opened once only. *)
Definition opens_once : Device :=
  mkDevice (fun k _ => match k with O => OpenOk None | _ => OpenFails (lit "busy") end)
           (fun _ => None) (fun _ => None) (fun _ => None) (fun _ _ => []).

(** A device whose handles cannot be closed. *)
Definition stuck (msg : str) : Device :=
  mkDevice (fun _ _ => OpenOk (Some msg)) (fun _ => None) (fun _ => None)
           (fun _ => None) (fun _ _ => []).

(** A device on which every write, or every read, fails. *)
Definition write_failing (msg : str) : Device :=
  mkDevice (fun _ _ => OpenOk None) (fun _ => None) (fun _ => Some msg)
           (fun _ => None) (fun _ _ => []).

Definition read_failing (msg : str) : Device :=
  mkDevice (fun _ _ => OpenOk None) (fun _ => None) (fun _ => None)
           (fun _ => Some msg) (fun _ _ => []).

(** The settings that only opening or closing the port changes: the port
    name, the baud rate and the open flag. *)
Definition line_settings (c : Comm) : option (str * Z * bool) :=
  option_map (fun s => (s_port s, s_baudrate s, s_is_open s)) (ser c).

Definition is_CallClose (c : IOCall) : bool :=
  match c with CallClose => true | _ => false end.

(** The line as [c0] has it: the same device, the same settings of the
    line, and no further call to open or close the port. *)
Definition same_line (c0 c : Comm) : Prop :=
  dev c = dev c0
  /\ line_settings c = line_settings c0
  /\ count_calls is_CallOpen (channel c) = count_calls is_CallOpen (channel c0)
  /\ count_calls is_CallClose (channel c) = count_calls is_CallClose (channel c0).

(** A property of the connection that no [send_cmd] changes. *)
Definition send_stable (P : Comm -> Prop) : Prop :=
  forall c cmd t, P c -> P (snd (SerialComm.send_cmd cmd t c)).


(** A text without white space at either end. *)
Definition trimmed (s : str) : Prop :=
  match s with
  | [] => True
  | c :: _ => py_isspace c = false /\ py_isspace (last s c) = false
  end.

(** The entry [_log_response] appends for a reply. *)
Definition reply_entry (rt : PyRuntime) (ts raw : str) (parsed : pyval) : str :=
  match parsed with
  | PyDict (kv :: d) => summary_entry rt ts (kv :: d)
  | _ => raw_entry ts raw
  end.

(** The entries the command worker appends for [cmd], the clock having
    been read [k] times before: the command, then the reply, or the
    error twice (as a line and as raw text). *)
Definition worker_entries (rt : PyRuntime) (k : nat) (cmd : str)
           (outcome : exn + pyval * str) : list str :=
  (strftime rt k ++ lit " | " ++ lit ">>> " ++ cmd ++ [NL])
  :: match outcome with
     | inr (parsed, raw) => [reply_entry rt (strftime rt (S k)) raw parsed]
     | inl e =>
       [strftime rt (S k) ++ lit " | " ++ lit "<<< ERROR: " ++ exn_str e ++ [NL];
        raw_entry (strftime rt (S (S k))) (exn_str e)]
     end.

Definition not_connected_warning : Dialog :=
  mkDialog ShowWarning (lit "Not connected") (lit "Connect to the board first").

(** [m] shows no dialog, ends no thread and leaves the check box alone;
    it appends between [lo] and [hi] entries when it returns and fewer
    than [hi] when it raises. *)
Definition steady {A} (m : M Gui A) (lo hi : nat) : Prop :=
  forall g,
    let g' := snd (m g) in
    dialogs g' = dialogs g
    /\ thread_errors g' = thread_errors g
    /\ chk_save_test g' = chk_save_test g
    /\ match fst (m g) with
       | inr _ => (entries g + lo <= entries g' <= entries g + hi)%nat
       | inl _ => (entries g <= entries g' < entries g + hi)%nat
       end.

(** [m] never raises. *)
Definition total {A} (m : M Gui A) : Prop :=
  forall g, exists a, fst (m g) = inr a.

(** Whenever [m] returns, the status bar shows [s]. *)
Definition ends_in {A} (s : str) (m : M Gui A) : Prop :=
  forall g a, fst (m g) = inr a -> status_var (snd (m g)) = s.

(** [m] keeps a property of the connection that every [send_cmd] keeps. *)
Definition keeps (P : Comm -> Prop) {A} (m : M Gui A) : Prop :=
  forall g, P (comm g) -> P (comm (snd (m g))).

(** The entries of a full test on a closed connection: every step is
    logged as the same error; the note replaces the recording phase when
    it is not chosen. *)
Definition closed_test_entries (rt : PyRuntime) (k : nat) (save : bool)
  : list str :=
  map (fun i => raw_entry (strftime rt (k + i)) (lit "Serial port not open"))
      (seq 0 8)
  ++ [if save
      then raw_entry (strftime rt (k + 8)) (lit "Serial port not open")
      else strftime rt (k + 8) ++ lit " | "
           ++ lit "Skipping recording file test (user choice)" ++ [NL]]
  ++ [raw_entry (strftime rt (k + 9)) (lit "Serial port not open")].

(** The window after [n] steps of a workflow have failed on a closed
    connection. *)
Definition closed_after (rt : PyRuntime) (n : nat) (g : Gui) : Gui :=
  mkGui (comm g)
        (txt_responses g
         ++ map (fun i => raw_entry (strftime rt (clock g + i))
                                    (lit "Serial port not open")) (seq 0 n))
        (status_var g) (chk_save_test g) (dialogs g) (clock g + n)
        (thread_errors g).

(** The dialog that ends a guided calibration, by the outcome of the
    CALIBRATE command: the error of a failed send; for a decoded mapping,
    success or the device's message, by its [ok] field; for any other
    decoded value, the error of the failed field access. *)
Definition calibration_result (rt : PyRuntime) (outcome : exn + pyval * str)
  : Dialog :=
  match outcome with
  | inl e =>
    mkDialog ShowError (lit "Calibration failed") (lit "Error: " ++ exn_str e)
  | inr (PyDict d, _) =>
    if py_truthy (field d "ok" PyNone)
    then mkDialog ShowInfo (lit "Calibration success")
           (lit "Calibration result:" ++ [NL]
            ++ json_dumps rt (Some 2) (field d "data" PyNone))
    else mkDialog ShowError (lit "Calibration error")
           (py_str rt (field d "msg" PyNone) ++ [NL]
            ++ json_dumps rt None (PyDict d))
  | inr (v, _) =>
    mkDialog ShowError (lit "Calibration failed")
      (lit "Error: '" ++ type_name v ++ lit "' object has no attribute 'get'")
  end.

(** The connection when the CALIBRATE command is sent. *)
Definition after_tare (tare : bool) (c : Comm) : Comm :=
  if tare then snd (SerialComm.send_cmd (lit "TARE") READ_TIMEOUT c) else c.

Definition calibrate_cmd (rt : PyRuntime) (f : pyfloat) : str :=
  lit "CALIBRATE " ++ float_repr rt f.

(** The baud rate [connect_serial] uses for the text of the entry. *)
Definition baud_of (rt : PyRuntime) (entry : str) : Z :=
  match py_int rt entry with Some b => b | None => BAUDRATE end.

Definition no_port_warning : Dialog :=
  mkDialog ShowWarning (lit "No port") (lit "Select a serial port first").

Definition connection_error (port msg : str) : Dialog :=
  mkDialog ShowError (lit "Connection error")
           (lit "Failed to open " ++ port ++ lit ":" ++ [NL] ++ msg).

(** A system on which no port can be opened. *)
Definition refusing (msg : str) : Device :=
  mkDevice (fun _ _ => OpenFails msg) (fun _ => None) (fun _ => None)
           (fun _ => None) (fun _ _ => []).

(** The window after the events [es], oldest first. *)
Definition after_events (es : list DAQWindow.Event) (a : App) : App :=
  fold_left (fun a e => snd (DAQWindow.handle e a)) es a.

Definition refreshes (es : list DAQWindow.Event) : nat :=
  List.length (filter (fun e => match e with
                                | DAQWindow.RefreshPressed => true
                                | DAQWindow.TimerDue => false
                                end) es).

(* ------------------------------------------------------------------ *)
(** * Properties of the text functions *)

Lemma str_eqb_eq a b : str_eqb a b = true <-> a = b.
Proof.
  unfold str_eqb. destruct (list_eq_dec N.eq_dec a b); split; congruence.
Qed.

(** ** The braces search finds the first ['{'] and the last ['}'] *)






(** ** A reply line holds no newline *)

Lemma nl_only_last_tail c t : nl_only_last (c :: t) -> nl_only_last t.
Proof. inversion 1; subst; [constructor | assumption]. Qed.

Lemma nl_only_last_head c d t : nl_only_last (c :: d :: t) -> c <> NL.
Proof. inversion 1; subst; assumption. Qed.

Lemma nl_only_last_push c t :
  c <> NL -> nl_only_last t -> nl_only_last (c :: t).
Proof. now constructor. Qed.

Lemma split_line_nl avail :
  nl_only_last (map Byte.to_N (fst (split_line avail))).
Proof.
  induction avail as [|b t IH]; simpl; [constructor|].
  destruct (N.eqb_spec (Byte.to_N b) NL); simpl; [constructor|].
  destruct (split_line t) as [l r]; simpl in *. now constructor.
Qed.


Lemma nl_only_last_lstrip l : nl_only_last l -> nl_only_last (lstrip l).
Proof.
  induction l as [|c t IH]; simpl; intros H; [constructor|].
  destruct (py_isspace c); [apply IH; eapply nl_only_last_tail; eauto | assumption].
Qed.

Lemma nl_only_last_split l :
  nl_only_last l ->
  l = [] \/ exists init last, l = init ++ [last] /\ no_newline init.
Proof.
  induction 1 as [| c | c t Hc Ht IH].
  - now left.
  - right. exists [], c. split; [reflexivity | constructor].
  - right. destruct IH as [-> | (init & last & -> & Hi)].
    + exists [], c. split; [reflexivity | constructor].
    + exists (c :: init), last. split; [reflexivity | now constructor].
Qed.

Lemma lstrip_forall (P : N -> Prop) l : Forall P l -> Forall P (lstrip l).
Proof.
  induction 1; simpl; [constructor|]. destruct (py_isspace x); auto.
Qed.

Lemma rstrip_no_newline l : nl_only_last l -> no_newline (rstrip l).
Proof.
  intros H. unfold rstrip, no_newline.
  destruct (nl_only_last_split _ H) as [-> | (init & last & -> & Hi)];
    [constructor|].
  rewrite rev_app_distr. simpl.
  destruct (py_isspace last) eqn:E.
  - apply Forall_rev. apply lstrip_forall. now apply Forall_rev.
  - rewrite <- (rev_involutive init) in Hi.
    change (last :: rev init) with ([last] ++ rev init).
    rewrite rev_app_distr, rev_involutive. apply Forall_app. split.
    + now rewrite rev_involutive in Hi.
    + constructor; [|constructor]. intros ->. discriminate.
Qed.

Lemma strip_no_newline l : nl_only_last l -> no_newline (strip l).
Proof.
  intros H. apply rstrip_no_newline. now apply nl_only_last_lstrip.
Qed.

Lemma land_mod a k : N.land a (N.ones k) = (a mod 2 ^ k)%N.
Proof. apply N.land_ones. Qed.

(** Replace [a mod k] by a fresh remainder with its defining facts. *)
Ltac euclid a k :=
  let D := fresh "D" in let L := fresh "L" in
  pose proof (N.div_mod a k ltac:(lia)) as D;
  pose proof (N.mod_lt a k ltac:(lia)) as L;
  generalize dependent (a mod k)%N; generalize dependent (a / k)%N; intros.

Ltac euclid_all :=
  repeat match goal with
         | |- context [(?a mod ?k)%N] => euclid a k
         end.

(** The code point of a multi-byte sequence is never a newline. *)
Lemma cp2_ne c0 c1 :
  (c0 <? 194)%N = false -> (c0 <? 224)%N = true ->
  (N.shiftl (N.land c0 31) 6 + low6 c1)%N <> NL.
Proof.
  intros H1 H2. apply N.ltb_ge in H1. apply N.ltb_lt in H2.
  change 31%N with (N.ones 5). rewrite land_mod, N.shiftl_mul_pow2.
  unfold NL. change (2 ^ 5)%N with 32%N. change (2 ^ 6)%N with 64%N.
  euclid_all. lia.
Qed.

Lemma cp3_ne c0 c1 c2 :
  (c0 <? 224)%N = false -> (c0 <? 240)%N = true -> second_ok c0 c1 = true ->
  (N.shiftl (N.land c0 15) 12 + N.shiftl (low6 c1) 6 + low6 c2)%N <> NL.
Proof.
  intros H1 H2 H3. apply N.ltb_ge in H1. apply N.ltb_lt in H2.
  unfold second_ok in H3. unfold low6.
  change 15%N with (N.ones 4). change 63%N with (N.ones 6).
  rewrite !land_mod, !N.shiftl_mul_pow2.
  change (2 ^ 4)%N with 16%N. change (2 ^ 6)%N with 64%N.
  change (2 ^ 12)%N with 4096%N. unfold NL.
  destruct (N.eqb_spec c0 224).
  - apply andb_true_iff in H3 as [A B]. apply N.leb_le in A, B.
    euclid_all. lia.
  - euclid_all. lia.
Qed.

Lemma cp4_ne c0 c1 c2 c3 :
  (c0 <? 240)%N = false -> (c0 <? 245)%N = true -> second_ok c0 c1 = true ->
  (N.shiftl (N.land c0 7) 18 + N.shiftl (low6 c1) 12
   + N.shiftl (low6 c2) 6 + low6 c3)%N <> NL.
Proof.
  intros H1 H2 H3. apply N.ltb_ge in H1. apply N.ltb_lt in H2.
  unfold second_ok in H3. unfold low6.
  change 7%N with (N.ones 3). change 63%N with (N.ones 6).
  rewrite !land_mod, !N.shiftl_mul_pow2.
  change (2 ^ 3)%N with 8%N. change (2 ^ 6)%N with 64%N.
  change (2 ^ 12)%N with 4096%N. change (2 ^ 18)%N with 262144%N. unfold NL.
  destruct (N.eqb_spec c0 224); [lia|].
  destruct (N.eqb_spec c0 237); [lia|].
  destruct (N.eqb_spec c0 240).
  - apply andb_true_iff in H3 as [A B]. apply N.leb_le in A, B.
    euclid_all. lia.
  - euclid_all. lia.
Qed.

Ltac tails :=
  repeat match goal with
         | H : nl_only_last (_ :: ?t) |- _ =>
           lazymatch goal with
           | _ : nl_only_last t |- _ => fail
           | _ => pose proof (nl_only_last_tail _ _ H)
           end
         end.

(** Decoding keeps a newline where it was: by induction on the length of
    the input, since the decoder resumes up to four bytes further on. *)
Lemma decode_nl_aux n : forall bs,
  (List.length bs <= n)%nat ->
  nl_only_last (map Byte.to_N bs) -> nl_only_last (decode_utf8_replace bs).
Proof.
  induction n as [|n IH]; intros bs Hl H.
  { destruct bs; [constructor | simpl in Hl; lia]. }
  destruct bs as [|b0 t0]; [constructor|].
  simpl in Hl. simpl.
  remember decode_utf8_replace as dec eqn:Hdec.
  assert (IH' : forall tl, (List.length tl <= n)%nat ->
                 nl_only_last (map Byte.to_N tl) -> nl_only_last (dec tl))
    by (subst dec; exact IH).
  assert (D0 : dec [] = []) by (subst dec; reflexivity).
  clear IH Hdec.
  assert (Hrep : REPLACEMENT <> NL) by discriminate.
  destruct (Byte.to_N b0 <? 128)%N eqn:E1.
  { destruct t0 as [|b1 t1].
    - rewrite D0. constructor.
    - simpl in H. apply nl_only_last_push.
      + eapply nl_only_last_head; eauto.
      + apply IH'; [simpl in *; lia|]. eapply nl_only_last_tail; eauto. }
  repeat match goal with
         | |- nl_only_last [_] => constructor
         | |- nl_only_last (_ :: dec _) =>
           simpl in H; tails;
           apply nl_only_last_push;
           [ first [ assumption | now apply cp2_ne | now apply cp3_ne
                   | now apply cp4_ne ]
           | apply IH'; [simpl in *; lia | assumption] ]
         | |- context [if ?b then _ else _] => destruct b eqn:?
         | |- context [match ?l with [] => _ | _ :: _ => _ end] =>
           destruct l as [|? ?]
         end.
Qed.

Lemma decode_nl bs :
  nl_only_last (map Byte.to_N bs) -> nl_only_last (decode_utf8_replace bs).
Proof. apply (decode_nl_aux (List.length bs)). lia. Qed.

Lemma reply_line_no_newline avail :
  no_newline (strip (decode_utf8_replace (fst (split_line avail)))).
Proof.
  apply strip_no_newline, decode_nl, split_line_nl.
Qed.

(* ------------------------------------------------------------------ *)
(** * Properties of [SerialComm] *)

Lemma count_calls_app p a b :
  count_calls p (a ++ b) = (count_calls p a + count_calls p b)%nat.
Proof. unfold count_calls. now rewrite filter_app, length_app. Qed.

Lemma count_calls_snoc p tr e :
  count_calls p (tr ++ [e]) = (count_calls p tr + if p e then 1 else 0)%nat.
Proof.
  rewrite count_calls_app. unfold count_calls. simpl. now destruct (p e).
Qed.

Ltac unfold_monad :=
  unfold with_lock, sleep_ms, bind, ret, raise, gets, modify, try_except,
    try_finally, on_ser, port_not_open in *.

Ltac norm_counts :=
  rewrite ?count_calls_snoc;
  cbn [is_CallOpen is_CallReset is_CallWrite is_CallReadline];
  rewrite ?Nat.add_0_r.

Lemma app_eq_self A (l x : list A) : l = l ++ x -> x = [].
Proof.
  intros H. apply (app_inv_head l). now rewrite app_nil_r.
Qed.

Lemma handle_open_inv c :
  handle_open (ser c) = true -> exists s, ser c = Some s /\ s_is_open s = true.
Proof.
  destruct c as [[s|] d tr]; simpl; intros H; [eauto | discriminate].
Qed.

Lemma send_cmd_closed c cmd timeout :
  handle_open (ser c) = false ->
  SerialComm.send_cmd cmd timeout c = (inl NotConnected, c).
Proof.
  intros H. unfold SerialComm.send_cmd. unfold_monad. now rewrite H.
Qed.

(** Symbolic execution of [send_cmd] on an open handle. *)
Lemma send_cmd_open c s cmd timeout :
  ser c = Some s -> s_is_open s = true ->
  SerialComm.send_cmd cmd timeout c = send_cmd_open_result c s cmd timeout.
Proof.
  intros Hs Ho. destruct c as [sr d tr]. simpl in Hs. subst sr.
  destruct s as [p b o t ib cf]. simpl in Ho. subst o.
  unfold SerialComm.send_cmd, send_cmd_open_result, ser_reset_input_buffer,
    ser_write, ser_get_timeout, ser_set_timeout, ser_readline.
  unfold_monad. simpl.
  destruct (dev_reset_fault d (count_calls is_CallReset tr)); simpl;
  (destruct (encode_utf8 (strip cmd ++ [NL])); simpl; [reflexivity|]);
  norm_counts;
  (destruct (dev_write_fault d (count_calls is_CallWrite tr)); simpl; [reflexivity|]);
  norm_counts;
  (destruct (dev_read_fault d (count_calls is_CallReadline tr)); simpl; [reflexivity|]).
  all: match goal with
       | |- context [split_line ?x] => destruct (split_line x) as [line rest]
       end; simpl.
  all: destruct line; reflexivity.
Qed.

Ltac new_calls H :=
  simpl in H; rewrite <- ?app_assoc in H; simpl in H;
  first [ apply app_inv_head in H | apply app_eq_self in H ]; subst.

(** The outcome of [send_cmd], read off the calls it made: either the read
    returned [raw], the first line of what was pending, and the outcome
    follows from [raw] alone; or no read returned and the call raised
    something other than [TimeoutError]. *)
Lemma send_cmd_outcome c cmd timeout new :
  channel (snd (SerialComm.send_cmd cmd timeout c)) = channel c ++ new ->
  (exists raw,
      raw = fst (split_line (pending c timeout))
      /\ new = [CallReset; CallWrite (flat_map encode_codepoint (strip cmd ++ [NL]));
                CallReadline timeout (Some raw)]
      /\ fst (SerialComm.send_cmd cmd timeout c) =
         match raw with
         | [] => inl (Exn TimeoutError (timeout_msg cmd timeout))
         | _ :: _ => inr (parse_reply (strip (decode_utf8_replace raw)),
                          strip (decode_utf8_replace raw))
         end)
  \/ ((forall t raw, ~ In (CallReadline t (Some raw)) new)
      /\ exists e, fst (SerialComm.send_cmd cmd timeout c) = inl e
                   /\ exn_class_of e <> TimeoutError).
Proof.
  intros H. destruct (handle_open (ser c)) eqn:Ho.
  - apply handle_open_inv in Ho as (s & Hs & Hop).
    rewrite (send_cmd_open c s cmd timeout Hs Hop) in *.
    unfold send_cmd_open_result, pending in *. rewrite Hs.
    unfold encode_utf8 in *.
    destruct (first_surrogate 0 _) as [[i at_i]|].
    { new_calls H. right. split; [simpl; intuition discriminate|].
      eexists; split; [reflexivity | discriminate]. }
    destruct (dev_write_fault _ _).
    { new_calls H. right. split; [simpl; intuition discriminate|].
      eexists; split; [reflexivity | discriminate]. }
    destruct (dev_read_fault _ _).
    { new_calls H. right. split; [simpl; intuition discriminate|].
      eexists; split; [reflexivity | discriminate]. }
    left.
    assert (Eb : s_in_buffer
                   match dev_reset_fault (dev c) (count_calls is_CallReset (channel c)) with
                   | Some _ => s
                   | None => set_in_buffer [] s
                   end
                 = match dev_reset_fault (dev c) (count_calls is_CallReset (channel c)) with
                   | Some _ => s_in_buffer s
                   | None => []
                   end) by (destruct (dev_reset_fault _ _); reflexivity).
    rewrite Eb in *. clear Eb.
    match goal with
    | |- context [split_line ?x] => exists (fst (split_line x))
    end.
    split; [reflexivity|].
    destruct (split_line _) as [line rest]; simpl in *.
    destruct line; new_calls H; split; reflexivity.
  - rewrite send_cmd_closed in * by assumption. new_calls H.
    right. split; [simpl; intuition|].
    eexists; split; [reflexivity | discriminate].
Qed.

Lemma send_cmd_channel c cmd timeout :
  exists new, channel (snd (SerialComm.send_cmd cmd timeout c)) = channel c ++ new
              /\ send_calls timeout new.
Proof.
  destruct (handle_open (ser c)) eqn:Ho.
  - apply handle_open_inv in Ho as (s & Hs & Hop).
    rewrite (send_cmd_open c s cmd timeout Hs Hop). unfold send_cmd_open_result.
    destruct (encode_utf8 _); simpl.
    { exists [CallReset]. split; [reflexivity | constructor]. }
    destruct (dev_write_fault _ _); simpl.
    { eexists. rewrite <- app_assoc. split; [reflexivity | constructor]. }
    destruct (dev_read_fault _ _); simpl.
    { eexists. rewrite <- !app_assoc. split; [reflexivity | constructor]. }
    destruct (split_line _) as [line rest]; simpl.
    destruct line; simpl; eexists; rewrite <- !app_assoc;
      (split; [reflexivity | simpl; constructor]).
  - rewrite send_cmd_closed by assumption. exists []. rewrite app_nil_r.
    split; [reflexivity | constructor].
Qed.

Lemma close_ser c :
  ser (snd (SerialComm.close c)) = None /\ fst (SerialComm.close c) = inr tt.
Proof.
  destruct c as [[s|] d tr]; unfold SerialComm.close, ser_close; unfold_monad;
    simpl; [|auto].
  destruct (s_is_open s); simpl; [destruct (s_close_fault s)|]; simpl; auto.
Qed.

Lemma close_closed c :
  ser c = None -> SerialComm.close c = (inr tt, c).
Proof.
  destruct c as [[s|] d tr]; simpl; intros H; [discriminate|reflexivity].
Qed.

Lemma is_open_run c :
  SerialComm.is_open c = (inr (handle_open (ser c)), c).
Proof. reflexivity. Qed.

Lemma open_failed_closed c port baud t e :
  handle_open (ser c) = false ->
  fst (SerialComm.open port baud t c) = inl e ->
  handle_open (ser (snd (SerialComm.open port baud t c))) = false.
Proof.
  intros Hc. unfold SerialComm.open, Serial_new. unfold_monad. simpl.
  rewrite Hc. simpl. destruct (dev_open _ _ _); simpl; [auto | discriminate].
Qed.

Lemma disconnected_not_open c : disconnected c -> handle_open (ser c) = false.
Proof.
  induction 1; simpl; auto.
  - now rewrite (proj1 (close_ser c)).
  - eapply open_failed_closed; eauto.
  - now rewrite send_cmd_closed.
Qed.

(** * The JSON scanner: what it consumes and the fuel it needs *)

Section JsonFuel.
Local Open Scope nat_scope.

Lemma skip_ws_len s : List.length (skip_ws s) <= List.length s.
Proof.
  induction s as [|c t IH]; simpl; [lia|].
  destruct (is_json_ws c); simpl; lia.
Qed.

Lemma push_len c r x rest :
  push c r = Some (x, rest) -> exists x', r = Some (x', rest).
Proof. destruct r as [[x' rest']|]; simpl; [intros [= _ <-]; eauto | discriminate]. Qed.

Lemma scanstring_len_aux n : forall s x r,
  List.length s <= n -> scanstring s = Some (x, r) -> List.length r < List.length s.
Proof.
  induction n as [|n IH]; intros s x r Hl H.
  { destruct s; [discriminate | simpl in Hl; lia]. }
  destruct s as [|c t]; [discriminate|].
  simpl in Hl. cbn [scanstring] in H.
  remember scanstring as sc eqn:Hsc.
  assert (IH' : forall s x r, List.length s <= n -> sc s = Some (x, r) -> List.length r < List.length s)
    by (subst sc; exact IH).
  clear IH Hsc.
  repeat match goal with
         | H : Some _ = Some _ |- _ => injection H as H; subst
         | H : None = Some _ |- _ => discriminate H
         | H : push _ _ = Some _ |- _ =>
           apply push_len in H as [? H]; apply IH' in H; simpl in *; lia
         | H : context [if ?b then _ else _] |- _ => destruct b eqn:?
         | H : context [match ?l with [] => _ | _ :: _ => _ end] |- _ =>
           destruct l as [|? ?]
         | H : context [match ?o with Some _ => _ | None => _ end] |- _ =>
           destruct o eqn:?
         end; simpl; try lia.
Qed.

Lemma scanstring_len s x r : scanstring s = Some (x, r) -> List.length r < List.length s.
Proof. apply (scanstring_len_aux (List.length s)). lia. Qed.

Lemma strip_prefix_len p s r :
  strip_prefix p s = Some r -> List.length s = List.length p + List.length r.
Proof.
  revert s. induction p as [|a p IH]; intros s; simpl.
  - intros [= ->]. reflexivity.
  - destruct s as [|b s]; [discriminate|].
    destruct (a =? b)%N; [|discriminate]. intros H. apply IH in H.
    simpl. lia.
Qed.

Lemma span_digits_len s : List.length (snd (span_digits s)) <= List.length s.
Proof.
  induction s as [|c t IH]; simpl; [simpl; lia|].
  destruct (is_digit c); [|simpl; lia].
  destruct (span_digits t); simpl in *. lia.
Qed.

Lemma match_frac_len s : List.length (snd (match_frac s)) <= List.length s.
Proof.
  unfold match_frac. destruct s as [|c t]; [simpl; lia|].
  destruct (c =? 46)%N; [|simpl; lia].
  pose proof (span_digits_len t). destruct (span_digits t) as [[|d fd] r];
    simpl in *; lia.
Qed.

Lemma match_exp_len s : List.length (snd (match_exp s)) <= List.length s.
Proof.
  unfold match_exp. destruct s as [|c t]; [simpl; lia|].
  destruct ((c =? 101) || (c =? 69))%N; [|simpl; lia].
  destruct t as [|sg r]; [simpl; lia|].
  destruct (sg =? 45)%N; [|destruct (sg =? 43)%N].
  - pose proof (span_digits_len r).
    destruct (span_digits r) as [[|d ed] r']; simpl in *; lia.
  - pose proof (span_digits_len r).
    destruct (span_digits r) as [[|d ed] r']; simpl in *; lia.
  - pose proof (span_digits_len (sg :: r)).
    destruct (span_digits (sg :: r)) as [[|d ed] r']; simpl in *; lia.
Qed.

Lemma match_unsigned_len neg s v r :
  match_unsigned neg s = Some (v, r) -> List.length r < List.length s.
Proof.
  unfold match_unsigned. destruct s as [|c t]; [discriminate|].
  destruct (is_digit c) eqn:Hc; [|discriminate].
  assert (H2 : List.length
                 (snd (if (c =? 48)%N then ([c], t) else span_digits (c :: t)))
               <= List.length t).
  { destruct (c =? 48)%N; [simpl; lia|].
    simpl. rewrite Hc. pose proof (span_digits_len t).
    destruct (span_digits t); simpl in *; lia. }
  destruct (if (c =? 48)%N then ([c], t) else span_digits (c :: t))
    as [int_ds s2]. simpl in H2.
  pose proof (match_frac_len s2) as H3.
  destruct (match_frac s2) as [frac_ds s3]. simpl in H3.
  pose proof (match_exp_len s3) as H4.
  destruct (match_exp s3) as [ex s4]. simpl in H4.
  destruct frac_ds; destruct ex; intros [= _ <-]; simpl; lia.
Qed.

Lemma match_number_len s v r :
  match_number s = Some (v, r) -> List.length r < List.length s.
Proof.
  unfold match_number. destruct s as [|c t]; [discriminate|].
  destruct (c =? 45)%N; intros H; apply match_unsigned_len in H; simpl in *; lia.
Qed.

Lemma scan_atom_len s v r :
  scan_atom s = Some (v, r) -> List.length r < List.length s.
Proof.
  unfold scan_atom.
  repeat match goal with
         | |- context [strip_prefix ?p s] =>
           let E := fresh "E" in
           destruct (strip_prefix p s) eqn:E;
           [apply strip_prefix_len in E; intros [= _ <-];
            rewrite E; vm_compute; lia|]
         | |- context [match_number s] =>
           let E := fresh "E" in
           destruct (match_number s) as [[v' r']|] eqn:E;
           [apply match_number_len in E; intros [= _ <-]; exact E|]
         end.
  discriminate.
Qed.

Ltac follow H :=
  repeat match type of H with
         | context [if ?b then _ else _] => destruct b eqn:?
         | context [match ?o with Some _ => _ | None => _ end] =>
           destruct o as [[? ?]|] eqn:?
         | context [match ?l with [] => _ | _ :: _ => _ end] =>
           destruct l as [|? ?] eqn:?
         end; try discriminate H.

Ltac unfold_scanner :=
  cbn [scan_once object_members array_elements] in *.

Lemma fuel_le_step n m : fuel_le n m -> fuel_le (S n) (S m).
Proof.
  intros (A & B & C). split; [|split].
  - intros s r H. unfold_scanner. follow H; auto.
  - intros p s r H. unfold_scanner. follow H;
      repeat match goal with
             | E : scan_once n _ = Some _ |- _ => apply A in E; rewrite E
             end;
      repeat match goal with
             | E : _ = _ |- _ => rewrite E
             end; auto.
  - intros vs s r H. unfold_scanner. follow H;
      repeat match goal with
             | E : scan_once n _ = Some _ |- _ => apply A in E; rewrite E
             end;
      repeat match goal with
             | E : _ = _ |- _ => rewrite E
             end; auto.
Qed.

Lemma fuel_le_mono n : forall m, n <= m -> fuel_le n m.
Proof.
  induction n as [|n IH]; intros m Hle.
  - split; [|split]; intros; discriminate.
  - destruct m as [|m]; [lia|]. apply fuel_le_step, IH. lia.
Qed.

Lemma skip_ws_cons t c l :
  skip_ws t = c :: l -> List.length l < List.length t.
Proof.
  intros E. pose proof (skip_ws_len t) as H. rewrite E in H. simpl in H. lia.
Qed.

(** The length facts of the equations in the context. *)
Ltac len_facts :=
  repeat match goal with
         | E : skip_ws ?t = _ :: ?l |- _ =>
           lazymatch goal with
           | _ : List.length l < List.length t |- _ => fail
           | _ => pose proof (skip_ws_cons _ _ _ E)
           end
         | E : scanstring ?t = Some (_, ?r) |- _ =>
           lazymatch goal with
           | _ : List.length r < List.length t |- _ => fail
           | _ => pose proof (scanstring_len _ _ _ E)
           end
         | E : scan_atom ?t = Some (_, ?r) |- _ =>
           lazymatch goal with
           | _ : List.length r < List.length t |- _ => fail
           | _ => pose proof (scan_atom_len _ _ _ E)
           end
         end;
  repeat match goal with
         | |- context [skip_ws ?t] =>
           lazymatch goal with
           | _ : List.length (skip_ws t) <= List.length t |- _ => fail
           | _ => pose proof (skip_ws_len t)
           end
         | _ : context [skip_ws ?t] |- _ =>
           lazymatch goal with
           | _ : List.length (skip_ws t) <= List.length t |- _ => fail
           | _ => pose proof (skip_ws_len t)
           end
         end.

Ltac inj H := injection H as ? ?; subst.

Ltac lens := cbn [List.length] in *; lia.

(** Fuel as a successor, ready for one unfolding of the scanner. *)
Ltac spend :=
  match goal with
  | |- context [List.length ?s - List.length ?r] =>
    replace (List.length s - List.length r)
      with (S (List.length s - List.length r - 1)) by lens
  end; unfold_scanner.

(** The scans of the context, with the fuel they need, and the same
    scans under the fuel of the goal. *)
Ltac tighten A B C :=
  repeat match goal with
         | E : scan_once _ _ = Some _ |- _ => apply A in E as [? E]
         | E : object_members _ _ _ = Some _ |- _ => apply B in E as [? E]
         | E : array_elements _ _ _ = Some _ |- _ => apply C in E as [? E]
         end.

Ltac lift :=
  repeat match goal with
         | E : scan_once ?k ?s = Some ?r |- context [scan_once ?m ?s] =>
           rewrite (proj1 (fuel_le_mono k m ltac:(lens)) s r E)
         | E : object_members ?k ?p ?s = Some ?r
           |- context [object_members ?m ?p ?s] =>
           rewrite (proj1 (proj2 (fuel_le_mono k m ltac:(lens))) p s r E)
         | E : array_elements ?k ?vs ?s = Some ?r
           |- context [array_elements ?m ?vs ?s] =>
           rewrite (proj2 (proj2 (fuel_le_mono k m ltac:(lens))) vs s r E)
         end.

Ltac replay :=
  repeat match goal with
         | E : ?x = _ |- context [?x] =>
           lazymatch x with
           | scan_once _ _ => fail
           | object_members _ _ _ => fail
           | array_elements _ _ _ => fail
           | _ => rewrite E
           end
         end.

Ltac leaf A B C H :=
  tighten A B C; try (inj H); len_facts;
  split; [lens|]; spend; repeat (progress (replay; lift)); try reflexivity.

Lemma fuel_enough_all n : fuel_enough n.
Proof.
  induction n as [|n (A & B & C)].
  { split; [|split]; intros; discriminate. }
  split; [|split].
  - intros s v r H. unfold_scanner. destruct s as [|c t]; [discriminate|].
    follow H; leaf A B C H.
  - intros p s v r H. unfold_scanner. follow H; leaf A B C H.
  - intros vs s v r H. unfold_scanner. follow H; leaf A B C H.
Qed.

(** The fuel [json_loads] gives the scanner, one more than the length of
    the text, never loses a parse: a value found with any fuel is found
    with that one. *)
Lemma scan_once_fuel n s r :
  scan_once n s = Some r -> scan_once (S (List.length s)) s = Some r.
Proof.
  destruct r as [v r]. intros H.
  destruct (fuel_enough_all n) as (A & _ & _).
  apply A in H as [Hl H].
  apply (proj1 (fuel_le_mono (List.length s - List.length r)
                             (S (List.length s)) ltac:(lia)) s (v, r) H).
Qed.

Lemma json_loads_fuel n s r :
  scan_once n (skip_ws s) = Some r ->
  scan_once (S (List.length s)) (skip_ws s) = Some r.
Proof.
  intros H. apply scan_once_fuel in H.
  apply (proj1 (fuel_le_mono (S (List.length (skip_ws s)))
                             (S (List.length s))
                             ltac:(pose proof (skip_ws_len s); lia))
               (skip_ws s) r H).
Qed.

End JsonFuel.

(* ------------------------------------------------------------------ *)
(** * [send_cmd] over a port that can refuse a reconfiguration *)

Lemma pyserial_send_closed p cmd timeout :
  handle_open (ser (link p)) = false ->
  Pyserial.send_cmd cmd timeout p = (inl NotConnected, p).
Proof.
  intros H. unfold Pyserial.send_cmd. unfold_monad. now rewrite H.
Qed.

Lemma pyserial_send_open p s cmd timeout :
  ser (link p) = Some s -> s_is_open s = true ->
  Pyserial.send_cmd cmd timeout p = pyserial_send_result p s cmd timeout.
Proof.
  intros Hs Ho. destruct p as [[sr d tr] rf rs]. simpl in Hs. subst sr.
  destruct s as [pn b o t ib cf]. simpl in Ho. subst o.
  unfold Pyserial.send_cmd, pyserial_send_result, timeout_setter, on_link,
    reconfigure_port, next_reconfigure, ser_reset_input_buffer,
    ser_write, ser_get_timeout, ser_set_timeout, ser_readline.
  unfold_monad. simpl.
  destruct (dev_reset_fault d (count_calls is_CallReset tr)); simpl;
  (destruct (encode_utf8 (strip cmd ++ [NL])); simpl; [reflexivity|]);
  norm_counts;
  (destruct (dev_write_fault d (count_calls is_CallWrite tr)); simpl; [reflexivity|]);
  (destruct (timeout <? 0); simpl; [reflexivity|]);
  (destruct (rf (List.length rs)); simpl; [reflexivity|]);
  norm_counts;
  rewrite ?length_app; simpl; rewrite ?Nat.add_1_r.
  all: destruct (dev_read_fault d (count_calls is_CallReadline tr)); simpl.
  all: try match goal with
           | |- context [split_line ?x] => destruct (split_line x) as [line rest]
           end; simpl.
  all: destruct (t <? 0); simpl; [try destruct line; reflexivity|].
  all: rewrite ?length_app; simpl; rewrite ?Nat.add_1_r.
  all: destruct (rf (S (List.length rs))); simpl; rewrite <- ?(app_assoc rs);
         try destruct line; reflexivity.
Qed.

(** On a port that takes every reconfiguration, [Pyserial.send_cmd] with a
    valid timeout is [SerialComm.send_cmd]. *)
Lemma pyserial_send_reliable p cmd timeout :
  reliable p -> valid_timeout (link p) = true -> 0 <= timeout ->
  let r := Pyserial.send_cmd cmd timeout p in
  let r0 := SerialComm.send_cmd cmd timeout (link p) in
  fst r = fst r0 /\ link (snd r) = snd r0
  /\ reconfigure_fault (snd r) = reconfigure_fault p.
Proof.
  intros Hr Hv Ht. cbv zeta. destruct (handle_open (ser (link p))) eqn:Ho.
  - apply handle_open_inv in Ho as (s & Hs & Hop).
    rewrite (pyserial_send_open p s cmd timeout Hs Hop).
    rewrite (send_cmd_open (link p) s cmd timeout Hs Hop).
    unfold pyserial_send_result, send_cmd_open_result, next_reconfigure.
    unfold valid_timeout in Hv. rewrite Hs in Hv.
    rewrite !Hr.
    replace (timeout <? 0) with false by (symmetry; apply Z.ltb_ge; lia).
    replace (s_timeout s <? 0) with false
      by (symmetry; apply Z.ltb_ge; now apply Z.leb_le).
    destruct s as [pn b o t ib cf].
    destruct (encode_utf8 _); [repeat split|].
    destruct (dev_write_fault _ _); [repeat split|].
    destruct (dev_read_fault _ _).
    { cbn [fst snd link]. repeat split.
      destruct (dev_reset_fault _ _); reflexivity. }
    destruct (split_line _) as [line rest]. cbn [fst snd link].
    destruct line; repeat split; destruct (dev_reset_fault _ _); reflexivity.
  - rewrite pyserial_send_closed, send_cmd_closed by assumption. repeat split.
Qed.

Lemma ltb_false_of_valid z : (0 <=? z) = true -> (z <? 0) = false.
Proof. intros H. apply Z.ltb_ge. now apply Z.leb_le. Qed.

(* ------------------------------------------------------------------ *)
(** * The client: claims about [SerialComm] *)



(** C2: [send_cmd] called when no connection has been opened successfully,
    or after [close], fails with the "Serial port not open" error and
    makes no call on the channel (it leaves the whole state untouched),
    whatever the command and the timeout. *)
Theorem send_cmd_not_connected c cmd timeout :
  disconnected c ->
  SerialComm.send_cmd cmd timeout c = (inl NotConnected, c)
  /\ NotConnected = Exn RuntimeError (lit "Serial port not open")
  /\ channel (snd (SerialComm.send_cmd cmd timeout c)) = channel c.
Proof.
  intros H. apply disconnected_not_open in H.
  rewrite send_cmd_closed by assumption. auto.
Qed.

Lemma send_cmd_not_connected_witness :
  let c := snd (SerialComm.close (connected_to (answering []))) in
  SerialComm.send_cmd (lit "PING") 3 c = (inl NotConnected, c)
  /\ NotConnected = Exn RuntimeError (lit "Serial port not open")
  /\ channel (snd (SerialComm.send_cmd (lit "PING") 3 c)) = channel c.
Proof.
  exact (send_cmd_not_connected
           (snd (SerialComm.close (connected_to (answering []))))
           (lit "PING") 3 (dis_close _)).
Defined.



(** C5 (as stated, refuted): the device is lost after the command has
    been written, so that the assignment of the per-call timeout (line 65,
    before the [try]) stores the value 3 and then fails to reconfigure the
    port.  [send_cmd] raises that error without reading, and the read
    timeout of the connection, 5 before the call, is 3 after it. *)
Lemma send_cmd_leaves_call_timeout :
  let p := unplugged (connected_to (answering ok_reply)) in
  let r := Pyserial.send_cmd (lit "READ") 3 p in
  fst r = inl (Exn SerialException
                   (lit "Could not configure port: (5, 'Input/output error')"))
  /\ read_timeout (link p) = Some 5
  /\ read_timeout (link (snd r)) = Some 3
  /\ channel (link (snd r))
     = channel (link p) ++ [CallReset; CallWrite (wire (lit "READ"))].
Proof. vm_compute. repeat split. Qed.

(** C5 (amended): [send_cmd] makes at most one read, under the per-call
    timeout.  Afterwards the read timeout of the connection is what it was
    before the call on every path but one: not connected, a command that
    cannot be encoded, a failed write, a per-call timeout that the handle
    refuses as invalid, a read that raises, a timeout, a reply, and also
    when restoring the timeout fails to reconfigure the port (the value
    is stored before that).  The exception is the assignment of the
    per-call timeout failing to reconfigure the port: then [send_cmd]
    raises that error, makes no read and leaves the per-call value in the
    handle. *)
Theorem send_cmd_restores_timeout p cmd timeout :
  valid_timeout (link p) = true ->
  let r := Pyserial.send_cmd cmd timeout p in
  exists new,
    channel (link (snd r)) = channel (link p) ++ new
    /\ (forall t x, In (CallReadline t x) new -> t = timeout)
    /\ (count_calls is_CallReadline new <= 1)%nat
    /\ (read_timeout (link (snd r)) = read_timeout (link p)
        \/ exists msg,
             next_reconfigure p = Some msg
             /\ fst r = inl (Exn SerialException msg)
             /\ read_timeout (link (snd r)) = Some timeout
             /\ count_calls is_CallReadline new = 0%nat)
    /\ (next_reconfigure p = None ->
        read_timeout (link (snd r)) = read_timeout (link p))
    /\ (count_calls is_CallReadline new = 1%nat ->
        read_timeout (link (snd r)) = read_timeout (link p)).
Proof.
  intros Hv. cbv zeta. destruct (handle_open (ser (link p))) eqn:Ho.
  - apply handle_open_inv in Ho as (s & Hs & Hop).
    rewrite (pyserial_send_open p s cmd timeout Hs Hop).
    unfold pyserial_send_result, read_timeout.
    unfold valid_timeout in Hv. rewrite Hs in *.
    rewrite (ltb_false_of_valid _ Hv).
    destruct s as [pn b o t ib cf]. cbn [s_timeout] in *.
    destruct (encode_utf8 _) as [msg|data]; cbn [fst snd link channel ser].
    { exists [CallReset]. split; [reflexivity|].
      split; [intros t0 x [D|[]]; discriminate|].
      split; [unfold count_calls; simpl; lia|].
      split; [left|split; intros _]; destruct (dev_reset_fault _ _); reflexivity. }
    destruct (dev_write_fault _ _); cbn [fst snd link channel ser].
    { exists [CallReset; CallWrite data]. split; [now rewrite <- app_assoc|].
      split; [intros t0 x [D|[D|[]]]; discriminate|].
      split; [unfold count_calls; simpl; lia|].
      split; [left|split; intros _]; destruct (dev_reset_fault _ _); reflexivity. }
    destruct (timeout <? 0); cbn [fst snd link channel ser].
    { exists [CallReset; CallWrite data]. split; [now rewrite <- app_assoc|].
      split; [intros t0 x [D|[D|[]]]; discriminate|].
      split; [unfold count_calls; simpl; lia|].
      split; [left|split; intros _]; destruct (dev_reset_fault _ _); reflexivity. }
    destruct (next_reconfigure p) as [msg|]; cbn [fst snd link channel ser].
    { exists [CallReset; CallWrite data]. split; [now rewrite <- app_assoc|].
      split; [intros t0 x [D|[D|[]]]; discriminate|].
      split; [unfold count_calls; simpl; lia|].
      split; [|split; discriminate].
      right. exists msg. repeat split. }
    destruct (dev_read_fault _ _).
    { destruct (reconfigure_fault p _); cbn [fst snd link channel ser];
        (exists [CallReset; CallWrite data; CallReadline timeout None];
         split; [now rewrite <- !app_assoc|];
         split; [intros t0 x [D|[D|[D|[]]]]; congruence|];
         split; [unfold count_calls; simpl; lia|];
         split; [left|split; intros _]; destruct (dev_reset_fault _ _);
         reflexivity). }
    destruct (split_line _) as [line rest]. cbn [fst snd].
    destruct (reconfigure_fault p _); cbn [fst snd link channel ser];
      (exists [CallReset; CallWrite data; CallReadline timeout (Some line)];
       split; [now rewrite <- !app_assoc|];
       split; [intros t0 x [D|[D|[D|[]]]]; congruence|];
       split; [unfold count_calls; simpl; lia|];
       split; [left|split; intros _]; destruct (dev_reset_fault _ _);
       reflexivity).
  - rewrite pyserial_send_closed by assumption. cbn [fst snd].
    exists []. split; [now rewrite app_nil_r|].
    split; [intros t0 x []|]. split; [unfold count_calls; simpl; lia|]. auto.
Qed.

Lemma send_cmd_restores_timeout_witness :
  let p := failing_at 1 (lit "Could not configure port")
             (connected_to (answering [])) in
  let r := Pyserial.send_cmd (lit "READ") 3 p in
  exists new,
    channel (link (snd r)) = channel (link p) ++ new
    /\ (forall t x, In (CallReadline t x) new -> t = 3)
    /\ (count_calls is_CallReadline new <= 1)%nat
    /\ (read_timeout (link (snd r)) = read_timeout (link p)
        \/ exists msg,
             next_reconfigure p = Some msg
             /\ fst r = inl (Exn SerialException msg)
             /\ read_timeout (link (snd r)) = Some 3
             /\ count_calls is_CallReadline new = 0%nat)
    /\ (next_reconfigure p = None ->
        read_timeout (link (snd r)) = read_timeout (link p))
    /\ (count_calls is_CallReadline new = 1%nat ->
        read_timeout (link (snd r)) = read_timeout (link p)).
Proof.
  exact (send_cmd_restores_timeout
           (failing_at 1 (lit "Could not configure port")
              (connected_to (answering [])))
           (lit "READ") 3 eq_refl).
Defined.

(** C6: [close] never raises, also when closing the handle fails, and
    leaves the transport closed: after any number of calls, in any state,
    [is_open] answers false; closing again changes nothing. *)
Theorem close_idempotent c n :
  let r := for_each (repeat tt (S n)) (fun _ => SerialComm.close) c in
  fst r = inr tt
  /\ snd r = snd (SerialComm.close c)
  /\ ser (snd r) = None
  /\ SerialComm.is_open (snd r) = (inr false, snd r).
Proof.
  assert (Hrep : forall k c0, ser c0 = None ->
            for_each (repeat tt k) (fun _ => SerialComm.close) c0 = (inr tt, c0)).
  { induction k; intros c0 H0; simpl; [reflexivity|].
    unfold bind. rewrite close_closed by assumption. now apply IHk. }
  destruct (close_ser c) as [Hs Hr].
  assert (E : for_each (repeat tt (S n)) (fun _ => SerialComm.close) c
              = (inr tt, snd (SerialComm.close c))).
  { simpl. unfold bind. destruct (SerialComm.close c) as [r c']; simpl in *.
    subst r. now apply Hrep. }
  cbv zeta. rewrite E. simpl. rewrite is_open_run, Hs. auto.
Qed.



(* ------------------------------------------------------------------ *)
(** * Properties of [DAQGui] *)

Lemma log_response_run rt raw parsed g :
  DAQGui._log_response rt raw parsed g
  = (inr tt,
     add_entry
       match parsed with
       | PyDict (kv :: d) => summary_entry rt (strftime rt (clock g)) (kv :: d)
       | _ => raw_entry (strftime rt (clock g)) raw
       end (tick g)).
Proof.
  unfold DAQGui._log_response, DAQGui.now, summary_entry, raw_entry, field.
  unfold_monad.
  destruct parsed as [| b | z | f | s | l | d];
    try (simpl; rewrite ?andb_false_r; reflexivity).
  destruct d as [|kv d]; [reflexivity|].
  cbv [py_truthy is_dict andb py_get ret bind modify].
  f_equal. f_equal. rewrite <- !app_assoc. reflexivity.
Qed.

Lemma log_plain_run rt text g :
  DAQGui._log_response_plain rt text g
  = (inr tt, add_entry (strftime rt (clock g) ++ lit " | " ++ text ++ [NL]) (tick g)).
Proof. reflexivity. Qed.

Lemma frame_refl g : frame g g.
Proof. repeat split. Qed.

Lemma frame_trans g1 g2 g3 : frame g1 g2 -> frame g2 g3 -> frame g1 g3.
Proof.
  unfold frame. intros (A1 & A2 & A3 & A4 & A5) (B1 & B2 & B3 & B4 & B5).
  repeat split; congruence.
Qed.

Lemma writes_of_app a b : writes_of (a ++ b) = writes_of a ++ writes_of b.
Proof. unfold writes_of. apply flat_map_app. Qed.

(** [send_cmd] keeps the handle as open as it was and the device as it is;
    it writes at most its own command line. *)
Lemma send_cmd_frame c cmd timeout :
  let c' := snd (SerialComm.send_cmd cmd timeout c) in
  dev c' = dev c /\ handle_open (ser c') = handle_open (ser c).
Proof.
  cbv zeta. destruct (handle_open (ser c)) eqn:Ho.
  - apply handle_open_inv in Ho as (s & Hs & Hop).
    rewrite (send_cmd_open c s cmd timeout Hs Hop). unfold send_cmd_open_result.
    destruct s as [p b o t ib cf]. simpl in Hop. subst o.
    destruct (dev_reset_fault _ _); simpl;
      (destruct (encode_utf8 _); simpl; [auto|]);
      (destruct (dev_write_fault _ _); simpl; [auto|]);
      (destruct (dev_read_fault _ _); simpl; [auto|]);
      destruct (split_line _) as [line rest]; destruct line; simpl; auto.
  - rewrite send_cmd_closed by assumption. simpl. auto.
Qed.

Lemma send_cmd_writes c cmd timeout data :
  handle_open (ser c) = true ->
  encode_utf8 (strip cmd ++ [NL]) = inr data ->
  writes_of (channel (snd (SerialComm.send_cmd cmd timeout c)))
  = writes_of (channel c) ++ [data].
Proof.
  intros Ho He. apply handle_open_inv in Ho as (s & Hs & Hop).
  rewrite (send_cmd_open c s cmd timeout Hs Hop). unfold send_cmd_open_result.
  rewrite He.
  destruct (dev_write_fault _ _); simpl.
  { now rewrite !writes_of_app, <- app_assoc. }
  destruct (dev_read_fault _ _); simpl.
  { rewrite !writes_of_app, <- !app_assoc. simpl. reflexivity. }
  destruct (split_line _) as [line rest]; destruct line; simpl;
    rewrite !writes_of_app, <- !app_assoc; reflexivity.
Qed.

Lemma split_line_nonempty l : l <> [] -> fst (split_line l) <> [].
Proof.
  destruct l as [|b t]; [contradiction|]. intros _. simpl.
  destruct (Byte.to_N b =? NL)%N; [discriminate|].
  destruct (split_line t); discriminate.
Qed.

Lemma send_cmd_responsive c cmd timeout data :
  handle_open (ser c) = true ->
  encode_utf8 (strip cmd ++ [NL]) = inr data ->
  responsive (dev c) ->
  exists v, fst (SerialComm.send_cmd cmd timeout c) = inr v.
Proof.
  intros Ho He Hr. apply handle_open_inv in Ho as (s & Hs & Hop).
  rewrite (send_cmd_open c s cmd timeout Hs Hop). unfold send_cmd_open_result.
  rewrite He.
  destruct (Hr (count_calls is_CallWrite (channel c))) as (W & _ & _).
  destruct (Hr (count_calls is_CallReadline (channel c))) as (_ & R & I).
  rewrite W, R.
  match goal with
  | |- context [split_line ?x] =>
    pose proof (split_line_nonempty x) as Hne
  end.
  destruct (fst (split_line _)) eqn:E.
  - exfalso. apply Hne; [|reflexivity].
    intros Happ. apply app_eq_nil in Happ as [_ Hi]. now apply I in Hi.
  - simpl. eauto.
Qed.

Lemma encodable_wire cmd :
  encodable cmd = true -> encode_utf8 (strip cmd ++ [NL]) = inr (wire cmd).
Proof.
  unfold encodable, wire, utf8. destruct (encode_utf8 _); [discriminate|reflexivity].
Qed.

Lemma frame_connected g g' : frame g g' -> is_connected g -> is_connected g'.
Proof. unfold frame, is_connected. intros (_ & _ & H & _). congruence. Qed.

Lemma frame_responsive g g' :
  frame g g' -> responsive (dev (comm g)) -> responsive (dev (comm g')).
Proof. unfold frame. intros (H & _). now rewrite H. Qed.

Lemma send_and_log_issues rt cmd timeout :
  encodable cmd = true -> issues (DAQGui.send_and_log rt cmd timeout) [cmd].
Proof.
  intros He g Hc. apply encodable_wire in He.
  pose proof (send_cmd_frame (comm g) cmd timeout) as [Fd Fo].
  pose proof (send_cmd_writes (comm g) cmd timeout _ Hc He) as Hw.
  assert (Hr : responsive (dev (comm g)) ->
               exists v, fst (SerialComm.send_cmd cmd timeout (comm g)) = inr v)
    by (intros R; eapply send_cmd_responsive; eauto).
  unfold DAQGui.send_and_log, on_comm, bind.
  destruct (SerialComm.send_cmd cmd timeout (comm g)) as [[e|[parsed raw]] c'];
    simpl in *.
  - split; [repeat split; assumption|]. split.
    { intros R. destruct (Hr R) as [v Hv]. discriminate. }
    exists 1%nat. unfold writes, entries. simpl. repeat split; auto; lia.
  - rewrite log_response_run. simpl.
    split; [repeat split; assumption|]. split; [eauto|].
    exists 1%nat. unfold writes, entries. simpl. rewrite length_app. simpl.
    repeat split; auto; lia.
Qed.

Lemma issues_ret : issues (ret tt) [].
Proof.
  intros g Hc. simpl. split; [apply frame_refl|]. split; [eauto|].
  exists 0%nat. unfold writes, entries. simpl. rewrite app_nil_r.
  repeat split; auto.
Qed.

Lemma issues_bind m1 m2 c1 c2 :
  issues m1 c1 -> issues m2 c2 -> issues (m1;; m2) (c1 ++ c2).
Proof.
  intros H1 H2 g Hc. unfold bind.
  destruct (H1 g Hc) as (F1 & R1 & n1 & L1 & W1 & O1).
  destruct (m1 g) as [[e|u] g1]; simpl in *.
  - split; [assumption|]. split.
    { intros R. destruct (R1 R) as [v Hv]. discriminate. }
    exists n1. rewrite length_app. split; [lia|].
    rewrite firstn_app. replace (n1 - List.length c1)%nat with 0%nat by lia.
    simpl. rewrite app_nil_r. auto.
  - destruct O1 as [-> E1].
    pose proof (frame_connected _ _ F1 Hc) as Hc1.
    destruct (H2 g1 Hc1) as (F2 & R2 & n2 & L2 & W2 & O2).
    split; [eapply frame_trans; eauto|]. split.
    { intros R. apply R2. eapply frame_responsive; eauto. }
    exists (List.length c1 + n2)%nat. rewrite length_app. split; [lia|].
    rewrite firstn_app_2, map_app, W2, W1, firstn_all, app_assoc.
    split; [reflexivity|].
    destruct (fst (m2 g1)); lia.
Qed.

Lemma issues_for_each (A : Type) (xs : list A) (body : A -> M Gui unit) cmds :
  (forall x, issues (body x) cmds) ->
  issues (for_each xs body) (List.concat (map (fun _ => cmds) xs)).
Proof.
  intros H. induction xs as [|x xs IH]; simpl.
  - apply issues_ret.
  - apply issues_bind; auto.
Qed.

Lemma guard_issues rt m cmds :
  issues m cmds -> guarded_issues (try_except m (DAQGui.log_error rt)) cmds.
Proof.
  intros H g Hc. unfold try_except.
  destruct (H g Hc) as (F & R & n & L & W & O).
  destruct (m g) as [[e|u] g1]; cbn [fst snd] in *.
  - unfold DAQGui.log_error. rewrite log_response_run. simpl.
    split; [reflexivity|]. split.
    { destruct F as (A1 & A2 & A3 & A4 & A5). repeat split; assumption. }
    exists n. unfold writes, entries in *. simpl. rewrite length_app. simpl.
    repeat split; auto; try lia.
    intros Rsp. destruct (R Rsp) as [v Hv]. discriminate.
  - destruct u. split; [reflexivity|]. split; [assumption|].
    exists n. destruct O as [-> E]. repeat split; auto.
    intros Hne. destruct cmds; [contradiction | simpl; lia].
Qed.

Lemma guard_single rt m cmd :
  issues m [cmd] -> always_issues (try_except m (DAQGui.log_error rt)) [cmd] 0.
Proof.
  intros H g Hc.
  destruct (guard_issues rt m [cmd] H g Hc) as (E & F & n & L & N & W & T & _).
  assert (n = 1%nat).
  { simpl in L. assert (N' : (1 <= n)%nat) by (apply N; discriminate). lia. }
  subst n. simpl in *.
  split; [assumption|]. split; [assumption|]. split; [assumption|]. lia.
Qed.

Lemma always_bind m1 m2 c1 c2 e1 e2 :
  always_issues m1 c1 e1 -> always_issues m2 c2 e2 ->
  always_issues (m1;; m2) (c1 ++ c2) (e1 + e2).
Proof.
  intros H1 H2 g Hc. unfold bind.
  destruct (H1 g Hc) as (E1 & F1 & W1 & T1).
  destruct (m1 g) as [[e|u] g1]; simpl in *; [discriminate|].
  pose proof (frame_connected _ _ F1 Hc) as Hc1.
  destruct (H2 g1 Hc1) as (E2 & F2 & W2 & T2).
  split; [assumption|]. split; [eapply frame_trans; eauto|].
  rewrite W2, W1, T2, T1, map_app, length_app, app_assoc. split; [reflexivity|lia].
Qed.

Lemma always_ret : always_issues (ret tt) [] 0.
Proof.
  intros g Hc. simpl. unfold writes, entries. rewrite app_nil_r.
  split; [reflexivity|]. split; [apply frame_refl|]. split; [reflexivity|lia].
Qed.

Lemma always_status s : always_issues (modify (set_status s)) [] 0.
Proof.
  intros g Hc. simpl. unfold writes, entries. simpl. rewrite app_nil_r.
  split; [reflexivity|]. split; [repeat split|]. split; [reflexivity|lia].
Qed.

Lemma always_log_plain rt text :
  always_issues (DAQGui._log_response_plain rt text) [] 1.
Proof.
  intros g Hc. rewrite log_plain_run. simpl. unfold writes, entries. simpl.
  rewrite app_nil_r, length_app. simpl.
  split; [reflexivity|]. split; [repeat split|]. split; [reflexivity|lia].
Qed.

Lemma always_for_each_in (A : Type) (xs : list A) (body : A -> M Gui unit)
      (f : A -> str) :
  Forall (fun x => always_issues (body x) [f x] 0) xs ->
  always_issues (for_each xs body) (map f xs) 0.
Proof.
  induction 1 as [|x xs Hx _ IH]; simpl.
  - apply always_ret.
  - apply (always_bind (body x) (for_each xs body) [f x] (map f xs) 0 0); auto.
Qed.

(** A guarded step of the full test, with its pause. *)
Lemma guarded_step_always rt cmd timeout :
  encodable cmd = true ->
  always_issues
    (try_except (DAQGui.send_and_log rt cmd timeout) (DAQGui.log_error rt);;
     sleep_ms 200) [cmd] 0.
Proof.
  intros He.
  apply (always_bind _ (sleep_ms 200) [cmd] [] 0 0).
  - apply guard_single. now apply send_and_log_issues.
  - apply always_ret.
Qed.

(** Running a block that always issues its commands, then the rest. *)
Lemma always_then m (k : M Gui unit) cmds extra g :
  always_issues m cmds extra -> is_connected g ->
  exists g1, (m;; k) g = k g1
             /\ frame g g1
             /\ writes g1 = writes g ++ map wire cmds
             /\ entries g1 = (entries g + List.length cmds + extra)%nat.
Proof.
  intros H Hc. destruct (H g Hc) as (E & F & W & T). unfold bind.
  destruct (m g) as [[e|u] g1]; simpl in *; [discriminate|].
  exists g1. auto.
Qed.

Lemma recording_block_issues rt :
  issues (DAQGui.send_and_log rt (lit "START") 5;;
          for_each (seq 0 6) (fun _ =>
            DAQGui.send_and_log rt (lit "READ") 3;; sleep_ms 200);;
          DAQGui.send_and_log rt (lit "STOP") 5)
         recording_steps.
Proof.
  change recording_steps
    with ([lit "START"]
            ++ List.concat (map (fun _ : nat => [lit "READ"] ++ []) (seq 0 6))
            ++ [lit "STOP"]).
  apply issues_bind; [apply send_and_log_issues; reflexivity|].
  apply issues_bind; [|apply send_and_log_issues; reflexivity].
  apply issues_for_each. intros _.
  apply issues_bind; [apply send_and_log_issues; reflexivity | apply issues_ret].
Qed.

(** Run the block at the head of the program in the connected state [g]. *)
Ltac run_block g lem g1 F W T :=
  match goal with
  | Hc : is_connected g |- context [bind ?m (fun _ => ?k) g] =>
    let E := fresh "E" in
    destruct (always_then m k _ _ g lem Hc) as (g1 & E & F & W & T);
    rewrite E; clear E;
    pose proof (frame_connected _ _ F Hc)
  end.

Lemma full_test_run rt g :
  is_connected g ->
  exists n g',
    DAQGui._full_test_worker rt g = (inr tt, g')
    /\ (1 <= n <= 8)%nat
    /\ writes g' = writes g
                   ++ map wire (first_steps
                                ++ (if chk_save_test g
                                    then firstn n recording_steps else [])
                                ++ [lit "LIST_FILES"])
    /\ entries g' = (entries g + 8 + (if chk_save_test g then n else 1) + 1)%nat
    /\ (responsive (dev (comm g)) -> n = 8%nat).
Proof.
  intros Hc. unfold DAQGui._full_test_worker.
  run_block g (always_status (lit "Running full test...")) g1 F1 W1 T1.
  assert (A2 : forall body,
             body = (fun st : str * Z =>
                       try_except (DAQGui.send_and_log rt (fst st) (snd st))
                                  (DAQGui.log_error rt);; sleep_ms 200) ->
             always_issues (for_each DAQGui.steps body) (map fst DAQGui.steps) 0).
  { intros body ->. apply always_for_each_in.
    repeat (apply Forall_cons; [apply guarded_step_always; reflexivity|]).
    apply Forall_nil. }
  run_block g1 (A2 _ eq_refl) g2 F2 W2 T2. clear A2.
  assert (A3 : forall body,
             body = (fun _ : nat =>
                       try_except (DAQGui.send_and_log rt (lit "READ") 3)
                                  (DAQGui.log_error rt);; sleep_ms 200) ->
             always_issues (for_each (seq 0 4) body)
                           (map (fun _ => lit "READ") (seq 0 4)) 0).
  { intros body ->. apply always_for_each_in.
    repeat (apply Forall_cons; [apply guarded_step_always; reflexivity|]).
    apply Forall_nil. }
  run_block g2 (A3 _ eq_refl) g3 F3 W3 T3. clear A3.
  assert (F03 : frame g g3) by (eapply frame_trans; [eapply frame_trans|]; eauto).
  assert (W03 : writes g3 = writes g ++ map wire first_steps).
  { rewrite W3, W2, W1. simpl. rewrite <- !app_assoc. reflexivity. }
  assert (T03 : entries g3 = (entries g + 8)%nat).
  { rewrite T3, T2, T1. simpl. lia. }
  clear F1 F2 F3 W1 W2 W3 T1 T2 T3.
  (* the recording phase *)
  unfold bind at 1. unfold gets at 1.
  assert (Hchk : chk_save_test g3 = chk_save_test g) by apply F03.
  rewrite Hchk.
  destruct (chk_save_test g).
  - pose proof (guard_issues rt _ _ (recording_block_issues rt) g3 ltac:(assumption))
      as (E4 & F4 & n & L4 & N4 & W4 & T4 & R4).
    unfold bind at 1.
    match goal with
    | |- context [try_except ?m ?h g3] => destruct (try_except m h g3) as [r4 g4]
    end.
    simpl in E4, F4, W4, T4. subst r4.
    pose proof (frame_connected _ _ F4 ltac:(assumption)).
    run_block g4 (guard_single rt _ _
                   (send_and_log_issues rt (lit "LIST_FILES") 5 eq_refl))
              g5 F5 W5 T5.
    exists n, (set_status (lit "Full test complete") g5).
    split; [reflexivity|]. split.
    { split; [apply N4; discriminate | exact L4]. }
    unfold writes, entries in *.
    cbn [set_status comm txt_responses]. split.
    { rewrite W5, W4, W03, !map_app, <- !app_assoc. reflexivity. }
    split; [rewrite T5, T4, T03; simpl; lia|].
    intros R. apply R4. eapply frame_responsive; eauto.
  - run_block g3 (always_log_plain rt
                    (lit "Skipping recording file test (user choice)"))
              g4 F4 W4 T4.
    run_block g4 (guard_single rt _ _
                   (send_and_log_issues rt (lit "LIST_FILES") 5 eq_refl))
              g5 F5 W5 T5.
    exists 8%nat, (set_status (lit "Full test complete") g5).
    split; [reflexivity|]. split; [lia|].
    unfold writes, entries in *.
    cbn [set_status comm txt_responses]. split.
    { rewrite W5, W4, W03, !map_app, <- !app_assoc. simpl.
      rewrite ?app_nil_r. reflexivity. }
    split; [rewrite T5, T4, T03; simpl; lia | reflexivity].
Qed.

Lemma cb_keeps_comm rt : keeps_comm (Some (DAQGui.cb rt)).
Proof.
  intros f [= <-] ok resp raw g. unfold DAQGui.cb, show_str, py_get.
  unfold_monad.
  destruct ok; simpl; [|reflexivity].
  destruct resp; try reflexivity.
  destruct (py_truthy _); reflexivity.
Qed.

Lemma none_keeps_comm : keeps_comm None.
Proof. intros f H. discriminate. Qed.

Lemma cmd_worker_comm rt cmd timeout callback g :
  keeps_comm callback ->
  comm (snd (DAQGui._cmd_worker rt cmd timeout callback g))
  = snd (SerialComm.send_cmd cmd timeout (comm g)).
Proof.
  intros Hk. unfold DAQGui._cmd_worker, on_comm.
  unfold bind at 1. unfold modify at 1. unfold bind at 1.
  rewrite log_plain_run. unfold try_finally, try_except. unfold bind at 1.
  cbn [comm set_status add_entry tick].
  destruct (SerialComm.send_cmd cmd timeout (comm g)) as [[e|[parsed raw]] c'].
  - unfold bind at 1. rewrite log_plain_run. unfold bind at 1.
    rewrite log_response_run.
    destruct callback as [f|].
    + match goal with
      | |- context [f ?a ?b ?c ?x] =>
        pose proof (Hk f eq_refl a b c x) as Hf; destruct (f a b c x) as [r gf]
      end.
      simpl in *. exact Hf.
    + reflexivity.
  - unfold bind at 1. rewrite log_response_run.
    destruct callback as [f|].
    + match goal with
      | |- context [f true ?b ?c ?x] =>
        pose proof (Hk f eq_refl true b c x) as Hf;
        destruct (f true b c x) as [[e|u] gf]
      end.
      * unfold bind at 1. rewrite log_plain_run. unfold bind at 1.
        rewrite log_response_run.
        match goal with
        | |- context [f false ?b ?c ?x] =>
          pose proof (Hk f eq_refl false b c x) as Hf2;
          destruct (f false b c x) as [r gf2]
        end.
        simpl in *. congruence.
      * simpl in *. exact Hf.
    + reflexivity.
Qed.

Lemma cmd_worker_dialogs rt cmd timeout g :
  dialogs (snd (DAQGui._cmd_worker rt cmd timeout None g)) = dialogs g.
Proof.
  unfold DAQGui._cmd_worker, on_comm.
  unfold bind at 1. unfold modify at 1. unfold bind at 1.
  rewrite log_plain_run. unfold try_finally, try_except. unfold bind at 1.
  cbn [comm set_status add_entry tick].
  destruct (SerialComm.send_cmd cmd timeout (comm g)) as [[e|[parsed raw]] c'].
  - unfold bind at 1. rewrite log_plain_run. unfold bind at 1.
    rewrite log_response_run. reflexivity.
  - unfold bind at 1. rewrite log_response_run. reflexivity.
Qed.

Lemma run_async_effect rt cmd timeout callback g :
  keeps_comm callback ->
  exists g', DAQGui._run_cmd_async rt cmd timeout callback g = (inr tt, g')
             /\ comm g' = snd (SerialComm.send_cmd cmd timeout (comm g))
             /\ (callback = None -> dialogs g' = dialogs g).
Proof.
  intros Hk. unfold DAQGui._run_cmd_async, thread_start.
  pose proof (cmd_worker_comm rt cmd timeout callback g Hk) as Hc.
  pose proof (cmd_worker_dialogs rt cmd timeout g) as Hd.
  destruct (DAQGui._cmd_worker rt cmd timeout callback g) as [[e|u] g'] eqn:E;
    simpl in *; eexists; (split; [reflexivity|]); simpl;
    (split; [assumption|]); intros ->; rewrite E in Hd; exact Hd.
Qed.

Lemma calibration_run rt op g :
  is_connected g ->
  exists g1,
    DAQGui.calibration_walkthrough rt op g
    = after_weight_prompt rt (weight_entry op) g1
    /\ comm g1 = (if tare_now op
                  then snd (SerialComm.send_cmd (lit "TARE") READ_TIMEOUT (comm g))
                  else comm g)
    /\ dialogs g1 = dialogs g ++ [ask_tare; place_weight; ask_weight].
Proof.
  intros Hc. unfold DAQGui.calibration_walkthrough.
  unfold bind at 1. unfold on_comm, SerialComm.is_open, with_lock, gets.
  red in Hc. rewrite Hc. cbn [negb].
  unfold bind at 1. unfold show at 1. unfold modify at 1.
  unfold bind at 1.
  destruct (tare_now op).
  - unfold bind at 1.
    match goal with
    | |- context [DAQGui._run_cmd_async rt ?c ?t None ?x] =>
      destruct (run_async_effect rt c t None x none_keeps_comm)
        as (gT & -> & HcT & HdT)
    end.
    specialize (HdT eq_refl). cbn [sleep_ms ret].
    unfold bind at 1. unfold show at 1. unfold modify at 1.
    unfold bind at 1. unfold show at 1. unfold modify at 1.
    eexists. split; [reflexivity|]. simpl. split.
    + rewrite HcT. destruct g; reflexivity.
    + rewrite HdT. destruct g; simpl. rewrite <- !app_assoc. reflexivity.
  - cbn [ret].
    unfold bind at 1. unfold show at 1. unfold modify at 1.
    unfold bind at 1. unfold show at 1. unfold modify at 1.
    eexists. split; [reflexivity|]. simpl. split.
    + destruct g; reflexivity.
    + destruct g; simpl. rewrite <- !app_assoc. reflexivity.
Qed.

Lemma send_cmd_calibrate_writes c cmd timeout :
  handle_open (ser c) = true ->
  encodable cmd = true ->
  filter is_calibrate (writes_of (channel (snd (SerialComm.send_cmd cmd timeout c))))
  = filter is_calibrate (writes_of (channel c))
    ++ (if is_calibrate (wire cmd) then [wire cmd] else []).
Proof.
  intros Ho He. apply encodable_wire in He.
  rewrite (send_cmd_writes c cmd timeout _ Ho He), filter_app. simpl.
  now destruct (is_calibrate (wire cmd)).
Qed.

Lemma tare_keeps_calibrate_writes (tare : bool) c :
  handle_open (ser c) = true ->
  calibrate_writes
    (channel (if tare
              then snd (SerialComm.send_cmd (lit "TARE") READ_TIMEOUT c)
              else c))
  = calibrate_writes (channel c).
Proof.
  intros Ho. destruct tare; [|reflexivity]. unfold calibrate_writes.
  rewrite send_cmd_calibrate_writes by (assumption || reflexivity).
  change (is_calibrate (wire (lit "TARE"))) with false. now rewrite app_nil_r.
Qed.

Lemma tare_keeps_connected (tare : bool) c :
  handle_open (ser c) = true ->
  handle_open
    (ser (if tare
          then snd (SerialComm.send_cmd (lit "TARE") READ_TIMEOUT c)
          else c)) = true.
Proof.
  intros Ho. destruct tare; [|assumption].
  now rewrite (proj2 (send_cmd_frame c (lit "TARE") READ_TIMEOUT)).
Qed.

Lemma walkthrough_closed rt op g :
  handle_open (ser (comm g)) = false ->
  comm (snd (DAQGui.calibration_walkthrough rt op g)) = comm g.
Proof.
  intros Hc. unfold DAQGui.calibration_walkthrough.
  unfold bind at 1. unfold on_comm, SerialComm.is_open, with_lock, gets.
  rewrite Hc. simpl. destruct g; reflexivity.
Qed.

Lemma rejected_of_prompt rt w d :
  (forall g1, after_weight_prompt rt w g1 = (inr tt, add_dialog d g1)) ->
  rejected_with rt w d.
Proof.
  intros H g tare. cbv zeta.
  destruct (handle_open (ser (comm g))) eqn:Hc.
  - destruct (calibration_run rt (mkOperator tare w) g Hc) as (g1 & E & C1 & D1).
    rewrite E. cbn [weight_entry tare_now] in *. rewrite H.
    cbn [snd add_dialog comm dialogs]. split.
    + rewrite C1. now apply tare_keeps_calibrate_writes.
    + intros _. rewrite D1, <- app_assoc. reflexivity.
  - rewrite walkthrough_closed by assumption. split; [reflexivity|discriminate].
Qed.

Lemma cancelled_entry rt : rejected_with rt None cancelled_dialog.
Proof. apply rejected_of_prompt. reflexivity. Qed.

Lemma empty_entry rt : rejected_with rt (Some []) cancelled_dialog.
Proof. apply rejected_of_prompt. reflexivity. Qed.

Lemma invalid_entry rt s :
  s <> [] ->
  py_float rt s = None
  \/ (exists f, py_float rt s = Some f /\ float_le0 f = true) ->
  rejected_with rt (Some s) invalid_dialog.
Proof.
  intros Hs H. apply rejected_of_prompt. intros g1.
  destruct s as [|c s]; [contradiction|].
  unfold after_weight_prompt. unfold_monad.
  destruct H as [-> | (f & -> & Hf)]; [reflexivity|]. rewrite Hf. reflexivity.
Qed.

Lemma after_weight_prompt_accepts rt w f g1 :
  py_float rt w = Some f -> float_le0 f = false ->
  after_weight_prompt rt (Some w) g1
  = DAQGui._run_cmd_async rt (calibrate_cmd rt f) CMD_TIMEOUT
                          (Some (DAQGui.cb rt)) g1.
Proof.
  intros Hf Hp. destruct w as [|c s]; [discriminate|].
  unfold after_weight_prompt. rewrite Hf. unfold_monad. rewrite Hp. reflexivity.
Qed.

Lemma accepted_entry rt w f g tare :
  py_float rt w = Some f -> float_le0 f = false ->
  encodable (calibrate_cmd rt f) = true ->
  is_calibrate (wire (calibrate_cmd rt f)) = true ->
  handle_open (ser (comm g)) = true ->
  let g' := snd (DAQGui.calibration_walkthrough rt
                   (mkOperator tare (Some w)) g) in
  calibrate_writes (channel (comm g'))
  = calibrate_writes (channel (comm g)) ++ [wire (calibrate_cmd rt f)].
Proof.
  intros Hf Hp He Hi Hc. cbv zeta.
  destruct (calibration_run rt (mkOperator tare (Some w)) g Hc)
    as (g1 & E & C1 & D1).
  rewrite E. cbn [weight_entry tare_now] in *.
  rewrite (after_weight_prompt_accepts rt w f g1 Hf Hp).
  destruct (run_async_effect rt (calibrate_cmd rt f) CMD_TIMEOUT
              (Some (DAQGui.cb rt)) g1 (cb_keeps_comm rt)) as (g2 & -> & C2 & _).
  cbn [snd]. rewrite C2. unfold calibrate_writes.
  rewrite send_cmd_calibrate_writes.
  - rewrite Hi. f_equal. rewrite C1. now apply tare_keeps_calibrate_writes.
  - rewrite C1. now apply tare_keeps_connected.
  - exact He.
Qed.

Lemma after_weight_prompt_500 rt g1 :
  after_weight_prompt rt (Some (lit "500.0")) g1
  = DAQGui._run_cmd_async rt (lit "CALIBRATE 500.0") CMD_TIMEOUT
                          (Some (DAQGui.cb rt)) g1.
Proof. reflexivity. Qed.

Lemma accepts_500 rt g tare :
  handle_open (ser (comm g)) = true ->
  let g' := snd (DAQGui.calibration_walkthrough rt
                   (mkOperator tare (Some (lit "500.0"))) g) in
  calibrate_writes (channel (comm g'))
  = calibrate_writes (channel (comm g)) ++ [wire (lit "CALIBRATE 500.0")].
Proof.
  intros Hc. cbv zeta.
  destruct (calibration_run rt (mkOperator tare (Some (lit "500.0"))) g Hc)
    as (g1 & E & C1 & D1).
  rewrite E. cbn [weight_entry tare_now] in *. rewrite after_weight_prompt_500.
  destruct (run_async_effect rt (lit "CALIBRATE 500.0") CMD_TIMEOUT
              (Some (DAQGui.cb rt)) g1 (cb_keeps_comm rt)) as (g2 & -> & C2 & _).
  cbn [snd]. rewrite C2. unfold calibrate_writes.
  rewrite send_cmd_calibrate_writes.
  - change (is_calibrate (wire (lit "CALIBRATE 500.0"))) with true.
    cbv iota. f_equal. rewrite C1. now apply tare_keeps_calibrate_writes.
  - rewrite C1. now apply tare_keeps_connected.
  - reflexivity.
Qed.

(** ** The full test as a list of sends *)









Lemma leading_successes_le cmds c :
  (leading_successes cmds c <= List.length cmds)%nat.
Proof.
  revert c. induction cmds as [|[cmd t] rest IH]; intros c;
    cbn [leading_successes List.length]; [lia|].
  destruct (SerialComm.send_cmd cmd t c) as [[e|v] c']; [lia|].
  specialize (IH c'). lia.
Qed.









(* ------------------------------------------------------------------ *)
(** * The workflows: claims about [DAQGui] *)


(** The same after a failure later in the phase: [START] is answered and
    the first [READ] of the phase is not; the other five [READ] and the
    [STOP] are not sent, so the device is left recording. *)
Lemma full_test_skips_stop :
  let g := window (connected_to (silent_at 9)) in
  let g' := snd (DAQGui._full_test_worker plain_runtime g) in
  writes_of (channel (comm g'))
  = map wire (first_steps ++ [lit "START"; lit "READ"; lit "LIST_FILES"])
  /\ List.length (txt_responses g') = 11%nat.
Proof. vm_compute. repeat split. Qed.



(** C7 (the code at the failing input): the entries "0", "-5" and "abc"
    are turned down with the error dialog and the empty entry (as a
    cancelled prompt) with the cancellation dialog, each shown right after
    the three prompts and without any CALIBRATE line; "500.0" on an open
    connection sends exactly one, [CALIBRATE 500.0]; and in general an
    entry that [float] does not accept, or whose value is at most zero, is
    turned down with the error dialog.  But the entry "nan" is accepted by
    [float] and is not at most zero: although it is no positive number,
    the line [CALIBRATE nan] is sent. *)
Theorem calibration_validation rt :
  rejected_with rt (Some (lit "0")) invalid_dialog
  /\ rejected_with rt (Some (lit "-5")) invalid_dialog
  /\ rejected_with rt (Some (lit "abc")) invalid_dialog
  /\ rejected_with rt (Some (lit "")) cancelled_dialog
  /\ rejected_with rt None cancelled_dialog
  /\ calibrates_with rt (lit "500.0") (lit "CALIBRATE 500.0")
  /\ (forall s, s <> [] ->
        py_float rt s = None
        \/ (exists f, py_float rt s = Some f /\ float_le0 f = true) ->
        rejected_with rt (Some s) invalid_dialog)
  /\ py_float rt (lit "nan") = Some FNan
  /\ positive_real FNan = false
  /\ calibrates_with rt (lit "nan") (lit "CALIBRATE nan").
Proof.
  split. { apply invalid_entry; [discriminate|]. right. eexists. split; reflexivity. }
  split. { apply invalid_entry; [discriminate|]. right. eexists. split; reflexivity. }
  split. { apply invalid_entry; [discriminate|]. left. reflexivity. }
  split; [apply empty_entry|]. split; [apply cancelled_entry|].
  split.
  { intros g tare Hc.
    exact (accepted_entry rt (lit "500.0") (FDec false 5000 (-1)) g tare
             eq_refl eq_refl eq_refl eq_refl Hc). }
  split; [intros s Hs H; now apply invalid_entry|].
  split; [reflexivity|]. split; [reflexivity|].
  intros g tare Hc.
  exact (accepted_entry rt (lit "nan") FNan g tare
           eq_refl eq_refl eq_refl eq_refl Hc).
Qed.

(** C8 (as stated, refuted): the reply line [42] decodes to the number 42,
    so a decoded value is present, yet the entry logged for it is the raw
    rendering and not a summary. *)
Lemma log_response_present_but_raw :
  let g := window (connected_to (answering (utf8 (lit "42" ++ [NL])))) in
  fst (SerialComm.send_cmd (lit "READ") 3 (comm g)) = inr (PyInt 42, lit "42")
  /\ PyInt 42 <> PyNone
  /\ txt_responses
       (snd (DAQGui._log_response plain_runtime (lit "42") (PyInt 42) g))
     = [lit "t0 | RAW: 42" ++ [NL; NL]].
Proof.
  vm_compute. repeat split. discriminate.
Qed.

(** C8 (amended): [_log_response] appends one entry.  When the decoded
    value is a non-empty mapping the entry is the summary line
    [cmd | ok=... | msg=...] built from its fields (a boolean prints as
    True or False, a text as itself), followed by the pretty-printed
    value; in every other case -- no decoded value, an empty mapping, or a
    decoded value that is not a mapping -- it is the raw text after
    [RAW: ].  Both start with the timestamp. *)
Theorem log_response_rendering rt raw parsed g :
  DAQGui._log_response rt raw parsed g
  = (inr tt,
     add_entry
       match parsed with
       | PyDict (kv :: d) =>
         let fields := kv :: d in
         strftime rt (clock g) ++ lit " | "
         ++ py_str rt (field fields "cmd" (PyStr []))
         ++ lit " | ok=" ++ py_str rt (field fields "ok" PyNone)
         ++ lit " | msg=" ++ py_str rt (field fields "msg" (PyStr [])) ++ [NL]
         ++ json_dumps rt (Some 2) parsed ++ [NL; NL]
       | _ => strftime rt (clock g) ++ lit " | RAW: " ++ raw ++ [NL; NL]
       end (tick g))
  /\ (forall b, py_str rt (PyBool b) = if b then lit "True" else lit "False")
  /\ (forall s, py_str rt (PyStr s) = s).
Proof.
  split; [|split; [intros []; reflexivity | reflexivity]].
  rewrite log_response_run. destruct parsed as [| | | | | |[|kv d]]; reflexivity.
Qed.

(** C9 (the code at the failing input): for a reply that is not JSON the
    send succeeds with no decoded value, and the completion handler [cb],
    called with it, raises [AttributeError] at [resp.get]; the command
    worker catches that, logs it as an error and calls [cb] again as for a
    failed send, so that the operator is shown "Calibration failed" with
    the text of the [AttributeError]. *)
Theorem cb_raises_on_unstructured_reply :
  (forall rt raw g,
      DAQGui.cb rt true PyNone raw g
      = (inl (Exn AttributeError
                  (lit "'NoneType' object has no attribute 'get'")), g))
  /\ (let g := window (connected_to
                         (answering (utf8 (lit "DEVICE BOOTING" ++ [NL])))) in
      let g' := snd (DAQGui.calibration_walkthrough plain_runtime
                       (mkOperator false (Some (lit "500.0"))) g) in
      fst (SerialComm.send_cmd (lit "CALIBRATE 500.0") CMD_TIMEOUT (comm g))
      = inr (PyNone, lit "DEVICE BOOTING")
      /\ dialogs g'
         = [ask_tare; place_weight; ask_weight;
            mkDialog ShowError (lit "Calibration failed")
              (lit "Error: 'NoneType' object has no attribute 'get'")]
      /\ thread_errors g' = []).
Proof.
  split.
  - intros rt raw g. reflexivity.
  - vm_compute. repeat split.
Qed.

(* ------------------------------------------------------------------ *)
(** * More about [SerialComm]: opening, the wire, failures *)

Lemma open_run c port baud t :
  closes_cleanly c ->
  SerialComm.open port baud t c
  = let tr := channel c ++ (if handle_open (ser c) then [CallClose] else [])
              ++ [CallOpen port baud t] in
    match next_open c port with
    | OpenOk cf =>
      (inr true, mkComm (Some (mkSerial port baud true t [] cf)) (dev c) tr)
    | OpenFails msg =>
      (inl (Exn SerialException msg),
       mkComm (option_map (set_is_open false) (ser c)) (dev c) tr)
    end.
Proof.
  intros Hcl. destruct c as [[s|] d tr]; unfold closes_cleanly, next_open in *;
    simpl in *.
  - destruct s as [p b o t0 ib cf0]. simpl in *. destruct o; simpl.
    + pose proof (Hcl _ eq_refl eq_refl) as E. simpl in E. subst cf0.
      unfold SerialComm.open, Serial_new, ser_close. unfold_monad. simpl.
      norm_counts.
      destruct (dev_open d _ port); unfold log_call, set_ser; simpl;
        rewrite <- app_assoc; reflexivity.
    + unfold SerialComm.open, Serial_new, ser_close. unfold_monad. simpl.
      destruct (dev_open d _ port); reflexivity.
  - unfold SerialComm.open, Serial_new, ser_close. unfold_monad. simpl.
    destruct (dev_open d _ port); reflexivity.
Qed.



(** X2: when the system refuses the port, [open] raises the error of
    [serial.Serial] and the connection is left closed -- also when it was
    open before the call, since the old handle has already been closed:
    [is_open] answers false and every [send_cmd] fails as not connected. *)
Theorem failed_open_disconnects c port baud t msg :
  closes_cleanly c ->
  next_open c port = OpenFails msg ->
  let r := SerialComm.open port baud t c in
  fst r = inl (Exn SerialException msg)
  /\ fst (SerialComm.is_open (snd r)) = inr false
  /\ channel (snd r)
     = channel c ++ (if handle_open (ser c) then [CallClose] else [])
       ++ [CallOpen port baud t]
  /\ forall cmd timeout,
       SerialComm.send_cmd cmd timeout (snd r) = (inl NotConnected, snd r).
Proof.
  intros Hcl Ho. cbv zeta. rewrite (open_run c port baud t Hcl). cbv zeta.
  rewrite Ho. cbn [fst snd].
  assert (Hc : forall tr, handle_open (ser (mkComm (option_map (set_is_open false) (ser c)) (dev c) tr)) = false).
  { intros tr. simpl. destruct (ser c); reflexivity. }
  split; [reflexivity|]. split.
  { rewrite is_open_run. cbn [fst]. f_equal. apply Hc. }
  split; [reflexivity|].
  intros cmd timeout. apply send_cmd_closed, Hc.
Qed.

Lemma failed_open_disconnects_witness :
  let c := connected_to opens_once in
  let r := SerialComm.open (lit "COM3") 115200 5 c in
  fst (SerialComm.is_open c) = inr true
  /\ fst r = inl (Exn SerialException (lit "busy"))
  /\ fst (SerialComm.is_open (snd r)) = inr false.
Proof.
  split; [reflexivity|].
  pose proof (failed_open_disconnects (connected_to opens_once) (lit "COM3")
                115200 5 (lit "busy")
                ltac:(intros s [= <-] _; reflexivity) eq_refl) as H.
  cbv zeta in H. cbv zeta. split; apply H.
Defined.

(** X3: unlike [close], [open] does not swallow a failure to close the
    handle in use: the error is raised to the caller, no attempt is made
    to open the new port, and the old handle stays in place, still open. *)
Theorem open_close_fault_propagates c s port baud t msg :
  ser c = Some s -> s_is_open s = true -> s_close_fault s = Some msg ->
  SerialComm.open port baud t c
  = (inl (Exn SerialException msg),
     mkComm (Some s) (dev c) (channel c ++ [CallClose])).
Proof.
  intros Hs Ho Hf. destruct c as [sr d tr]. simpl in Hs. subst sr.
  destruct s as [p b o t0 ib cf]. simpl in Ho, Hf. subst o cf.
  reflexivity.
Qed.

Lemma open_close_fault_propagates_witness :
  let c := connected_to (stuck (lit "device busy")) in
  fst (SerialComm.open (lit "COM9") 9600 5 c)
  = inl (Exn SerialException (lit "device busy"))
  /\ fst (SerialComm.is_open (snd (SerialComm.open (lit "COM9") 9600 5 c)))
     = inr true.
Proof.
  cbv zeta.
  rewrite (open_close_fault_propagates
             (connected_to (stuck (lit "device busy")))
             (mkSerial (lit "COM3") BAUDRATE true READ_TIMEOUT []
                       (Some (lit "device busy")))
             (lit "COM9") 9600 5 (lit "device busy") eq_refl eq_refl eq_refl).
  split; reflexivity.
Defined.

Lemma first_surrogate_snoc_nl s : forall i,
  first_surrogate i s = None -> first_surrogate i (s ++ [NL]) = None.
Proof.
  induction s as [|c t IH]; intros i; simpl; [reflexivity|].
  destruct (is_surrogate c); [discriminate | apply IH].
Qed.

Lemma encode_utf8_line s body :
  encode_utf8 s = inr body ->
  encode_utf8 (s ++ [NL]) = inr (body ++ [Byte.x0a]).
Proof.
  unfold encode_utf8. destruct (first_surrogate 0 s) as [[i r]|] eqn:E;
    [discriminate|].
  intros [= <-]. rewrite (first_surrogate_snoc_nl _ _ E), flat_map_app.
  reflexivity.
Qed.

(** X4: on an open connection [send_cmd] makes exactly one write, and
    what it writes is the UTF-8 text of the command with the white space
    at its ends removed, followed by a single newline byte. *)
Theorem send_cmd_wire_format c cmd timeout body :
  handle_open (ser c) = true ->
  encode_utf8 (strip cmd) = inr body ->
  writes_of (channel (snd (SerialComm.send_cmd cmd timeout c)))
  = writes_of (channel c) ++ [body ++ [Byte.x0a]]
  /\ count_calls is_CallWrite (channel (snd (SerialComm.send_cmd cmd timeout c)))
     = S (count_calls is_CallWrite (channel c)).
Proof.
  intros Ho He. apply encode_utf8_line in He.
  split; [now apply send_cmd_writes|].
  apply handle_open_inv in Ho as (s & Hs & Hop).
  rewrite (send_cmd_open c s cmd timeout Hs Hop). unfold send_cmd_open_result.
  rewrite He.
  destruct (dev_write_fault _ _); cbn [snd channel];
    [|destruct (dev_read_fault _ _); cbn [snd channel];
      [|destruct (split_line _) as [line rest]; destruct line; cbn [fst snd channel]]];
    norm_counts; lia.
Qed.

Lemma send_cmd_wire_format_witness :
  writes_of (channel (snd (SerialComm.send_cmd (lit "  PING  ") 3
                             (connected_to (answering ok_reply)))))
  = [[Byte.x50; Byte.x49; Byte.x4e; Byte.x47; Byte.x0a]].
Proof.
  exact (proj1 (send_cmd_wire_format (connected_to (answering ok_reply))
                  (lit "  PING  ") 3 [Byte.x50; Byte.x49; Byte.x4e; Byte.x47]
                  eq_refl eq_refl)).
Defined.

(** X5: a command that cannot be encoded (it holds a surrogate code
    point) makes [send_cmd] raise [UnicodeEncodeError] after the input
    buffer was reset and before anything is written or read; the
    connection stays open. *)
Theorem send_cmd_unencodable c cmd timeout msg :
  handle_open (ser c) = true ->
  encode_utf8 (strip cmd ++ [NL]) = inl msg ->
  fst (SerialComm.send_cmd cmd timeout c) = inl (Exn UnicodeEncodeError msg)
  /\ channel (snd (SerialComm.send_cmd cmd timeout c)) = channel c ++ [CallReset]
  /\ handle_open (ser (snd (SerialComm.send_cmd cmd timeout c))) = true.
Proof.
  intros Ho He. apply handle_open_inv in Ho as (s & Hs & Hop).
  rewrite (send_cmd_open c s cmd timeout Hs Hop). unfold send_cmd_open_result.
  rewrite He. cbn [fst snd channel ser handle_open].
  repeat split. destruct (dev_reset_fault _ _); simpl; assumption.
Qed.

Lemma send_cmd_unencodable_witness :
  let c := connected_to (answering ok_reply) in
  let r := SerialComm.send_cmd (lit "SET_LED " ++ [55357%N]) 5 c in
  fst r = inl (Exn UnicodeEncodeError
                   (lit "'utf-8' codec can't encode character '" ++ [BSLASH]
                    ++ lit "ud83d' in position 8: surrogates not allowed"))
  /\ channel (snd r) = channel c ++ [CallReset]
  /\ handle_open (ser (snd r)) = true.
Proof.
  exact (send_cmd_unencodable (connected_to (answering ok_reply))
           (lit "SET_LED " ++ [55357%N]) 5 _ eq_refl eq_refl).
Defined.

(** X6: when the write fails, [send_cmd] raises the error of the write;
    the reply is not read and the connection stays open. *)
Theorem send_cmd_write_fault c cmd timeout data msg :
  handle_open (ser c) = true ->
  encode_utf8 (strip cmd ++ [NL]) = inr data ->
  dev_write_fault (dev c) (count_calls is_CallWrite (channel c)) = Some msg ->
  let r := SerialComm.send_cmd cmd timeout c in
  fst r = inl (Exn SerialException msg)
  /\ channel (snd r) = channel c ++ [CallReset; CallWrite data]
  /\ handle_open (ser (snd r)) = true.
Proof.
  intros Ho He Hw. apply handle_open_inv in Ho as (s & Hs & Hop). cbv zeta.
  rewrite (send_cmd_open c s cmd timeout Hs Hop). unfold send_cmd_open_result.
  rewrite He, Hw. cbn [fst snd channel ser handle_open].
  rewrite <- app_assoc.
  repeat split. destruct (dev_reset_fault _ _); simpl; assumption.
Qed.

(** X7: when the read fails, [send_cmd] raises.  The timeout is
    assigned back in the [finally] clause, which reconfigures the port a
    second time: if that succeeds the error raised is the one of the
    read, and if it fails too the error of the reconfiguration replaces
    it.  Either way the connection stays open and its read timeout is the
    one it had before the call. *)
Theorem send_cmd_read_fault p cmd timeout data msg :
  handle_open (ser (link p)) = true ->
  valid_timeout (link p) = true ->
  0 <= timeout ->
  encode_utf8 (strip cmd ++ [NL]) = inr data ->
  dev_write_fault (dev (link p)) (count_calls is_CallWrite (channel (link p)))
  = None ->
  next_reconfigure p = None ->
  dev_read_fault (dev (link p)) (count_calls is_CallReadline (channel (link p)))
  = Some msg ->
  let r := Pyserial.send_cmd cmd timeout p in
  fst r = inl (Exn SerialException
                   match reconfigure_fault p (S (List.length (reconfigured p))) with
                   | Some msg' => msg'
                   | None => msg
                   end)
  /\ channel (link (snd r))
     = channel (link p) ++ [CallReset; CallWrite data; CallReadline timeout None]
  /\ handle_open (ser (link (snd r))) = true
  /\ read_timeout (link (snd r)) = read_timeout (link p)
  /\ exists old, read_timeout (link p) = Some old
       /\ reconfigured (snd r) = reconfigured p ++ [timeout; old].
Proof.
  intros Ho Hv Ht He Hw Hn Hr. apply handle_open_inv in Ho as (s & Hs & Hop).
  cbv zeta. rewrite (pyserial_send_open p s cmd timeout Hs Hop).
  unfold pyserial_send_result. unfold valid_timeout in Hv. rewrite Hs in Hv.
  rewrite He, Hw, Hn, Hr, (ltb_false_of_valid _ Hv).
  replace (timeout <? 0) with false by (symmetry; apply Z.ltb_ge; lia).
  unfold read_timeout. rewrite Hs. destruct s as [pn b o t ib cf].
  simpl in Hop. subst o.
  destruct (reconfigure_fault p _);
    cbn [fst snd link channel ser handle_open option_map s_timeout];
    rewrite <- !app_assoc;
    (split; [reflexivity|]; split; [reflexivity|];
     split; [destruct (dev_reset_fault _ _); reflexivity|];
     split; [destruct (dev_reset_fault _ _); reflexivity|];
     exists t; split; reflexivity).
Qed.

Lemma send_cmd_write_fault_witness :
  let c := connected_to (write_failing (lit "write failed")) in
  let r := SerialComm.send_cmd (lit "PING") 3 c in
  fst r = inl (Exn SerialException (lit "write failed"))
  /\ channel (snd r) = channel c ++ [CallReset; CallWrite (wire (lit "PING"))]
  /\ handle_open (ser (snd r)) = true.
Proof.
  exact (send_cmd_write_fault (connected_to (write_failing (lit "write failed")))
           (lit "PING") 3 _ (lit "write failed") eq_refl eq_refl eq_refl).
Defined.

Lemma send_cmd_read_fault_witness :
  let p := failing_at 1 (lit "Could not configure port")
             (connected_to (read_failing (lit "device disconnected"))) in
  let r := Pyserial.send_cmd (lit "PING") 3 p in
  fst r = inl (Exn SerialException (lit "Could not configure port"))
  /\ channel (link (snd r))
     = channel (link p)
       ++ [CallReset; CallWrite (wire (lit "PING")); CallReadline 3 None]
  /\ handle_open (ser (link (snd r))) = true
  /\ read_timeout (link (snd r)) = read_timeout (link p)
  /\ exists old, read_timeout (link p) = Some old
       /\ reconfigured (snd r) = reconfigured p ++ [3; old].
Proof.
  exact (send_cmd_read_fault
           (failing_at 1 (lit "Could not configure port")
              (connected_to (read_failing (lit "device disconnected"))))
           (lit "PING") 3 _ (lit "device disconnected")
           eq_refl eq_refl ltac:(lia) eq_refl eq_refl eq_refl eq_refl).
Defined.

Lemma send_cmd_port c cmd timeout :
  let c' := snd (SerialComm.send_cmd cmd timeout c) in
  dev c' = dev c
  /\ line_settings c' = line_settings c
  /\ exists n data r,
       channel c' = channel c
                    ++ firstn n [CallReset; CallWrite data; CallReadline timeout r].
Proof.
  cbv zeta. destruct (handle_open (ser c)) eqn:Ho.
  - apply handle_open_inv in Ho as (s & Hs & Hop).
    rewrite (send_cmd_open c s cmd timeout Hs Hop). unfold send_cmd_open_result.
    unfold line_settings. rewrite Hs.
    destruct (encode_utf8 _) as [msg|data]; cbn [snd dev channel ser].
    { split; [reflexivity|]. split; [now destruct (dev_reset_fault _ _)|].
      exists 1%nat, [], None. reflexivity. }
    destruct (dev_write_fault _ _); cbn [snd dev channel ser].
    { split; [reflexivity|]. split; [now destruct (dev_reset_fault _ _)|].
      exists 2%nat, data, None. now rewrite <- app_assoc. }
    destruct (dev_read_fault _ _); cbn [snd dev channel ser].
    { split; [reflexivity|]. split; [now destruct (dev_reset_fault _ _)|].
      exists 3%nat, data, None. now rewrite <- !app_assoc. }
    destruct (split_line _) as [line rest]. cbn [fst snd].
    destruct line; cbn [snd dev channel ser];
      (split; [reflexivity|]; split; [now destruct (dev_reset_fault _ _)|];
       eexists 3%nat, data, _; now rewrite <- !app_assoc).
  - rewrite send_cmd_closed by assumption. cbn [snd].
    split; [reflexivity|]. split; [reflexivity|].
    exists 0%nat, [], None. simpl. now rewrite app_nil_r.
Qed.

Lemma same_line_refl c : same_line c c.
Proof. repeat split. Qed.

Lemma firstn_send_calls_count (p : IOCall -> bool) n data t r :
  p CallReset = false -> p (CallWrite data) = false ->
  p (CallReadline t r) = false ->
  count_calls p (firstn n [CallReset; CallWrite data; CallReadline t r]) = 0%nat.
Proof.
  intros H1 H2 H3. destruct n as [|[|[|[|n]]]]; unfold count_calls; cbn;
    rewrite ?H1, ?H2, ?H3; reflexivity.
Qed.

Lemma same_line_stable c0 : send_stable (same_line c0).
Proof.
  intros c cmd t (D & S & O & C).
  destruct (send_cmd_port c cmd t) as (D' & S' & n & data & r & E).
  unfold same_line. rewrite D', S', E, !count_calls_app.
  rewrite !firstn_send_calls_count by reflexivity.
  repeat split; auto; lia.
Qed.

(** X8: [send_cmd] never opens or closes the port: the device, the port
    name, the baud rate, the open flag and the number of open and close
    calls are what they were.  The calls it adds are, in this order, a
    reset, a write and a read, or the first few of them; it reconfigures
    the port at most twice, for the per-call timeout and then for the one
    the handle had; and the timeout it leaves in the handle is the one the
    handle had or the per-call one. *)
Theorem send_cmd_keeps_port p cmd timeout :
  let c := link p in
  let p' := snd (Pyserial.send_cmd cmd timeout p) in
  let c' := link p' in
  same_line c c'
  /\ (exists n data r,
        channel c' = channel c
                     ++ firstn n [CallReset; CallWrite data; CallReadline timeout r])
  /\ (exists m,
        reconfigured p'
        = reconfigured p
          ++ firstn m (timeout :: match read_timeout c with
                                  | Some old => [old]
                                  | None => []
                                  end))
  /\ (read_timeout c' = read_timeout c \/ read_timeout c' = Some timeout).
Proof.
  cbv zeta. destruct (handle_open (ser (link p))) eqn:Ho.
  - apply handle_open_inv in Ho as (s & Hs & Hop).
    rewrite (pyserial_send_open p s cmd timeout Hs Hop).
    unfold pyserial_send_result, same_line, line_settings, read_timeout.
    rewrite Hs. destruct s as [pn b o t ib cf].
    cbn [option_map s_timeout s_port s_baudrate s_is_open].
    destruct (encode_utf8 _) as [msg|data]; cbn [snd link dev channel ser reconfigured].
    { split; [|split; [|split]].
      - rewrite !count_calls_app.
        repeat split; try (destruct (dev_reset_fault _ _); reflexivity);
          unfold count_calls; cbn; lia.
      - exists 1%nat, [], None. reflexivity.
      - exists 0%nat. cbn. now rewrite app_nil_r.
      - left. destruct (dev_reset_fault _ _); reflexivity. }
    destruct (dev_write_fault _ _); cbn [snd link dev channel ser reconfigured].
    { split; [|split; [|split]].
      - rewrite !count_calls_app.
        repeat split; try (destruct (dev_reset_fault _ _); reflexivity);
          unfold count_calls; cbn; lia.
      - exists 2%nat, data, None. now rewrite <- app_assoc.
      - exists 0%nat. cbn. now rewrite app_nil_r.
      - left. destruct (dev_reset_fault _ _); reflexivity. }
    destruct (timeout <? 0); cbn [snd link dev channel ser reconfigured].
    { split; [|split; [|split]].
      - rewrite !count_calls_app.
        repeat split; try (destruct (dev_reset_fault _ _); reflexivity);
          unfold count_calls; cbn; lia.
      - exists 2%nat, data, None. now rewrite <- app_assoc.
      - exists 0%nat. cbn. now rewrite app_nil_r.
      - left. destruct (dev_reset_fault _ _); reflexivity. }
    destruct (next_reconfigure p); cbn [snd link dev channel ser reconfigured].
    { split; [|split; [|split]].
      - rewrite !count_calls_app.
        repeat split; try (destruct (dev_reset_fault _ _); reflexivity);
          unfold count_calls; cbn; lia.
      - exists 2%nat, data, None. now rewrite <- app_assoc.
      - exists 1%nat. reflexivity.
      - right. destruct (dev_reset_fault _ _); reflexivity. }
    destruct (dev_read_fault _ _).
    { destruct (t <? 0); [|destruct (reconfigure_fault p _)];
        cbn [snd link dev channel ser reconfigured];
        (split; [|split; [|split]];
         [ rewrite !count_calls_app;
           repeat split; try (destruct (dev_reset_fault _ _); reflexivity);
           unfold count_calls; cbn; lia
         | exists 3%nat, data, None; now rewrite <- !app_assoc
         | first [ exists 2%nat; reflexivity | exists 1%nat; reflexivity ]
         | first [ left; destruct (dev_reset_fault _ _); reflexivity
                 | right; destruct (dev_reset_fault _ _); reflexivity ] ]). }
    destruct (split_line _) as [line rest]. cbn [fst snd].
    destruct (t <? 0); [|destruct (reconfigure_fault p _)];
      cbn [snd link dev channel ser reconfigured];
      (split; [|split; [|split]];
       [ rewrite !count_calls_app;
         repeat split; try (destruct (dev_reset_fault _ _); reflexivity);
         unfold count_calls; cbn; lia
       | exists 3%nat, data, (Some line); now rewrite <- !app_assoc
       | first [ exists 2%nat; reflexivity | exists 1%nat; reflexivity ]
       | first [ left; destruct (dev_reset_fault _ _); reflexivity
               | right; destruct (dev_reset_fault _ _); reflexivity ] ]).
  - rewrite pyserial_send_closed by assumption. cbn [snd].
    split; [apply same_line_refl|]. split; [|split].
    + exists 0%nat, [], None. simpl. now rewrite app_nil_r.
    + exists 0%nat. simpl. now rewrite app_nil_r.
    + now left.
Qed.






(** *** [strip] leaves no white space at the ends *)

Lemma lstrip_snoc l c :
  lstrip (l ++ [c])
  = match lstrip l with
    | [] => if py_isspace c then [] else [c]
    | r => r ++ [c]
    end.
Proof.
  induction l as [|a l IH]; simpl; [reflexivity|].
  destruct (py_isspace a); [exact IH | reflexivity].
Qed.

Lemma rstrip_cons c t :
  rstrip (c :: t)
  = match rstrip t with
    | [] => if py_isspace c then [] else [c]
    | r => c :: r
    end.
Proof.
  unfold rstrip. simpl. rewrite lstrip_snoc.
  destruct (lstrip (rev t)) as [|a r] eqn:E; simpl.
  - destruct (py_isspace c); reflexivity.
  - rewrite rev_app_distr. simpl.
    destruct (rev r ++ [a]) eqn:E'; [destruct (rev r); discriminate|].
    reflexivity.
Qed.

Lemma rstrip_last s c0 :
  rstrip s <> [] -> py_isspace (last (rstrip s) c0) = false.
Proof.
  induction s as [|c t IH]; [intros H; now contradiction H|].
  rewrite rstrip_cons. destruct (rstrip t) as [|a r] eqn:E.
  - destruct (py_isspace c) eqn:Hc; [intros H; now contradiction H|].
    intros _. exact Hc.
  - intros _. change (last (c :: a :: r) c0) with (last (a :: r) c0).
    apply IH. discriminate.
Qed.

Lemma lstrip_head s : match lstrip s with [] => True | c :: _ => py_isspace c = false end.
Proof.
  induction s as [|c t IH]; simpl; [exact I|].
  destruct (py_isspace c) eqn:E; [exact IH | exact E].
Qed.

Lemma rstrip_head s :
  match s with [] => True | c :: _ => py_isspace c = false end ->
  match rstrip s with [] => True | c :: _ => py_isspace c = false end.
Proof.
  destruct s as [|c t]; [intros _; exact I|].
  intros Hc. rewrite rstrip_cons. destruct (rstrip t); [rewrite Hc|]; exact Hc.
Qed.

Lemma strip_trimmed s : trimmed (strip s).
Proof.
  unfold trimmed, strip.
  pose proof (rstrip_head _ (lstrip_head s)) as Hh.
  destruct (rstrip (lstrip s)) as [|c r] eqn:E; [exact I|].
  split; [exact Hh|]. rewrite <- E. apply rstrip_last. rewrite E. discriminate.
Qed.

(** X10: the raw text [send_cmd] returns has no white space at either
    end and no newline inside, and the decoded value returned with it is
    the decoding of that text. *)
Theorem send_cmd_result_trimmed c cmd timeout parsed line :
  fst (SerialComm.send_cmd cmd timeout c) = inr (parsed, line) ->
  trimmed line /\ ~ In NL line /\ parsed = parse_reply line.
Proof.
  intros H.
  destruct (send_cmd_channel c cmd timeout) as (new & Hn & _).
  destruct (send_cmd_outcome c cmd timeout new Hn)
    as [(raw & Hraw & _ & E) | [_ (e & E & _)]]; rewrite E in H;
    [|discriminate].
  destruct raw as [|b raw']; [discriminate|].
  injection H as <- <-.
  split; [apply strip_trimmed|]. split; [|reflexivity].
  intros Hin.
  pose proof (reply_line_no_newline (pending c timeout)) as Hnn.
  rewrite <- Hraw in Hnn.
  unfold no_newline in Hnn. rewrite Forall_forall in Hnn.
  now apply (Hnn _ Hin).
Qed.

Lemma send_cmd_result_trimmed_witness :
  let c := connected_to
             (answering (utf8 (lit "  " ++ noisy_line ++ lit " " ++ [13%N; NL]))) in
  fst (SerialComm.send_cmd (lit "PING") 3 c) = inr (pong_mapping, noisy_line)
  /\ trimmed noisy_line /\ ~ In NL noisy_line
  /\ pong_mapping = parse_reply noisy_line.
Proof.
  split; [reflexivity|].
  exact (send_cmd_result_trimmed
           (connected_to
              (answering (utf8 (lit "  " ++ noisy_line ++ lit " " ++ [13%N; NL]))))
           (lit "PING") 3 pong_mapping noisy_line eq_refl).
Defined.

(* ------------------------------------------------------------------ *)
(** * More about the workflows: the command worker, the full test, the
    calibration *)

Lemma gui_ext (g1 g2 : Gui) :
  comm g1 = comm g2 -> txt_responses g1 = txt_responses g2 ->
  status_var g1 = status_var g2 -> chk_save_test g1 = chk_save_test g2 ->
  dialogs g1 = dialogs g2 -> clock g1 = clock g2 ->
  thread_errors g1 = thread_errors g2 -> g1 = g2.
Proof. destruct g1, g2. simpl. intros; subst; reflexivity. Qed.

(** The fields of a window reached by a chain of updates. *)
Ltac gui_fields :=
  cbn [comm txt_responses status_var chk_save_test dialogs clock thread_errors
       set_comm add_entry set_status add_dialog tick add_thread_error fst snd].

Lemma cmd_worker_run rt cmd timeout g :
  DAQGui._cmd_worker rt cmd timeout None g
  = let r := SerialComm.send_cmd cmd timeout (comm g) in
    let es := worker_entries rt (clock g) cmd (fst r) in
    (inr tt,
     mkGui (snd r) (txt_responses g ++ es) (lit "Ready") (chk_save_test g)
           (dialogs g) (clock g + List.length es) (thread_errors g)).
Proof.
  unfold DAQGui._cmd_worker, on_comm.
  unfold bind at 1. unfold modify at 1. unfold bind at 1.
  rewrite log_plain_run. unfold try_finally, try_except. unfold bind at 1.
  cbn [comm set_status add_entry tick]. cbv zeta.
  destruct (SerialComm.send_cmd cmd timeout (comm g)) as [[e|[parsed raw]] c'].
  - unfold bind at 1. rewrite log_plain_run. unfold bind at 1.
    rewrite log_response_run. unfold ret, modify. f_equal.
    apply gui_ext; gui_fields; try reflexivity.
    + unfold worker_entries. now rewrite <- !app_assoc.
    + unfold worker_entries. cbn [List.length]. lia.
  - unfold bind at 1. rewrite log_response_run. unfold ret, modify. f_equal.
    apply gui_ext; gui_fields; try reflexivity.
    + unfold worker_entries, reply_entry. now rewrite <- !app_assoc.
    + unfold worker_entries. cbn [List.length]. lia.
Qed.

(** X11: the command worker without a completion handler never raises.
    It leaves the connection as [send_cmd] left it and the status bar on
    "Ready", shows no dialog, and logs the command followed by the reply,
    or, when the send failed, by the error as a line and again as raw
    text. *)
Theorem cmd_worker_log rt cmd timeout g :
  let r := SerialComm.send_cmd cmd timeout (comm g) in
  let w := DAQGui._cmd_worker rt cmd timeout None g in
  fst w = inr tt
  /\ comm (snd w) = snd r
  /\ status_var (snd w) = lit "Ready"
  /\ dialogs (snd w) = dialogs g
  /\ txt_responses (snd w)
     = txt_responses g ++ worker_entries rt (clock g) cmd (fst r).
Proof.
  cbv zeta. rewrite cmd_worker_run. cbv zeta. repeat split.
Qed.

Lemma try_finally_status A (m : M Gui A) s g :
  status_var (snd (try_finally m (modify (set_status s)) g)) = s.
Proof.
  unfold try_finally, modify. destruct (m g) as [r g1]. reflexivity.
Qed.

(** X12: however the command worker ends -- by returning, or with an
    exception that escapes it -- the status bar shows "Ready" at that
    point, whatever the send and the completion handler did (the
    [finally] clause); and only the completion handler can make it end
    with an exception. *)
Theorem cmd_worker_ends_ready rt cmd timeout callback g :
  let w := DAQGui._cmd_worker rt cmd timeout callback g in
  status_var (snd w) = lit "Ready"
  /\ (callback = None -> fst w = inr tt).
Proof.
  cbv zeta. split.
  - unfold DAQGui._cmd_worker.
    unfold bind at 1. unfold modify at 1. unfold bind at 1.
    rewrite log_plain_run. apply try_finally_status.
  - intros ->. rewrite cmd_worker_run. reflexivity.
Qed.

(** X13: a command started while the connection is closed sends
    nothing and shows no dialog; the Responses pane gets the command and
    the error "Serial port not open", as a line and as raw text. *)
Theorem command_while_disconnected rt cmd timeout g :
  handle_open (ser (comm g)) = false ->
  let g' := snd (DAQGui._run_cmd_async rt cmd timeout None g) in
  comm g' = comm g
  /\ dialogs g' = dialogs g
  /\ thread_errors g' = thread_errors g
  /\ txt_responses g'
     = txt_responses g
       ++ [strftime rt (clock g) ++ lit " | >>> " ++ cmd ++ [NL];
           strftime rt (S (clock g)) ++ lit " | <<< ERROR: Serial port not open"
           ++ [NL];
           strftime rt (S (S (clock g))) ++ lit " | RAW: Serial port not open"
           ++ [NL; NL]].
Proof.
  intros Hc. cbv zeta. unfold DAQGui._run_cmd_async, thread_start.
  rewrite cmd_worker_run. cbv zeta. rewrite (send_cmd_closed _ _ _ Hc).
  cbn [fst snd comm dialogs thread_errors txt_responses]. repeat split.
Qed.

Lemma command_while_disconnected_witness :
  txt_responses
    (snd (DAQGui._run_cmd_async plain_runtime (lit "PING") READ_TIMEOUT None
            (window (SerialComm.init (answering ok_reply)))))
  = [lit "t0 | >>> PING" ++ [NL];
     lit "t1 | <<< ERROR: Serial port not open" ++ [NL];
     lit "t2 | RAW: Serial port not open" ++ [NL; NL]].
Proof.
  exact (proj2 (proj2 (proj2
           (command_while_disconnected plain_runtime (lit "PING") READ_TIMEOUT
              (window (SerialComm.init (answering ok_reply))) eq_refl)))).
Defined.

Section Steady.
Variable rt : PyRuntime.

Lemma steady_send_and_log cmd t : steady (DAQGui.send_and_log rt cmd t) 1 1.
Proof.
  intros g. cbv zeta. unfold DAQGui.send_and_log, on_comm. unfold bind.
  destruct (SerialComm.send_cmd cmd t (comm g)) as [[e|[parsed raw]] c'].
  - destruct g as [c tx st ck dl cl te]. unfold entries. simpl.
    repeat split; lia.
  - rewrite log_response_run. destruct g as [c tx st ck dl cl te].
    unfold entries. simpl. rewrite length_app. simpl. repeat split; lia.
Qed.

Lemma steady_log_plain text : steady (DAQGui._log_response_plain rt text) 1 1.
Proof.
  intros g. cbv zeta. rewrite log_plain_run.
  destruct g as [c tx st ck dl cl te]. unfold entries. simpl.
  rewrite length_app. simpl. repeat split; lia.
Qed.

Lemma steady_status s : steady (modify (set_status s)) 0 0.
Proof.
  intros g. destruct g as [c tx st ck dl cl te]. unfold entries. simpl.
  repeat split; lia.
Qed.

Lemma steady_ret A (a : A) : steady (ret a) 0 0.
Proof. intros g. unfold entries. simpl. repeat split; lia. Qed.

Lemma steady_gets A (f : Gui -> A) : steady (gets f) 0 0.
Proof. intros g. unfold entries. simpl. repeat split; lia. Qed.

Lemma steady_bind A B (m : M Gui A) (k : A -> M Gui B) lo1 hi1 lo2 hi2 :
  steady m lo1 hi1 -> (forall a, steady (k a) lo2 hi2) ->
  steady (bind m k) (lo1 + lo2) (hi1 + hi2).
Proof.
  intros H1 H2 g. cbv zeta. unfold bind.
  destruct (H1 g) as (D1 & T1 & C1 & E1).
  destruct (m g) as [[e|a] g1]; cbn [fst snd] in *.
  - repeat split; auto; lia.
  - destruct (H2 a g1) as (D2 & T2 & C2 & E2).
    destruct (k a g1) as [[e|b] g2]; cbn [fst snd] in *;
      repeat split; try congruence; lia.
Qed.

(** A step that is skipped over when it fails: the error is logged. *)
Lemma steady_guard (m : M Gui unit) lo hi :
  steady m lo hi -> (1 <= lo)%nat ->
  steady (try_except m (DAQGui.log_error rt)) 1 hi.
Proof.
  intros H Hlo g. cbv zeta. unfold try_except.
  destruct (H g) as (D1 & T1 & C1 & E1).
  destruct (m g) as [[e|a] g1]; cbn [fst snd] in *.
  - unfold DAQGui.log_error. rewrite log_response_run.
    destruct g1 as [c tx st ck dl cl te]. unfold entries in *. simpl in *.
    rewrite length_app. simpl. repeat split; auto; lia.
  - repeat split; auto; lia.
Qed.

Lemma total_guard (m : M Gui unit) : total (try_except m (DAQGui.log_error rt)).
Proof.
  intros g. unfold try_except. destruct (m g) as [[e|[]] g1].
  - unfold DAQGui.log_error. rewrite log_response_run. now exists tt.
  - now exists tt.
Qed.

Lemma total_bind A B (m : M Gui A) (k : A -> M Gui B) :
  total m -> (forall a, total (k a)) -> total (bind m k).
Proof.
  intros H1 H2 g. unfold bind. destruct (H1 g) as (a & Ha).
  destruct (m g) as [[e|a'] g1]; [discriminate|]. apply H2.
Qed.

Lemma total_for_each A (xs : list A) (body : A -> M Gui unit) :
  (forall x, total (body x)) -> total (for_each xs body).
Proof.
  intros H. induction xs as [|x xs IH]; simpl.
  - intros g. now exists tt.
  - apply total_bind; auto.
Qed.

Lemma steady_for_each A (xs : list A) (body : A -> M Gui unit) :
  (forall x, steady (body x) 1 1) ->
  steady (for_each xs body) (List.length xs) (List.length xs).
Proof.
  intros H. induction xs as [|x xs IH].
  - apply steady_ret.
  - intros g. cbv zeta. simpl for_each. unfold bind.
    destruct (H x g) as (D1 & T1 & C1 & E1).
    destruct (body x g) as [[e|a] g1]; cbn [fst snd] in *.
    + simpl. repeat split; auto; lia.
    + destruct (IH g1) as (D2 & T2 & C2 & E2).
      destruct (for_each xs body g1) as [[e|b] g2]; cbn [fst snd] in *;
        simpl; repeat split; try congruence; lia.
Qed.

Lemma ends_in_bind A B s (m : M Gui A) (k : A -> M Gui B) :
  (forall a, ends_in s (k a)) -> ends_in s (bind m k).
Proof.
  intros H g b. unfold bind. destruct (m g) as [[e|a] g1]; [discriminate|].
  apply H.
Qed.

Lemma ends_in_status s : ends_in s (modify (set_status s)).
Proof. intros g a _. reflexivity. Qed.

Lemma steady_weaken A (m : M Gui A) lo hi lo' hi' :
  steady m lo hi -> (lo' <= lo)%nat -> (hi <= hi')%nat -> steady m lo' hi'.
Proof.
  intros H Hl Hh g. cbv zeta. destruct (H g) as (D & T & C & E).
  revert E. destruct (fst (m g)); intros E; repeat split; auto; lia.
Qed.

(** A step that cannot fail in the first place. *)
Lemma steady_total A (m : M Gui A) : steady m 0 0 -> total m.
Proof.
  intros H g. destruct (H g) as (_ & _ & _ & E).
  revert E. destruct (fst (m g)) as [e|a]; intros E; [lia | eauto].
Qed.

Lemma full_test_steady :
  steady (DAQGui._full_test_worker rt) 10 17
  /\ total (DAQGui._full_test_worker rt)
  /\ ends_in (lit "Full test complete") (DAQGui._full_test_worker rt).
Proof.
  assert (Step : forall cmd t,
             steady (try_except (DAQGui.send_and_log rt cmd t)
                                (DAQGui.log_error rt);; sleep_ms 200) 1 1).
  { intros cmd t.
    apply (steady_bind _ _ _ _ 1 1 0 0);
      [ apply (steady_guard _ 1 1); [apply steady_send_and_log | lia]
      | intros _; apply steady_ret ]. }
  assert (StepT : forall cmd t,
             total (try_except (DAQGui.send_and_log rt cmd t)
                               (DAQGui.log_error rt);; sleep_ms 200)).
  { intros cmd t. apply total_bind; [apply total_guard|].
    intros _ g. now exists tt. }
  split; [|split].
  - unfold DAQGui._full_test_worker.
    apply (steady_bind _ _ _ _ 0 0 10 17); [apply steady_status|]. intros _.
    apply (steady_bind _ _ _ _ 4 4 6 13).
    { apply (steady_for_each _ DAQGui.steps). intros st. apply Step. }
    intros _. apply (steady_bind _ _ _ _ 4 4 2 9).
    { apply (steady_for_each _ (seq 0 4)). intros _. apply Step. }
    intros _. apply (steady_bind _ _ _ _ 0 0 2 9); [apply steady_gets|].
    intros save. apply (steady_bind _ _ _ _ 1 8 1 1).
    { destruct save.
      - apply (steady_guard _ 8 8); [|lia].
        apply (steady_bind _ _ _ _ 1 1 7 7); [apply steady_send_and_log|].
        intros _. apply (steady_bind _ _ _ _ 6 6 1 1).
        + apply (steady_for_each _ (seq 0 6)). intros _.
          apply (steady_bind _ _ _ _ 1 1 0 0);
            [apply steady_send_and_log | intros _; apply steady_ret].
        + intros _. apply steady_send_and_log.
      - eapply steady_weaken; [apply steady_log_plain | lia | lia]. }
    intros _. apply (steady_bind _ _ _ _ 1 1 0 0).
    { apply (steady_guard _ 1 1); [apply steady_send_and_log | lia]. }
    intros _. apply steady_status.
  - unfold DAQGui._full_test_worker.
    apply total_bind; [apply steady_total, steady_status|]. intros _.
    apply total_bind.
    { apply total_for_each. intros st. apply StepT. }
    intros _. apply total_bind.
    { apply total_for_each. intros st. apply StepT. }
    intros _. apply total_bind; [apply steady_total, steady_gets|].
    intros save. apply total_bind.
    { destruct save; [apply total_guard|].
      intros g. rewrite log_plain_run. now exists tt. }
    intros _. apply total_bind; [apply total_guard|].
    intros _. apply steady_total, steady_status.
  - unfold DAQGui._full_test_worker.
    repeat (apply ends_in_bind; intros ?). apply ends_in_status.
Qed.

End Steady.

(** X15: the full test worker never raises, in any state of the
    connection and whatever the device does: it ends with the status
    "Full test complete", shows no dialog, leaves the check box alone and
    logs between 10 and 17 entries. *)
Theorem full_test_always_completes rt g :
  let r := DAQGui._full_test_worker rt g in
  fst r = inr tt
  /\ status_var (snd r) = lit "Full test complete"
  /\ dialogs (snd r) = dialogs g
  /\ thread_errors (snd r) = thread_errors g
  /\ chk_save_test (snd r) = chk_save_test g
  /\ (List.length (txt_responses g) + 10
      <= List.length (txt_responses (snd r))
      <= List.length (txt_responses g) + 17)%nat.
Proof.
  cbv zeta. destruct (full_test_steady rt) as (S & T & E).
  destruct (T g) as ([] & Ht). destruct (S g) as (D & Th & C & N).
  rewrite Ht in N. unfold entries in N.
  repeat split; auto; try lia. now apply (E g tt).
Qed.

Section Keeps.
Variable rt : PyRuntime.
Variable P : Comm -> Prop.
Hypothesis stable : send_stable P.

Lemma keeps_bind A B (m : M Gui A) (k : A -> M Gui B) :
  keeps P m -> (forall a, keeps P (k a)) -> keeps P (bind m k).
Proof.
  intros H1 H2 g Hg. unfold bind. specialize (H1 g Hg).
  destruct (m g) as [[e|a] g1]; cbn [snd] in *; [assumption|]. now apply H2.
Qed.

Lemma keeps_try_except A (m : M Gui A) (h : exn -> M Gui A) :
  keeps P m -> (forall e, keeps P (h e)) -> keeps P (try_except m h).
Proof.
  intros H1 H2 g Hg. unfold try_except. specialize (H1 g Hg).
  destruct (m g) as [[e|a] g1]; cbn [snd] in *; [now apply H2 | assumption].
Qed.

Lemma keeps_for_each A (xs : list A) (body : A -> M Gui unit) :
  (forall x, keeps P (body x)) -> keeps P (for_each xs body).
Proof.
  intros H. induction xs as [|x xs IH]; simpl.
  - intros g Hg. exact Hg.
  - apply keeps_bind; auto.
Qed.

Lemma keeps_log raw parsed : keeps P (DAQGui._log_response rt raw parsed).
Proof. intros g Hg. rewrite log_response_run. exact Hg. Qed.

Lemma keeps_log_plain text : keeps P (DAQGui._log_response_plain rt text).
Proof. intros g Hg. rewrite log_plain_run. exact Hg. Qed.

Lemma keeps_status s : keeps P (modify (set_status s)).
Proof. intros g Hg. exact Hg. Qed.

Lemma keeps_ret A (a : A) : keeps P (ret a).
Proof. intros g Hg. exact Hg. Qed.

Lemma keeps_gets A (f : Gui -> A) : keeps P (gets f).
Proof. intros g Hg. exact Hg. Qed.

Lemma keeps_send_and_log cmd t : keeps P (DAQGui.send_and_log rt cmd t).
Proof.
  unfold DAQGui.send_and_log. apply keeps_bind.
  - intros g Hg. unfold on_comm. pose proof (stable (comm g) cmd t Hg) as H.
    destruct (SerialComm.send_cmd cmd t (comm g)) as [r c']. exact H.
  - intros [parsed raw]. apply keeps_log.
Qed.

Lemma keeps_guarded cmd t :
  keeps P (try_except (DAQGui.send_and_log rt cmd t) (DAQGui.log_error rt)).
Proof.
  apply keeps_try_except; [apply keeps_send_and_log|].
  intros e. apply keeps_log.
Qed.

Lemma full_test_keeps : keeps P (DAQGui._full_test_worker rt).
Proof.
  unfold DAQGui._full_test_worker.
  apply keeps_bind; [apply keeps_status|]. intros _.
  apply keeps_bind.
  { apply keeps_for_each. intros st.
    apply keeps_bind; [apply keeps_guarded | intros _; apply keeps_ret]. }
  intros _. apply keeps_bind.
  { apply keeps_for_each. intros st.
    apply keeps_bind; [apply keeps_guarded | intros _; apply keeps_ret]. }
  intros _. apply keeps_bind; [apply keeps_gets|]. intros save.
  apply keeps_bind.
  { destruct save; [|apply keeps_log_plain].
    apply keeps_try_except; [|intros e; apply keeps_log].
    apply keeps_bind; [apply keeps_send_and_log|]. intros _.
    apply keeps_bind; [|intros _; apply keeps_send_and_log].
    apply keeps_for_each. intros _.
    apply keeps_bind; [apply keeps_send_and_log | intros _; apply keeps_ret]. }
  intros _. apply keeps_bind; [apply keeps_guarded|].
  intros _. apply keeps_status.
Qed.

End Keeps.

(** X17: the full test never opens or closes the port: after it the
    device, the port name, the baud rate, the open flag and the number of
    open and close calls are unchanged. *)
Theorem full_test_keeps_port rt g :
  let c' := comm (snd (DAQGui._full_test_worker rt g)) in
  dev c' = dev (comm g)
  /\ line_settings c' = line_settings (comm g)
  /\ count_calls is_CallOpen (channel c')
     = count_calls is_CallOpen (channel (comm g))
  /\ count_calls is_CallClose (channel c')
     = count_calls is_CallClose (channel (comm g)).
Proof.
  exact (full_test_keeps rt (same_line (comm g)) (same_line_stable (comm g)) g
           (same_line_refl (comm g))).
Qed.

Lemma guarded_step_closed rt cmd t (k : M Gui unit) g :
  handle_open (ser (comm g)) = false ->
  try_except (DAQGui.send_and_log rt cmd t;; k) (DAQGui.log_error rt) g
  = (inr tt, add_entry (raw_entry (strftime rt (clock g))
                                  (lit "Serial port not open")) (tick g)).
Proof.
  intros Hc. unfold try_except, DAQGui.send_and_log, on_comm. unfold bind.
  rewrite (send_cmd_closed _ _ _ Hc).
  unfold DAQGui.log_error. rewrite log_response_run.
  destruct g as [c tx st ck dl cl te]. reflexivity.
Qed.

Lemma single_step_closed rt cmd t g :
  handle_open (ser (comm g)) = false ->
  try_except (DAQGui.send_and_log rt cmd t) (DAQGui.log_error rt) g
  = (inr tt, add_entry (raw_entry (strftime rt (clock g))
                                  (lit "Serial port not open")) (tick g)).
Proof.
  intros Hc. unfold try_except, DAQGui.send_and_log, on_comm. unfold bind.
  rewrite (send_cmd_closed _ _ _ Hc).
  unfold DAQGui.log_error. rewrite log_response_run.
  destruct g as [c tx st ck dl cl te]. reflexivity.
Qed.

Lemma closed_after_S rt n g :
  closed_after rt n (closed_after rt 1 g) = closed_after rt (S n) g.
Proof.
  destruct g as [c tx st ck dl cl te]. unfold closed_after.
  cbn [comm txt_responses status_var chk_save_test dialogs clock thread_errors].
  f_equal; [|lia].
  rewrite <- app_assoc. f_equal.
  cbn [map seq app]. f_equal.
  rewrite <- seq_shift, map_map.
  apply map_ext. intros i. do 2 f_equal. lia.
Qed.

Lemma closed_after_0 rt g : closed_after rt 0 g = g.
Proof.
  destruct g as [c tx st ck dl cl te]. unfold closed_after. simpl.
  now rewrite app_nil_r, Nat.add_0_r.
Qed.

Lemma closed_after_add rt m : forall n g,
  closed_after rt n (closed_after rt m g) = closed_after rt (m + n) g.
Proof.
  induction m as [|m IH]; intros n g.
  - now rewrite closed_after_0.
  - rewrite <- (closed_after_S rt m g), IH. apply closed_after_S.
Qed.

Lemma closed_after_1 rt g :
  add_entry (raw_entry (strftime rt (clock g)) (lit "Serial port not open"))
            (tick g)
  = closed_after rt 1 g.
Proof.
  destruct g as [c tx st ck dl cl te]. unfold closed_after, add_entry, tick.
  cbn [comm txt_responses status_var chk_save_test dialogs clock thread_errors
       map seq].
  rewrite Nat.add_0_r. f_equal. lia.
Qed.

Lemma for_each_closed rt A (xs : list A) (fc : A -> str) (ft : A -> Z) : forall g,
  handle_open (ser (comm g)) = false ->
  for_each xs (fun x =>
    try_except (DAQGui.send_and_log rt (fc x) (ft x)) (DAQGui.log_error rt);;
    sleep_ms 200) g
  = (inr tt, closed_after rt (List.length xs) g).
Proof.
  induction xs as [|x xs IH]; intros g Hc.
  - now rewrite closed_after_0.
  - cbn [for_each List.length]. unfold bind at 1. unfold bind at 1.
    rewrite single_step_closed by exact Hc. unfold sleep_ms, ret.
    rewrite closed_after_1, IH by exact Hc. now rewrite closed_after_S.
Qed.

Lemma full_test_closed_run rt g :
  handle_open (ser (comm g)) = false ->
  DAQGui._full_test_worker rt g
  = (inr tt,
     mkGui (comm g)
           (txt_responses g
            ++ closed_test_entries rt (clock g) (chk_save_test g))
           (lit "Full test complete") (chk_save_test g) (dialogs g)
           (clock g + 10) (thread_errors g)).
Proof.
  intros Hc. unfold DAQGui._full_test_worker.
  unfold bind at 1. unfold modify at 1.
  unfold bind at 1.
  rewrite (for_each_closed rt _ DAQGui.steps fst snd) by exact Hc.
  unfold bind at 1.
  rewrite (for_each_closed rt _ (seq 0 4) (fun _ => lit "READ") (fun _ => 3))
    by exact Hc.
  rewrite closed_after_add.
  destruct g as [c tx st ck dl cl te]. cbn [comm] in Hc.
  unfold bind at 1. unfold gets at 1.
  unfold closed_after, set_status.
  cbn [comm txt_responses status_var chk_save_test dialogs clock thread_errors
       List.length DAQGui.steps seq].
  unfold bind at 1.
  destruct ck.
  - rewrite guarded_step_closed by exact Hc.
    unfold bind at 1. rewrite single_step_closed by exact Hc.
    unfold modify, add_entry, tick, set_status, closed_test_entries.
    cbn [fst snd comm txt_responses status_var chk_save_test dialogs clock
         thread_errors map seq].
    change (4 + 4)%nat with 8%nat. cbn [map seq].
    f_equal. f_equal; [|lia].
    rewrite <- !app_assoc. cbn [app]. repeat f_equal; lia.
  - rewrite log_plain_run.
    unfold bind at 1. rewrite single_step_closed by exact Hc.
    unfold modify, add_entry, tick, set_status, closed_test_entries.
    cbn [fst snd comm txt_responses status_var chk_save_test dialogs clock
         thread_errors map seq].
    change (4 + 4)%nat with 8%nat. cbn [map seq].
    f_equal. f_equal; [|lia].
    rewrite <- !app_assoc. cbn [app]. repeat f_equal; lia.
Qed.

(** X16: run on a closed connection, the full test sends nothing and
    logs ten entries: the error "Serial port not open" for each of the
    eight first steps, for the recording phase as a whole (or the note
    that it was skipped) and for LIST_FILES. *)
Theorem full_test_disconnected rt g :
  handle_open (ser (comm g)) = false ->
  let r := DAQGui._full_test_worker rt g in
  fst r = inr tt
  /\ comm (snd r) = comm g
  /\ txt_responses (snd r)
     = txt_responses g ++ closed_test_entries rt (clock g) (chk_save_test g).
Proof.
  intros Hc. cbv zeta. rewrite (full_test_closed_run rt g Hc). repeat split.
Qed.

Lemma full_test_disconnected_witness :
  let g := window (SerialComm.init (answering ok_reply)) in
  let r := DAQGui._full_test_worker plain_runtime g in
  fst r = inr tt
  /\ comm (snd r) = comm g
  /\ txt_responses (snd r)
     = txt_responses g ++ closed_test_entries plain_runtime 0 true.
Proof.
  exact (full_test_disconnected plain_runtime
           (window (SerialComm.init (answering ok_reply))) eq_refl).
Defined.

Lemma cmd_worker_cb_run rt cmd timeout g :
  exists g',
    DAQGui._cmd_worker rt cmd timeout (Some (DAQGui.cb rt)) g = (inr tt, g')
    /\ comm g' = snd (SerialComm.send_cmd cmd timeout (comm g))
    /\ dialogs g'
       = dialogs g
         ++ [calibration_result rt
               (fst (SerialComm.send_cmd cmd timeout (comm g)))]
    /\ thread_errors g' = thread_errors g.
Proof.
  unfold DAQGui._cmd_worker, on_comm.
  unfold bind at 1. unfold modify at 1. unfold bind at 1.
  rewrite log_plain_run. unfold try_finally, try_except. unfold bind at 1.
  cbn [comm set_status add_entry tick].
  destruct (SerialComm.send_cmd cmd timeout (comm g)) as [[e|[parsed raw]] c'].
  - unfold bind at 1. rewrite log_plain_run. unfold bind at 1.
    rewrite log_response_run. destruct g as [c tx st ck dl cl te].
    eexists. split; [reflexivity|]. repeat split.
  - unfold bind at 1. rewrite log_response_run.
    destruct g as [c tx st ck dl cl te].
    destruct parsed as [| b | z | f | s | l | d];
      try (eexists; split; [reflexivity|]; repeat split).
    unfold DAQGui.cb, calibration_result, field. cbn [negb fst].
    unfold bind at 1. unfold py_get at 1. unfold ret at 1.
    destruct (py_truthy _);
      (eexists; split; [reflexivity|]; repeat split).
Qed.

(** The guided calibration on an open connection, up to the weight
    prompt. *)
Lemma calibration_prompts_run rt op g :
  is_connected g ->
  exists g1,
    DAQGui.calibration_walkthrough rt op g
    = after_weight_prompt rt (weight_entry op) g1
    /\ comm g1 = after_tare (tare_now op) (comm g)
    /\ dialogs g1 = dialogs g ++ [ask_tare; place_weight; ask_weight]
    /\ thread_errors g1 = thread_errors g
    /\ txt_responses g1
       = txt_responses g
         ++ (if tare_now op
             then worker_entries rt (clock g) (lit "TARE")
                    (fst (SerialComm.send_cmd (lit "TARE") READ_TIMEOUT (comm g)))
             else []).
Proof.
  intros Hc. unfold DAQGui.calibration_walkthrough.
  unfold bind at 1. unfold on_comm, SerialComm.is_open, with_lock, gets.
  red in Hc. rewrite Hc. cbn [negb].
  unfold bind at 1. unfold show at 1. unfold modify at 1.
  unfold bind at 1. unfold after_tare.
  destruct (tare_now op).
  - unfold bind at 1. unfold DAQGui._run_cmd_async, thread_start.
    rewrite cmd_worker_run. cbv zeta. cbn [sleep_ms ret].
    unfold bind at 1. unfold show at 1. unfold modify at 1.
    unfold bind at 1. unfold show at 1. unfold modify at 1.
    eexists. split; [reflexivity|]. destruct g as [c tx st ck dl cl te].
    cbn [comm dialogs thread_errors txt_responses add_dialog set_comm clock].
    repeat split. now rewrite <- !app_assoc.
  - cbn [ret].
    unfold bind at 1. unfold show at 1. unfold modify at 1.
    unfold bind at 1. unfold show at 1. unfold modify at 1.
    eexists. split; [reflexivity|]. destruct g as [c tx st ck dl cl te].
    cbn [comm dialogs thread_errors txt_responses add_dialog set_comm clock].
    repeat split; [now rewrite <- !app_assoc | now rewrite app_nil_r].
Qed.

(** The run of an accepted calibration: the prompts, then the command
    worker for CALIBRATE on the connection as the optional TARE left it. *)
Lemma calibration_accepted_run rt w f g tare :
  handle_open (ser (comm g)) = true ->
  py_float rt w = Some f -> float_le0 f = false ->
  exists g',
    DAQGui.calibration_walkthrough rt (mkOperator tare (Some w)) g = (inr tt, g')
    /\ comm g' = snd (SerialComm.send_cmd (calibrate_cmd rt f) CMD_TIMEOUT
                        (after_tare tare (comm g)))
    /\ dialogs g'
       = dialogs g
         ++ [ask_tare; place_weight; ask_weight;
             calibration_result rt
               (fst (SerialComm.send_cmd (calibrate_cmd rt f) CMD_TIMEOUT
                       (after_tare tare (comm g))))]
    /\ thread_errors g' = thread_errors g.
Proof.
  intros Hc Hf Hp.
  destruct (calibration_prompts_run rt (mkOperator tare (Some w)) g Hc)
    as (g1 & E & C1 & D1 & T1 & _).
  rewrite E. cbn [weight_entry tare_now] in *.
  rewrite (after_weight_prompt_accepts rt w f g1 Hf Hp).
  unfold DAQGui._run_cmd_async, thread_start.
  destruct (cmd_worker_cb_run rt (calibrate_cmd rt f) CMD_TIMEOUT g1)
    as (g2 & -> & C2 & D2 & T2).
  exists g2. split; [reflexivity|]. rewrite <- C1.
  split; [exact C2|]. split.
  - rewrite D2, D1, <- app_assoc. reflexivity.
  - now rewrite T2.
Qed.

Lemma after_tare_connected tare c :
  handle_open (ser c) = true -> handle_open (ser (after_tare tare c)) = true.
Proof. apply tare_keeps_connected. Qed.

Lemma after_tare_writes tare c :
  handle_open (ser c) = true ->
  writes_of (channel (after_tare tare c))
  = writes_of (channel c) ++ (if tare then [wire (lit "TARE")] else []).
Proof.
  intros Hc. destruct tare; cbn [after_tare]; [|now rewrite app_nil_r].
  now apply send_cmd_writes.
Qed.

(** X18: for every weight entry that [float] reads as a value above
    zero, the guided calibration on an open connection writes the TARE
    line, if the operator chose it, and then the line
    [CALIBRATE <value>], the value printed as Python prints the float, and
    nothing else. *)
Theorem calibration_sends_weight rt w f g tare :
  handle_open (ser (comm g)) = true ->
  py_float rt w = Some f ->
  float_le0 f = false ->
  encodable (calibrate_cmd rt f) = true ->
  let g' := snd (DAQGui.calibration_walkthrough rt
                   (mkOperator tare (Some w)) g) in
  writes_of (channel (comm g'))
  = writes_of (channel (comm g))
    ++ (if tare then [wire (lit "TARE")] else [])
    ++ [wire (calibrate_cmd rt f)].
Proof.
  intros Hc Hf Hp He. cbv zeta.
  destruct (calibration_accepted_run rt w f g tare Hc Hf Hp)
    as (g' & -> & C & _).
  cbn [snd]. rewrite C.
  rewrite (send_cmd_writes _ _ _ _ (after_tare_connected tare _ Hc)
             (encodable_wire _ He)).
  now rewrite after_tare_writes, <- app_assoc.
Qed.

Lemma calibration_sends_weight_witness :
  let g := window (connected_to (answering ok_reply)) in
  let g' := snd (DAQGui.calibration_walkthrough plain_runtime
                   (mkOperator true (Some (lit " 1_2.5e1 "))) g) in
  writes_of (channel (comm g'))
  = writes_of (channel (comm g))
    ++ [wire (lit "TARE")] ++ [wire (lit "CALIBRATE 125.0")].
Proof.
  exact (calibration_sends_weight plain_runtime (lit " 1_2.5e1 ")
           (FDec false 125 0) (window (connected_to (answering ok_reply)))
           true eq_refl eq_refl eq_refl eq_refl).
Defined.

(** X19: an entry that [float] reads as not-a-number or as positive
    infinity passes the validation ([nan <= 0] and [inf <= 0] are false):
    the line [CALIBRATE nan], respectively [CALIBRATE inf], is sent. *)
Theorem calibration_accepts_nan_and_inf rt w f g tare :
  handle_open (ser (comm g)) = true ->
  py_float rt w = Some f ->
  f = FNan \/ f = FInf false ->
  let g' := snd (DAQGui.calibration_walkthrough rt
                   (mkOperator tare (Some w)) g) in
  calibrate_writes (channel (comm g'))
  = calibrate_writes (channel (comm g))
    ++ [wire (lit "CALIBRATE " ++ match f with FNan => lit "nan" | _ => lit "inf" end)].
Proof.
  intros Hc Hf Hv. cbv zeta.
  assert (Hp : float_le0 f = false) by (destruct Hv; subst; reflexivity).
  assert (Hr : calibrate_cmd rt f
               = lit "CALIBRATE " ++ match f with FNan => lit "nan" | _ => lit "inf" end)
    by (destruct Hv; subst; reflexivity).
  destruct (calibration_accepted_run rt w f g tare Hc Hf Hp)
    as (g' & -> & C & _).
  cbn [snd]. rewrite C, Hr. unfold calibrate_writes.
  rewrite send_cmd_calibrate_writes;
    [| now apply after_tare_connected | destruct Hv; subst; reflexivity].
  rewrite after_tare_writes by assumption. rewrite filter_app.
  replace (filter is_calibrate (if tare then [wire (lit "TARE")] else []))
    with (@nil bytes) by (destruct tare; reflexivity).
  rewrite app_nil_r. f_equal. destruct Hv; subst; reflexivity.
Qed.

Lemma calibration_accepts_nan_and_inf_witness :
  let g := window (connected_to (answering ok_reply)) in
  py_float plain_runtime (lit "NaN") = Some FNan
  /\ calibrate_writes
       (channel (comm (snd (DAQGui.calibration_walkthrough plain_runtime
                              (mkOperator false (Some (lit "NaN"))) g))))
     = calibrate_writes (channel (comm g)) ++ [wire (lit "CALIBRATE nan")].
Proof.
  split; [reflexivity|].
  exact (calibration_accepts_nan_and_inf plain_runtime (lit "NaN") FNan
           (window (connected_to (answering ok_reply))) false
           eq_refl eq_refl (or_introl eq_refl)).
Defined.

(** X20: an accepted calibration ends with exactly one result dialog
    after the three prompts, and no thread dies: "Calibration failed" with
    the error when the send failed or the reply did not decode to a
    mapping, "Calibration success" with the [data] field when the [ok]
    field of the reply is true, "Calibration error" with the [msg] field
    otherwise (also when [ok] is missing). *)
Theorem calibration_reports_outcome rt w f g tare :
  handle_open (ser (comm g)) = true ->
  py_float rt w = Some f ->
  float_le0 f = false ->
  let r := DAQGui.calibration_walkthrough rt (mkOperator tare (Some w)) g in
  fst r = inr tt
  /\ dialogs (snd r)
     = dialogs g
       ++ [ask_tare; place_weight; ask_weight;
           calibration_result rt
             (fst (SerialComm.send_cmd (calibrate_cmd rt f) CMD_TIMEOUT
                     (after_tare tare (comm g))))]
  /\ thread_errors (snd r) = thread_errors g.
Proof.
  intros Hc Hf Hp. cbv zeta.
  destruct (calibration_accepted_run rt w f g tare Hc Hf Hp)
    as (g' & -> & _ & D & T).
  repeat split; assumption.
Qed.

Lemma calibration_reports_outcome_witness :
  let g := window (connected_to (answering ok_reply)) in
  let r := DAQGui.calibration_walkthrough plain_runtime
             (mkOperator false (Some (lit "500.0"))) g in
  fst r = inr tt
  /\ dialogs (snd r)
     = [ask_tare; place_weight; ask_weight;
        mkDialog ShowInfo (lit "Calibration success")
                 (lit "Calibration result:" ++ [NL] ++ lit "<json>")]
  /\ thread_errors (snd r) = [].
Proof.
  exact (calibration_reports_outcome plain_runtime (lit "500.0")
           (FDec false 5000 (-1)) (window (connected_to (answering ok_reply)))
           false eq_refl eq_refl eq_refl).
Defined.

(** *** The workflows never raise *)

Lemma after_weight_prompt_returns rt w g1 :
  fst (after_weight_prompt rt w g1) = inr tt.
Proof.
  destruct w as [[|c s]|]; [reflexivity| |reflexivity].
  unfold after_weight_prompt.
  destruct (py_float rt (c :: s)) as [f|] eqn:Hf.
  - destruct (float_le0 f) eqn:Hp.
    + unfold_monad. rewrite Hp. reflexivity.
    + unfold_monad. rewrite Hp. unfold DAQGui._run_cmd_async, thread_start.
      destruct (DAQGui._cmd_worker _ _ _ _ _) as [[e|u] g2]; reflexivity.
  - reflexivity.
Qed.

(** X14: the guided calibration and the full system test return
    normally in every state, whatever the operator answers and the device
    does; without an open connection each of them shows the "Not
    connected" warning and does nothing else. *)
Theorem workflows_return rt op g :
  fst (DAQGui.calibration_walkthrough rt op g) = inr tt
  /\ fst (DAQGui.full_system_test rt g) = inr tt
  /\ (handle_open (ser (comm g)) = false ->
      DAQGui.full_system_test rt g = (inr tt, add_dialog not_connected_warning g)
      /\ DAQGui.calibration_walkthrough rt op g
         = (inr tt, add_dialog not_connected_warning g)).
Proof.
  assert (N : handle_open (ser (comm g)) = false ->
              DAQGui.full_system_test rt g
              = (inr tt, add_dialog not_connected_warning g)
              /\ DAQGui.calibration_walkthrough rt op g
                 = (inr tt, add_dialog not_connected_warning g)).
  { intros Hc. unfold DAQGui.full_system_test, DAQGui.calibration_walkthrough.
    unfold bind, on_comm, SerialComm.is_open, with_lock, gets.
    rewrite Hc. destruct g; split; reflexivity. }
  destruct (handle_open (ser (comm g))) eqn:Hc.
  - split; [|split; [|discriminate]].
    + destruct (calibration_prompts_run rt op g Hc) as (g1 & -> & _).
      apply after_weight_prompt_returns.
    + unfold DAQGui.full_system_test.
      unfold bind, on_comm, SerialComm.is_open, with_lock, gets.
      rewrite Hc. cbn [negb]. unfold thread_start.
      destruct (DAQGui._full_test_worker rt _) as [[e|u] g2]; reflexivity.
  - destruct (N eq_refl) as [F C]. rewrite F, C. repeat split.
Qed.

(* ------------------------------------------------------------------ *)
(** * The rest of the window: connecting, closing, polling, the LED *)

Lemma app_ext (a b : App) :
  gui a = gui b -> cmb_ports_values a = cmb_ports_values b ->
  cmb_ports a = cmb_ports b -> ent_baud a = ent_baud b ->
  btn_connect a = btn_connect b -> lbl_status a = lbl_status b ->
  led_scale a = led_scale b -> pending_after a = pending_after b ->
  destroyed a = destroyed b -> comports a = comports b -> scans a = scans b ->
  a = b.
Proof. destruct a, b. simpl. intros; subst; reflexivity. Qed.

Ltac app_fields :=
  cbn [gui cmb_ports_values cmb_ports ent_baud btn_connect lbl_status led_scale
       pending_after destroyed comports scans
       set_gui set_cmb_ports_values set_cmb_ports set_btn_connect
       set_lbl_status set_pending_after set_destroyed next_scan fst snd].

Lemma close_open_run c s :
  ser c = Some s -> s_is_open s = true ->
  SerialComm.close c = (inr tt, mkComm None (dev c) (channel c ++ [CallClose])).
Proof.
  intros Hs Ho. destruct c as [sr d tr]. simpl in Hs. subst sr.
  destruct s as [p b o t ib cf]. simpl in Ho. subst o.
  unfold SerialComm.close, ser_close. unfold_monad. simpl.
  destruct cf; reflexivity.
Qed.

Lemma is_open_gui a :
  on_gui (on_comm SerialComm.is_open) a
  = (inr (handle_open (ser (comm (gui a)))), a).
Proof.
  unfold on_gui, on_comm. rewrite is_open_run.
  destruct a as [g ? ? ? ? ? ? ? ? ? ?]. destruct g. reflexivity.
Qed.

Section Connect.
Variable rt : PyRuntime.

Lemma connect_off_run a s :
  ser (comm (gui a)) = Some s -> s_is_open s = true ->
  DAQWindow.connect_serial rt a
  = (inr tt,
     set_gui (set_status (lit "Disconnected")
                (set_comm (mkComm None (dev (comm (gui a)))
                                  (channel (comm (gui a)) ++ [CallClose]))
                          (gui a)))
       (set_lbl_status (lit "Not connected") (lit "red")
          (set_btn_connect (lit "Connect") a))).
Proof.
  intros Hs Ho. unfold DAQWindow.connect_serial.
  unfold bind at 1. rewrite is_open_gui. rewrite Hs. cbn [handle_open].
  rewrite Ho.
  unfold bind at 1. unfold on_gui at 1, on_comm at 1.
  rewrite (close_open_run _ _ Hs Ho).
  unfold bind at 1. unfold modify at 1.
  unfold bind at 1. unfold modify at 1.
  unfold on_gui, modify.
  first [ reflexivity | f_equal; apply app_ext; app_fields; reflexivity ].
Qed.

Lemma connect_no_port_run a :
  handle_open (ser (comm (gui a))) = false -> cmb_ports a = [] ->
  DAQWindow.connect_serial rt a
  = (inr tt, set_gui (add_dialog no_port_warning (gui a)) a).
Proof.
  intros Hc Hp. unfold DAQWindow.connect_serial.
  unfold bind at 1. rewrite is_open_gui, Hc.
  unfold bind at 1. unfold gets at 1. rewrite Hp. reflexivity.
Qed.

Lemma baud_run (a : App) :
  try_except
    match py_int rt (ent_baud a) with
    | Some b => ret b
    | None => raise (Exn ValueError (lit "invalid literal for int() with base 10"))
    end
    (fun _ => ret BAUDRATE) a
  = (inr (baud_of rt (ent_baud a)), a).
Proof.
  unfold baud_of, try_except. destruct (py_int rt (ent_baud a)); reflexivity.
Qed.

Lemma not_open_cleanly c : handle_open (ser c) = false -> closes_cleanly c.
Proof.
  intros H s Hs Ho. rewrite Hs in H. simpl in H. congruence.
Qed.

Lemma connect_on_run a p port cf :
  handle_open (ser (comm (gui a))) = false ->
  cmb_ports a = p :: port ->
  next_open (comm (gui a)) (p :: port) = OpenOk cf ->
  let baud := baud_of rt (ent_baud a) in
  DAQWindow.connect_serial rt a
  = (inr tt,
     set_gui
       (add_entry (strftime rt (clock (gui a)) ++ lit " | "
                   ++ (lit "Connected to " ++ (p :: port) ++ lit " @ "
                       ++ str_of_Z baud) ++ [NL])
          (tick (set_status (lit "Connected " ++ (p :: port))
             (set_comm (mkComm (Some (mkSerial (p :: port) baud true
                                               READ_TIMEOUT [] cf))
                               (dev (comm (gui a)))
                               (channel (comm (gui a))
                                ++ [CallOpen (p :: port) baud READ_TIMEOUT]))
                       (gui a)))))
       (set_lbl_status (lit "Connected: " ++ (p :: port)) (lit "green")
          (set_btn_connect (lit "Disconnect") a))).
Proof.
  intros Hc Hp Ho. cbv zeta. unfold DAQWindow.connect_serial.
  unfold bind at 1. rewrite is_open_gui, Hc.
  unfold bind at 1. unfold gets at 1. rewrite Hp.
  unfold bind at 1. unfold gets at 1.
  unfold bind at 1. rewrite baud_run.
  unfold bind at 1. unfold try_except at 1. unfold bind at 1.
  unfold on_gui at 1, on_comm at 1.
  rewrite (open_run _ _ _ _ (not_open_cleanly _ Hc)). cbv zeta.
  rewrite Ho, Hc. cbn [app]. unfold ret at 1.
  unfold bind at 1. unfold modify at 1.
  unfold bind at 1. unfold modify at 1.
  unfold bind at 1. unfold on_gui at 1. unfold modify at 1.
  unfold on_gui. rewrite log_plain_run.
  first [ reflexivity | f_equal; apply app_ext; app_fields; reflexivity ].
Qed.

Lemma connect_failed_run a p port msg :
  handle_open (ser (comm (gui a))) = false ->
  cmb_ports a = p :: port ->
  next_open (comm (gui a)) (p :: port) = OpenFails msg ->
  let baud := baud_of rt (ent_baud a) in
  DAQWindow.connect_serial rt a
  = (inr tt,
     set_gui
       (add_dialog (connection_error (p :: port) msg)
          (set_comm (mkComm (option_map (set_is_open false)
                                        (ser (comm (gui a))))
                            (dev (comm (gui a)))
                            (channel (comm (gui a))
                             ++ [CallOpen (p :: port) baud READ_TIMEOUT]))
                    (gui a)))
       a).
Proof.
  intros Hc Hp Ho. cbv zeta. unfold DAQWindow.connect_serial.
  unfold bind at 1. rewrite is_open_gui, Hc.
  unfold bind at 1. unfold gets at 1. rewrite Hp.
  unfold bind at 1. unfold gets at 1.
  unfold bind at 1. rewrite baud_run.
  unfold bind at 1. unfold try_except at 1. unfold bind at 1.
  unfold on_gui at 1, on_comm at 1.
  rewrite (open_run _ _ _ _ (not_open_cleanly _ Hc)). cbv zeta.
  rewrite Ho, Hc. cbn [app].
  unfold bind at 1. unfold on_gui at 1. unfold show_str at 1. unfold modify at 1.
  unfold ret.
  first [ reflexivity | f_equal; apply app_ext; app_fields; reflexivity ].
Qed.

End Connect.

(** X21: pressing Connect while connected disconnects: the port is
    closed (also when closing the handle fails), the button reads
    "Connect", the label "Not connected" in red and the status bar
    "Disconnected"; nothing is logged and no dialog is shown. *)
Theorem connect_serial_disconnects rt a :
  handle_open (ser (comm (gui a))) = true ->
  let r := DAQWindow.connect_serial rt a in
  fst r = inr tt
  /\ ser (comm (gui (snd r))) = None
  /\ channel (comm (gui (snd r))) = channel (comm (gui a)) ++ [CallClose]
  /\ btn_connect (snd r) = lit "Connect"
  /\ lbl_status (snd r) = (lit "Not connected", lit "red")
  /\ status_var (gui (snd r)) = lit "Disconnected"
  /\ dialogs (gui (snd r)) = dialogs (gui a)
  /\ txt_responses (gui (snd r)) = txt_responses (gui a).
Proof.
  intros Hc. apply handle_open_inv in Hc as (s & Hs & Ho). cbv zeta.
  rewrite (connect_off_run rt a s Hs Ho). repeat split.
Qed.

Lemma connect_serial_disconnects_witness :
  let a := mkApp (window (connected_to (stuck (lit "busy")))) [] []
                 (lit "9600") (lit "Disconnect")
                 (lit "Connected: COM3", lit "green") (mkBin 255 0) [2000]
                 false (fun _ => []) 1 in
  let r := DAQWindow.connect_serial plain_runtime a in
  fst r = inr tt
  /\ ser (comm (gui (snd r))) = None
  /\ btn_connect (snd r) = lit "Connect".
Proof.
  cbv zeta.
  pose proof (connect_serial_disconnects plain_runtime
                (mkApp (window (connected_to (stuck (lit "busy")))) [] []
                       (lit "9600") (lit "Disconnect")
                       (lit "Connected: COM3", lit "green") (mkBin 255 0)
                       [2000] false (fun _ => []) 1) eq_refl) as H.
  cbv zeta in H. repeat split; apply H.
Defined.

(** X22: pressing Connect with no port selected shows the "No port"
    warning and does nothing else: the system is not asked to open
    anything. *)
Theorem connect_serial_needs_port rt a :
  handle_open (ser (comm (gui a))) = false ->
  cmb_ports a = [] ->
  DAQWindow.connect_serial rt a
  = (inr tt, set_gui (add_dialog no_port_warning (gui a)) a).
Proof. apply connect_no_port_run. Qed.

Lemma connect_serial_needs_port_witness :
  let a := DAQWindow.init (answering ok_reply) (fun _ => []) in
  DAQWindow.connect_serial plain_runtime a
  = (inr tt, set_gui (add_dialog no_port_warning (gui a)) a).
Proof.
  exact (connect_serial_needs_port plain_runtime
           (DAQWindow.init (answering ok_reply) (fun _ => [])) eq_refl eq_refl).
Defined.

(** X23: pressing Connect with a port selected opens that port with a
    read timeout of 5 s at the baud rate of the entry, or at 115200 when
    [int] does not accept the entry; on success the button reads
    "Disconnect", the label and the status bar name the port, and one
    line "Connected to <port> @ <baud>" is logged. *)
Theorem connect_serial_opens rt a port cf :
  handle_open (ser (comm (gui a))) = false ->
  cmb_ports a = port ->
  port <> [] ->
  0 <= baud_of rt (ent_baud a) ->
  next_open (comm (gui a)) port = OpenOk cf ->
  let baud := baud_of rt (ent_baud a) in
  let r := DAQWindow.connect_serial rt a in
  fst r = inr tt
  /\ ser (comm (gui (snd r))) = Some (mkSerial port baud true READ_TIMEOUT [] cf)
  /\ channel (comm (gui (snd r)))
     = channel (comm (gui a)) ++ [CallOpen port baud READ_TIMEOUT]
  /\ btn_connect (snd r) = lit "Disconnect"
  /\ lbl_status (snd r) = (lit "Connected: " ++ port, lit "green")
  /\ status_var (gui (snd r)) = lit "Connected " ++ port
  /\ dialogs (gui (snd r)) = dialogs (gui a)
  /\ txt_responses (gui (snd r))
     = txt_responses (gui a)
       ++ [strftime rt (clock (gui a)) ++ lit " | Connected to " ++ port
           ++ lit " @ " ++ str_of_Z baud ++ [NL]].
Proof.
  intros Hc Hp Hne _ Ho. cbv zeta. destruct port as [|p port]; [congruence|].
  rewrite (connect_on_run rt a p port cf Hc Hp Ho). cbv zeta.
  app_fields. gui_fields. repeat split.
  now rewrite <- !app_assoc.
Qed.

Lemma connect_serial_opens_witness :
  let a := mkApp (window (SerialComm.init (answering ok_reply)))
                 [lit "COM7"] (lit "COM7") (lit "fast") (lit "Connect")
                 (lit "Not connected", lit "red") (mkBin 255 0) [2000]
                 false (fun _ => [lit "COM7"]) 1 in
  let r := DAQWindow.connect_serial plain_runtime a in
  ser (comm (gui (snd r)))
  = Some (mkSerial (lit "COM7") 115200 true 5 [] None)
  /\ txt_responses (gui (snd r))
     = [lit "t0 | Connected to COM7 @ 115200" ++ [NL]].
Proof.
  cbv zeta.
  pose proof (connect_serial_opens plain_runtime
                (mkApp (window (SerialComm.init (answering ok_reply)))
                       [lit "COM7"] (lit "COM7") (lit "fast") (lit "Connect")
                       (lit "Not connected", lit "red") (mkBin 255 0) [2000]
                       false (fun _ => [lit "COM7"]) 1)
                (lit "COM7") None eq_refl eq_refl
                ltac:(discriminate) ltac:(vm_compute; discriminate) eq_refl) as H.
  cbv zeta in H. split; apply H.
Defined.

(** X24: when the port cannot be opened, Connect shows the error
    dialog "Failed to open <port>:" with the text of the error and leaves
    the window as it was: not connected, button, label and status bar
    unchanged, nothing logged. *)
Theorem connect_serial_reports_failure rt a port msg :
  handle_open (ser (comm (gui a))) = false ->
  cmb_ports a = port ->
  port <> [] ->
  next_open (comm (gui a)) port = OpenFails msg ->
  let r := DAQWindow.connect_serial rt a in
  fst r = inr tt
  /\ handle_open (ser (comm (gui (snd r)))) = false
  /\ dialogs (gui (snd r)) = dialogs (gui a) ++ [connection_error port msg]
  /\ btn_connect (snd r) = btn_connect a
  /\ lbl_status (snd r) = lbl_status a
  /\ status_var (gui (snd r)) = status_var (gui a)
  /\ txt_responses (gui (snd r)) = txt_responses (gui a).
Proof.
  intros Hc Hp Hne Ho. cbv zeta. destruct port as [|p port]; [congruence|].
  rewrite (connect_failed_run rt a p port msg Hc Hp Ho). cbv zeta.
  app_fields. gui_fields. repeat split.
  cbn [ser]. destruct (ser (comm (gui a))); reflexivity.
Qed.

Lemma connect_serial_reports_failure_witness :
  let a := mkApp (window (SerialComm.init (refusing (lit "Access is denied."))))
                 [lit "COM7"] (lit "COM7") (lit "9600") (lit "Connect")
                 (lit "Not connected", lit "red") (mkBin 255 0) [2000]
                 false (fun _ => [lit "COM7"]) 1 in
  let r := DAQWindow.connect_serial plain_runtime a in
  dialogs (gui (snd r))
  = [mkDialog ShowError (lit "Connection error")
       (lit "Failed to open COM7:" ++ [NL] ++ lit "Access is denied.")]
  /\ btn_connect (snd r) = lit "Connect".
Proof.
  cbv zeta.
  pose proof (connect_serial_reports_failure plain_runtime
                (mkApp (window (SerialComm.init
                                  (refusing (lit "Access is denied."))))
                       [lit "COM7"] (lit "COM7") (lit "9600") (lit "Connect")
                       (lit "Not connected", lit "red") (mkBin 255 0) [2000]
                       false (fun _ => [lit "COM7"]) 1)
                (lit "COM7") (lit "Access is denied.") eq_refl eq_refl
                ltac:(discriminate) eq_refl) as H.
  cbv zeta in H. split; apply H.
Defined.

(** X25: Connect is a toggle: pressed twice on a port the system
    grants, it opens the port and closes it again, and the window is back
    to "Connect" / "Not connected" / "Disconnected". *)
Theorem connect_serial_toggles rt a port cf :
  handle_open (ser (comm (gui a))) = false ->
  cmb_ports a = port ->
  port <> [] ->
  0 <= baud_of rt (ent_baud a) ->
  next_open (comm (gui a)) port = OpenOk cf ->
  let a2 := snd (DAQWindow.connect_serial rt
                   (snd (DAQWindow.connect_serial rt a))) in
  ser (comm (gui a2)) = None
  /\ channel (comm (gui a2))
     = channel (comm (gui a))
       ++ [CallOpen port (baud_of rt (ent_baud a)) READ_TIMEOUT; CallClose]
  /\ btn_connect a2 = lit "Connect"
  /\ lbl_status a2 = (lit "Not connected", lit "red")
  /\ status_var (gui a2) = lit "Disconnected".
Proof.
  intros Hc Hp Hne _ Ho. cbv zeta. destruct port as [|p port]; [congruence|].
  rewrite (connect_on_run rt a p port cf Hc Hp Ho). cbv zeta. cbn [snd].
  erewrite connect_off_run; [|app_fields; gui_fields; reflexivity | reflexivity].
  app_fields. gui_fields. repeat split. cbn [channel]. now rewrite <- app_assoc.
Qed.

Lemma connect_serial_toggles_witness :
  let a := mkApp (window (SerialComm.init (answering ok_reply)))
                 [lit "COM7"] (lit "COM7") (lit " 9_600 ") (lit "Connect")
                 (lit "Not connected", lit "red") (mkBin 255 0) [2000]
                 false (fun _ => [lit "COM7"]) 1 in
  let a2 := snd (DAQWindow.connect_serial plain_runtime
                   (snd (DAQWindow.connect_serial plain_runtime a))) in
  ser (comm (gui a2)) = None
  /\ channel (comm (gui a2)) = [CallOpen (lit "COM7") 9600 5; CallClose]
  /\ btn_connect a2 = lit "Connect"
  /\ lbl_status a2 = (lit "Not connected", lit "red")
  /\ status_var (gui a2) = lit "Disconnected".
Proof.
  exact (connect_serial_toggles plain_runtime
           (mkApp (window (SerialComm.init (answering ok_reply)))
                  [lit "COM7"] (lit "COM7") (lit " 9_600 ") (lit "Connect")
                  (lit "Not connected", lit "red") (mkBin 255 0) [2000]
                  false (fun _ => [lit "COM7"]) 1)
           (lit "COM7") None eq_refl eq_refl ltac:(discriminate)
           ltac:(vm_compute; discriminate) eq_refl).
Defined.

Lemma on_close_run a :
  DAQWindow.on_close a
  = (inr tt,
     set_destroyed
       (if handle_open (ser (comm (gui a)))
        then set_gui (set_comm (mkComm None (dev (comm (gui a)))
                                       (channel (comm (gui a)) ++ [CallClose]))
                               (gui a)) a
        else a)).
Proof.
  unfold DAQWindow.on_close. unfold bind at 1. rewrite is_open_gui.
  destruct (handle_open (ser (comm (gui a)))) eqn:Hc.
  - apply handle_open_inv in Hc as (s & Hs & Ho).
    unfold bind at 1. unfold try_except, on_gui, on_comm.
    rewrite (close_open_run _ _ Hs Ho). reflexivity.
  - reflexivity.
Qed.

(** X26: closing the window never raises, destroys the window and
    leaves the connection closed; the port is closed exactly when it was
    open. *)
Theorem on_close_closes a :
  let r := DAQWindow.on_close a in
  fst r = inr tt
  /\ destroyed (snd r) = true
  /\ handle_open (ser (comm (gui (snd r)))) = false
  /\ channel (comm (gui (snd r)))
     = channel (comm (gui a))
       ++ (if handle_open (ser (comm (gui a))) then [CallClose] else [])
  /\ dialogs (gui (snd r)) = dialogs (gui a)
  /\ txt_responses (gui (snd r)) = txt_responses (gui a).
Proof.
  cbv zeta. rewrite on_close_run.
  destruct (handle_open (ser (comm (gui a)))) eqn:Hc;
    app_fields; gui_fields; repeat split; auto.
  now rewrite app_nil_r.
Qed.

(** *** Port polling *)

Lemma update_run a :
  DAQWindow.update_serial_ports a
  = (inr tt,
     set_pending_after (pending_after a ++ [2000])
       (match cmb_ports a, comports a (scans a) with
        | [], p :: _ => set_cmb_ports p
        | _, _ => fun x => x
        end (set_cmb_ports_values (comports a (scans a)) (next_scan a)))).
Proof.
  unfold DAQWindow.update_serial_ports, DAQWindow._list_ports, after.
  unfold bind, modify, gets, ret.
  destruct a as [g vs cur eb bc ls led pa ds cp sc]. app_fields.
  destruct cur; destruct (cp sc); reflexivity.
Qed.

Lemma update_selection a :
  cmb_ports (snd (DAQWindow.update_serial_ports a))
  = match cmb_ports a with
    | [] => hd [] (comports a (scans a))
    | _ :: _ => cmb_ports a
    end.
Proof.
  rewrite update_run. destruct a as [g vs cur eb bc ls led pa ds cp sc].
  app_fields. destruct cur; destruct (cp sc); reflexivity.
Qed.

Lemma update_pending a :
  pending_after (snd (DAQWindow.update_serial_ports a))
  = pending_after a ++ [2000].
Proof. rewrite update_run. reflexivity. Qed.

Lemma handle_selection e a :
  cmb_ports a <> [] -> cmb_ports (snd (DAQWindow.handle e a)) = cmb_ports a.
Proof.
  intros Hs. destruct e; cbn [DAQWindow.handle].
  - unfold bind at 1. unfold gets at 1.
    destruct (pending_after a) as [|d rest]; [reflexivity|].
    unfold bind at 1. unfold modify at 1. rewrite update_selection.
    app_fields. destruct (cmb_ports a); [contradiction | reflexivity].
  - rewrite update_selection. destruct (cmb_ports a); [contradiction | reflexivity].
Qed.

(** X27: once a port is selected, no poll of the ports and no press
    of Refresh changes the selection -- also when the selected port is no
    longer among the ports found. *)
Theorem selected_port_is_kept es a :
  cmb_ports a <> [] -> cmb_ports (after_events es a) = cmb_ports a.
Proof.
  revert a. induction es as [|e es IH]; intros a Hs; [reflexivity|].
  cbn [after_events fold_left]. fold (after_events es (snd (DAQWindow.handle e a))).
  rewrite IH; rewrite handle_selection; auto.
Qed.

Lemma selected_port_is_kept_witness :
  let a := mkApp (window (SerialComm.init (answering ok_reply)))
                 [lit "COM7"] (lit "COM7") (lit "9600") (lit "Connect")
                 (lit "Not connected", lit "red") (mkBin 255 0) [2000]
                 false (fun _ => [lit "COM1"]) 1 in
  let a' := after_events [DAQWindow.TimerDue; DAQWindow.RefreshPressed] a in
  cmb_ports a' = lit "COM7" /\ cmb_ports_values a' = [lit "COM1"].
Proof.
  cbv zeta. split; [|reflexivity].
  apply (selected_port_is_kept [DAQWindow.TimerDue; DAQWindow.RefreshPressed]
           (mkApp (window (SerialComm.init (answering ok_reply)))
                 [lit "COM7"] (lit "COM7") (lit "9600") (lit "Connect")
                 (lit "Not connected", lit "red") (mkBin 255 0) [2000]
                 false (fun _ => [lit "COM1"]) 1)).
  discriminate.
Defined.

Lemma handle_pending e a :
  List.length (pending_after (snd (DAQWindow.handle e a)))
  = (List.length (pending_after a)
     + match e with DAQWindow.RefreshPressed => 1 | DAQWindow.TimerDue => 0 end)%nat.
Proof.
  destruct e; cbn [DAQWindow.handle].
  - unfold bind at 1. unfold gets at 1.
    destruct (pending_after a) as [|d rest] eqn:E; [simpl; now rewrite E|].
    unfold bind at 1. unfold modify at 1. rewrite update_pending.
    app_fields. rewrite length_app. simpl. lia.
  - rewrite update_pending, length_app. simpl. lia.
Qed.

(** X28: the polling of the ports never stops and never loses a
    timer: after any sequence of timer and Refresh events a fresh window
    has one pending poll, plus one more for every press of Refresh, and
    every event has scanned the ports once. *)
Theorem polling_never_stops d ports es :
  let a := after_events es (DAQWindow.init d ports) in
  List.length (pending_after a) = S (refreshes es)
  /\ scans a = S (List.length es).
Proof.
  cbv zeta.
  assert (G : forall es a,
             pending_after a <> [] ->
             List.length (pending_after (after_events es a))
             = (List.length (pending_after a) + refreshes es)%nat
             /\ scans (after_events es a) = (scans a + List.length es)%nat).
  { clear es. induction es as [|e es IH]; intros a Hp.
    - unfold refreshes. simpl. lia.
    - cbn [after_events fold_left].
      fold (after_events es (snd (DAQWindow.handle e a))).
      assert (Hp' : pending_after (snd (DAQWindow.handle e a)) <> []).
      { pose proof (handle_pending e a) as L.
        destruct (pending_after (snd (DAQWindow.handle e a))); [|discriminate].
        destruct (pending_after a); [contradiction|]. simpl in L. lia. }
      destruct (IH _ Hp') as (L & Sc). rewrite L, Sc, handle_pending.
      assert (Hs : scans (snd (DAQWindow.handle e a)) = S (scans a)).
      { destruct e; cbn [DAQWindow.handle].
        - unfold bind at 1. unfold gets at 1.
          destruct (pending_after a) as [|x rest]; [contradiction|].
          unfold bind at 1. unfold modify at 1. rewrite update_run.
          app_fields. destruct (cmb_ports a); destruct (comports a (scans a));
            reflexivity.
        - rewrite update_run. app_fields.
          destruct (cmb_ports a); destruct (comports a (scans a)); reflexivity. }
      rewrite Hs. unfold refreshes. destruct e; simpl; lia. }
  destruct (G es (DAQWindow.init d ports) ltac:(discriminate)) as (L & Sc).
  rewrite L, Sc. simpl. lia.
Qed.

(** *** Commands made of ASCII text can always be encoded *)

Lemma lit_small s : Forall (fun c => is_surrogate c = false) (lit s).
Proof.
  unfold lit. induction s as [|a s IH]; simpl; constructor; [|exact IH].
  pose proof (N_ascii_bounded a) as H. unfold is_surrogate.
  apply andb_false_iff. left. apply N.leb_gt. lia.
Qed.

Lemma rstrip_forall (P : N -> Prop) l : Forall P l -> Forall P (rstrip l).
Proof.
  intros H. unfold rstrip. apply Forall_rev, lstrip_forall, Forall_rev, H.
Qed.

Lemma no_surrogate_encodable s :
  Forall (fun c => is_surrogate c = false) s -> encodable s = true.
Proof.
  intros H. unfold encodable, encode_utf8.
  assert (G : forall l i, Forall (fun c => is_surrogate c = false) l ->
                          first_surrogate i l = None).
  { induction l as [|c l IH]; intros i Hl; [reflexivity|].
    inversion Hl; subst. simpl. rewrite H2. now apply IH. }
  rewrite G; [reflexivity|].
  apply Forall_app. split; [|repeat constructor].
  unfold strip. now apply rstrip_forall, lstrip_forall.
Qed.

Lemma set_led_encodable k : encodable (lit "SET_LED " ++ str_of_Z k) = true.
Proof.
  apply no_surrogate_encodable, Forall_app. split; apply lit_small.
Qed.

Lemma int_of_binfloat_between lo hi x :
  0 <= lo -> binfloat_between lo hi x -> lo <= int_of_binfloat x <= hi.
Proof.
  unfold binfloat_between, int_of_binfloat. intros Hlo [H1 H2].
  assert (Hp : 0 < 2 ^ Z.of_N (bf_shift x)) by (apply Z.pow_pos_nonneg; lia).
  rewrite Z.quot_div_nonneg by nia. split.
  - apply Z.div_le_lower_bound; lia.
  - apply Z.div_le_upper_bound; lia.
Qed.

(** X29: with the slider within its range the SET_LED button sends
    [SET_LED k], [k] the slider value without its fractional part, a whole
    number from 0 to 255; the slider itself is not moved. *)
Theorem set_led_sends_brightness rt a :
  handle_open (ser (comm (gui a))) = true ->
  binfloat_between 0 255 (led_scale a) ->
  let k := int_of_binfloat (led_scale a) in
  let r := DAQWindow.set_led_from_scale rt a in
  0 <= k <= 255
  /\ fst r = inr tt
  /\ writes_of (channel (comm (gui (snd r))))
     = writes_of (channel (comm (gui a))) ++ [wire (lit "SET_LED " ++ str_of_Z k)]
  /\ led_scale (snd r) = led_scale a.
Proof.
  intros Hc Hb. cbv zeta.
  split; [apply int_of_binfloat_between; [lia | exact Hb]|].
  unfold DAQWindow.set_led_from_scale. unfold bind, gets, on_gui.
  unfold DAQGui._run_cmd_async, thread_start. rewrite cmd_worker_run. cbv zeta.
  app_fields. gui_fields. split; [reflexivity|]. split; [|reflexivity].
  apply send_cmd_writes; [exact Hc|]. apply encodable_wire, set_led_encodable.
Qed.

Lemma set_led_sends_brightness_witness :
  let a := mkApp (window (connected_to (answering ok_reply)))
                 [lit "COM7"] (lit "COM7") (lit "9600") (lit "Disconnect")
                 (lit "Connected: COM7", lit "green") (mkBin 767 2) [2000]
                 false (fun _ => [lit "COM7"]) 1 in
  writes_of (channel (comm (gui (snd (DAQWindow.set_led_from_scale
                                        plain_runtime a)))))
  = [utf8 (lit "SET_LED 191" ++ [NL])].
Proof.
  cbv zeta.
  pose proof (set_led_sends_brightness plain_runtime
                (mkApp (window (connected_to (answering ok_reply)))
                       [lit "COM7"] (lit "COM7") (lit "9600") (lit "Disconnect")
                       (lit "Connected: COM7", lit "green") (mkBin 767 2) [2000]
                       false (fun _ => [lit "COM7"]) 1)
                eq_refl ltac:(unfold binfloat_between; simpl; lia)) as H.
  cbv zeta in H. apply H.
Defined.

(** X30: a fresh window has no port selected; the first poll selects
    the first port found, and Connect then opens it at 115200 baud (the
    initial text of the entry) with a read timeout of 5 s, without any
    dialog. *)
Theorem first_connect rt d ports p rest cf :
  ports 1%nat = p :: rest ->
  p <> [] ->
  dev_open d 0 p = OpenOk cf ->
  let a1 := snd (DAQWindow.handle DAQWindow.TimerDue (DAQWindow.init d ports)) in
  let a2 := snd (DAQWindow.connect_serial rt a1) in
  cmb_ports a1 = p
  /\ ser (comm (gui a2)) = Some (mkSerial p 115200 true 5 [] cf)
  /\ channel (comm (gui a2)) = [CallOpen p 115200 5]
  /\ btn_connect a2 = lit "Disconnect"
  /\ dialogs (gui a2) = [].
Proof.
  intros Hp Hne Ho. cbv zeta.
  assert (E : snd (DAQWindow.handle DAQWindow.TimerDue (DAQWindow.init d ports))
              = mkApp (window (SerialComm.init d)) (p :: rest) p
                      (str_of_Z BAUDRATE) (lit "Connect")
                      (lit "Not connected", lit "red") (mkBin 255 0) [2000]
                      false ports 2).
  { unfold DAQWindow.handle, DAQWindow.init, DAQWindow.update_serial_ports,
      DAQWindow._list_ports, after.
    unfold bind, gets, modify, ret. app_fields. rewrite Hp. reflexivity. }
  rewrite E. split; [reflexivity|].
  destruct p as [|c p]; [congruence|].
  match goal with
  | |- context [DAQWindow.connect_serial rt ?a] =>
    rewrite (connect_on_run rt a c p cf eq_refl eq_refl Ho)
  end.
  cbv zeta. app_fields. gui_fields. repeat split.
Qed.

Lemma first_connect_witness :
  let a1 := snd (DAQWindow.handle DAQWindow.TimerDue
                   (DAQWindow.init (answering ok_reply)
                      (fun k => match k with O => [] | _ => [lit "COM3"; lit "COM5"] end))) in
  let a2 := snd (DAQWindow.connect_serial plain_runtime a1) in
  cmb_ports a1 = lit "COM3"
  /\ ser (comm (gui a2)) = Some (mkSerial (lit "COM3") 115200 true 5 [] None)
  /\ channel (comm (gui a2)) = [CallOpen (lit "COM3") 115200 5]
  /\ btn_connect a2 = lit "Disconnect"
  /\ dialogs (gui a2) = [].
Proof.
  exact (first_connect plain_runtime (answering ok_reply)
           (fun k => match k with O => [] | _ => [lit "COM3"; lit "COM5"] end)
           (lit "COM3") [lit "COM5"] None eq_refl ltac:(discriminate) eq_refl).
Defined.
